(** * Hormone-mood simulation engine: persona/hormone_adjuster.py and
      persona/mood_tracker.py

    A shallow embedding of the two modules and the properties of their
    numeric core.

    Conventions of the embedding.
    - A Python [float] is an exact rational ([Q]); equality of numbers is
      equality of rationals ([==]).  Rounding of binary floating point is
      not part of the model; where a statement is decided by the rounding
      itself, the lines in question are also transcribed over binary64
      ([_b64]) and evaluated.
    - A Python [dict] used as a map (hormone levels, hormone deltas) is a
      [gmap string Q].  The dict literals that the code iterates with
      [.items()] (the weight tables and their rows, [mood_scores]) are
      association lists in the order in which the source writes them.
    - An exception that leaves the function is [None]; the files the code
      reads and writes are an explicit state. *)

From Stdlib Require Import QArith Qabs Qround Lqa Sorted Floats.
From stdpp Require Import gmap strings list fin_maps.

Local Open Scope Q_scope.

(** ** Numbers *)

(** Python's two-argument [max(a, b)]: [b] only when [b > a]. *)
Definition py_max (a b : Q) : Q := if Qlt_le_dec a b then b else a.

(** Python's two-argument [min(a, b)]: [b] only when [b < a]. *)
Definition py_min (a b : Q) : Q := if Qlt_le_dec b a then b else a.

(** [a > b] on floats. *)
Definition Qgtb (a b : Q) : bool := if Qlt_le_dec b a then true else false.

(** [a < b] on floats. *)
Definition Qltb (a b : Q) : bool := if Qlt_le_dec a b then true else false.

(** ** Strings *)

(** [str.lower()] on the ASCII letters; other bytes are left as they are. *)
Definition lower_ascii (c : Ascii.ascii) : Ascii.ascii :=
  let n := Ascii.nat_of_ascii c in
  if (Nat.leb 65 n && Nat.leb n 90)%bool then Ascii.ascii_of_nat (n + 32) else c.

Fixpoint lower (s : string) : string :=
  match s with
  | EmptyString => EmptyString
  | String c rest => String (lower_ascii c) (lower rest)
  end.

(** [key in table] and [table[key]] for a dict literal. *)
Fixpoint table_get {A : Type} (key : string) (table : list (string * A)) : option A :=
  match table with
  | [] => None
  | (k, v) :: rest => if String.eqb key k then Some v else table_get key rest
  end.

(** ** persona/hormone_adjuster.py *)

Definition _EMOTION_HORMONE_MAP : list (string * list (string * Q)) :=
  [ ("joy", [("dopamine", 0.12); ("serotonin", 0.08)]);
    ("love", [("oxytocin", 0.15); ("dopamine", 0.08); ("serotonin", 0.05)]);
    ("admiration", [("dopamine", 0.06); ("oxytocin", 0.04)]);
    ("excitement", [("dopamine", 0.10); ("cortisol", 0.02)]);
    ("gratitude", [("serotonin", 0.08); ("oxytocin", 0.06)]);
    ("relief", [("cortisol", -0.08); ("serotonin", 0.05)]);
    ("pride", [("dopamine", 0.08); ("serotonin", 0.04)]);
    ("optimism", [("dopamine", 0.06); ("serotonin", 0.06)]);
    ("caring", [("oxytocin", 0.10); ("serotonin", 0.04)]);
    ("approval", [("dopamine", 0.05); ("oxytocin", 0.03)]);
    ("anger", [("cortisol", 0.12); ("dopamine", -0.05); ("serotonin", -0.04)]);
    ("sadness", [("serotonin", -0.10); ("cortisol", 0.06); ("dopamine", -0.04)]);
    ("fear", [("cortisol", 0.15); ("serotonin", -0.06)]);
    ("disgust", [("cortisol", 0.08); ("serotonin", -0.05)]);
    ("annoyance", [("cortisol", 0.06); ("serotonin", -0.03)]);
    ("disappointment", [("dopamine", -0.08); ("serotonin", -0.05)]);
    ("embarrassment", [("cortisol", 0.08); ("oxytocin", -0.04)]);
    ("grief", [("serotonin", -0.12); ("cortisol", 0.10)]);
    ("nervousness", [("cortisol", 0.10); ("dopamine", -0.03)]);
    ("remorse", [("serotonin", -0.06); ("cortisol", 0.05)]);
    ("surprise", [("dopamine", 0.04); ("cortisol", 0.02)]);
    ("curiosity", [("dopamine", 0.05)]);
    ("confusion", [("cortisol", 0.03)]);
    ("neutral", []) ].

Definition _TOXICITY_HORMONE_MAP : list (string * list (string * Q)) :=
  [ ("TOXIC", [("cortisol", 0.15); ("serotonin", -0.08)]);
    ("toxic", [("cortisol", 0.15); ("serotonin", -0.08)]);
    ("severe_toxic", [("cortisol", 0.20); ("serotonin", -0.12); ("dopamine", -0.06)]);
    ("obscene", [("cortisol", 0.10); ("serotonin", -0.06)]);
    ("threat", [("cortisol", 0.18); ("dopamine", -0.08)]);
    ("insult", [("cortisol", 0.12); ("serotonin", -0.08)]);
    ("identity_hate", [("cortisol", 0.15); ("serotonin", -0.10)]) ].

Definition _RATE_LIMIT : Q := 0.08.
Definition _DECAY_STEP : Q := 0.01.
Definition _CONFIDENCE_THRESHOLD : Q := 0.3.
Definition _TOXICITY_THRESHOLD : Q := 0.5.

Definition _apply_resistance (current delta : Q) : Q :=
  let distance := 1 - Qabs (current - 0.5) * 2 in
  delta * (0.4 + 0.6 * distance).

(** One element of the list returned by [detect_emotion]. *)
Record EmotionSignal := { em_label : string; em_score : Q }.

(** The dict returned by [detect_toxicity]; it always has the three keys. *)
Record ToxicitySignal := { is_toxic : bool; tox_score : Q; tox_label : string }.

(** The dict returned by [analyze_contextual_sentiment] (without the echo
    of the text and of the full confidence metrics). *)
Record Analysis := {
  primary_emotion : string;
  emotion_intensity : Q;
  emotions_detected : list EmotionSignal;
  toxicity_detected : list string;
  toxicity_score : Q;
  hormone_deltas : gmap string Q;
  adjustment_reasons : list string
}.

(** [for hormone, base_delta in row.items():
       hormone_deltas[hormone] = hormone_deltas.get(hormone, 0) + base_delta * scale] *)
Fixpoint accumulate (row : list (string * Q)) (scale : Q -> Q)
    (hormone_deltas : gmap string Q) : gmap string Q :=
  match row with
  | [] => hormone_deltas
  | (hormone, base_delta) :: rest =>
      let scaled_delta := scale base_delta in
      accumulate rest scale
        (<[hormone := default 0 (hormone_deltas !! hormone) + scaled_delta]> hormone_deltas)
  end.

(** The emotion pass of [analyze_contextual_sentiment] (lines 122-128). *)
Definition emotion_pass (primary_emotion : string) (emotion_intensity overall_confidence : Q)
    : gmap string Q * list string :=
  match table_get primary_emotion _EMOTION_HORMONE_MAP with
  | Some emotion_deltas =>
      (accumulate emotion_deltas
         (fun base_delta => base_delta * emotion_intensity * overall_confidence) ∅,
       [("emotion_" +:+ primary_emotion)%string])
  | None => (∅, [])
  end.

(** The toxicity pass (lines 131-140), over the list [toxicity_detected]. *)
Fixpoint toxicity_pass (toxicity_detected : list string) (max_toxicity_score : Q)
    (acc : gmap string Q * list string) : gmap string Q * list string :=
  match toxicity_detected with
  | [] => acc
  | tox_label :: rest =>
      toxicity_pass rest max_toxicity_score
        match table_get tox_label _TOXICITY_HORMONE_MAP with
        | Some tox_deltas =>
            (accumulate tox_deltas (fun base_delta => base_delta * max_toxicity_score) acc.1,
             acc.2 ++ [("toxicity_" +:+ tox_label)%string])
        | None => acc
        end
  end.

(** The primary emotion and its intensity (lines 94-102). *)
Definition primary_of (emotions : list EmotionSignal) (overall_confidence : Q)
    : string * Q :=
  match emotions with
  | e :: _ =>
      if Qgtb overall_confidence _CONFIDENCE_THRESHOLD
      then (lower (em_label e), em_score e)
      else ("neutral"%string, 0)
  | [] => ("neutral"%string, 0)
  end.

(** [toxicity_detected] and [max_toxicity_score] (lines 105-115). *)
Definition toxicity_of (toxicity_result : ToxicitySignal) : list string * Q :=
  if is_toxic toxicity_result then
    let toxic_score := tox_score toxicity_result in
    let toxic_label := lower (tox_label toxicity_result) in
    if Qgtb toxic_score _TOXICITY_THRESHOLD
    then ([toxic_label], toxic_score)
    else ([], 0)
  else ([], 0).

(** [analyze_contextual_sentiment], given what the three classifiers
    returned for the text: the emotion list, the toxicity dict and the
    overall confidence. *)
Definition analyze_contextual_sentiment (emotions : list EmotionSignal)
    (toxicity_result : ToxicitySignal) (overall_confidence : Q) : Analysis :=
  let primary := primary_of emotions overall_confidence in
  let toxic := toxicity_of toxicity_result in
  let adjustments :=
    toxicity_pass toxic.1 toxic.2
      (emotion_pass primary.1 primary.2 overall_confidence) in
  {| primary_emotion := primary.1;
     emotion_intensity := primary.2;
     emotions_detected := take 3 emotions;
     toxicity_detected := toxic.1;
     toxicity_score := toxic.2;
     hormone_deltas := adjustments.1;
     adjustment_reasons := adjustments.2 |}.

(** The persisted hormone document: [None] when the file is absent or
    cannot be parsed. *)
Definition HormoneDoc : Type := option (gmap string Q).

Definition default_hormone_levels : gmap string Q :=
  <["dopamine" := 0.5]> (<["serotonin" := 0.5]> (<["cortisol" := 0.5]>
    (<["oxytocin" := 0.5]> ∅))).

(** Modelled from the spec: [load_hormone_levels] lives in
    persona/hormone_api.py, which is not among the sources.  Section 4.1:
    it returns the persisted levels, or the four baselines when the
    document is absent or corrupt. *)
Definition load_hormone_levels (doc : HormoneDoc) : gmap string Q :=
  default default_hormone_levels doc.

(** Modelled from the spec: [save_hormone_levels] lives in
    persona/hormone_api.py, which is not among the sources.  Section 4.1:
    the levels are clamped to [0,1] before they replace the document. *)
Definition save_hormone_levels (levels : gmap string Q) : HormoneDoc :=
  Some ((fun v => py_max 0 (py_min 1 v)) <$> levels).

(** The loop of lines 169-176 over the items of [hormone_deltas].  It reads
    [hormones] and writes [updated]; [hormones[hormone]] raises [KeyError]
    for a hormone that the store does not have.  Python visits the items in
    insertion order, [map_to_list] in its own order: the keys of a dict are
    distinct, and for distinct keys the loop does not depend on the order
    (lemma [adjust_loop_order]). *)
Fixpoint adjust_loop (hormones : gmap string Q) (items : list (string * Q))
    (updated : gmap string Q) : option (gmap string Q) :=
  match items with
  | [] => Some updated
  | (hormone, base_delta) :: rest =>
      match hormones !! hormone with
      | None => None
      | Some current =>
          let delta := py_max (- _RATE_LIMIT) (py_min _RATE_LIMIT base_delta) in
          let delta := _apply_resistance current delta in
          adjust_loop hormones rest
            (<[hormone := py_max 0 (py_min 1 (current + delta))]> updated)
      end
  end.

(** The body of the decay loop of lines 180-186 for one value. *)
Definition decay_step (level : Q) : Q :=
  if Qlt_le_dec (Qabs (level - 0.5)) _DECAY_STEP then 0.5
  else if Qlt_le_dec 0.5 level then level - _DECAY_STEP
  else level + _DECAY_STEP.

(** Lines 160-189 of [apply_contextual_hormone_adjustments] for a given
    analysis: the returned levels and the document after the save, or
    [None] when a [KeyError] leaves the function before the save. *)
Definition apply_analysis (analysis : Analysis) (doc : HormoneDoc)
    : option (gmap string Q * HormoneDoc) :=
  let hormones := load_hormone_levels doc in
  let updated := hormones in
  match map_to_list (hormone_deltas analysis) with
  | [] =>
      let updated := decay_step <$> updated in
      Some (updated, save_hormone_levels updated)
  | items =>
      match adjust_loop hormones items updated with
      | Some updated => Some (updated, save_hormone_levels updated)
      | None => None
      end
  end.

(** [apply_contextual_hormone_adjustments(text)], given what the
    classifiers returned for the text. *)
Definition apply_contextual_hormone_adjustments (emotions : list EmotionSignal)
    (toxicity_result : ToxicitySignal) (overall_confidence : Q) (doc : HormoneDoc)
    : option (gmap string Q * HormoneDoc) :=
  apply_analysis
    (analyze_contextual_sentiment emotions toxicity_result overall_confidence) doc.

(** A sequence of updates; an update that raises saves nothing. *)
Fixpoint run_updates (analyses : list Analysis) (doc : HormoneDoc) : HormoneDoc :=
  match analyses with
  | [] => doc
  | analysis :: rest =>
      match apply_analysis analysis doc with
      | Some (_, doc') => run_updates rest doc'
      | None => run_updates rest doc
      end
  end.

(** [n] neutral updates of one level. *)
Fixpoint decay_iter (n : nat) (level : Q) : Q :=
  match n with
  | O => level
  | S n' => decay_iter n' (decay_step level)
  end.

(** Every value of the store is in [0,1]. *)
Definition in_unit_range (levels : gmap string Q) : Prop :=
  map_Forall (fun _ v => 0 <= v <= 1) levels.

Definition hormone_names : list string :=
  ["dopamine"; "serotonin"; "cortisol"; "oxytocin"]%string.

(** ** persona/mood_tracker.py *)

(** The dict [mood_scores] of [calculate_mood_from_hormones] (lines 57-115),
    in insertion order.  Every key is assigned at most once, so the dict is
    the concatenation of the entries whose gates hold. *)
Definition mood_scores (hormone_levels : gmap string Q) : list (string * Q) :=
  let dopamine := default 0.5 (hormone_levels !! "dopamine"%string) in
  let serotonin := default 0.5 (hormone_levels !! "serotonin"%string) in
  let cortisol := default 0.5 (hormone_levels !! "cortisol"%string) in
  let oxytocin := default 0.5 (hormone_levels !! "oxytocin"%string) in
  let dopa_dev := dopamine - 0.5 in
  let sero_dev := serotonin - 0.5 in
  let cort_dev := cortisol - 0.5 in
  let oxy_dev := oxytocin - 0.5 in
  (if Qgtb cort_dev 0.1 then
     (if Qltb sero_dev (-0.05)
      then [("anxious"%string, Qabs cort_dev + Qabs sero_dev * 0.7)] else []) ++
     (if Qltb dopa_dev (-0.05)
      then [("restless"%string, Qabs cort_dev + Qabs dopa_dev * 0.6)] else []) ++
     (if Qgtb cort_dev 0.15
      then [("stressed"%string, Qabs cort_dev * 1.2)] else [])
   else []) ++
  (if Qltb sero_dev (-0.08) then
     if Qltb dopa_dev (-0.05)
     then [("depressed"%string, Qabs sero_dev + Qabs dopa_dev * 0.8)]
     else if Qgtb cort_dev 0.05
     then [("melancholic"%string, Qabs sero_dev + Qabs cort_dev * 0.6)]
     else [("sad"%string, Qabs sero_dev * 1.1)]
   else []) ++
  (if Qgtb dopa_dev 0.08 then
     if Qgtb oxy_dev 0.05
     then [("euphoric"%string, dopa_dev + oxy_dev * 0.8)]
     else if Qgtb sero_dev 0.05
     then [("cheerful"%string, dopa_dev + sero_dev * 0.7)]
     else [("energetic"%string, dopa_dev * 1.2)]
   else []) ++
  (if Qgtb oxy_dev 0.1 then
     if Qgtb dopa_dev 0.05
     then [("loving"%string, oxy_dev + dopa_dev * 0.6)]
     else if Qgtb sero_dev 0.03
     then [("affectionate"%string, oxy_dev + sero_dev * 0.8)]
     else [("caring"%string, oxy_dev * 1.1)]
   else []) ++
  (if (Qgtb dopa_dev 0.03 && Qgtb sero_dev 0.03 && Qltb cort_dev 0.1)%bool
   then [("content"%string, (dopa_dev + sero_dev) * 0.8)] else []) ++
  (if (Qgtb (Qabs dopa_dev) 0.05 && Qgtb (Qabs sero_dev) 0.05
       && Qgtb (Qabs cort_dev) 0.05)%bool
   then [("conflicted"%string, (Qabs dopa_dev + Qabs sero_dev + Qabs cort_dev) * 0.4)]
   else []).

(** The candidate names in the order in which the source assigns them. *)
Definition mood_catalogue : list string :=
  ["anxious"; "restless"; "stressed"; "depressed"; "melancholic"; "sad";
   "euphoric"; "cheerful"; "energetic"; "loving"; "affectionate"; "caring";
   "content"; "conflicted"]%string.

(** Python's [max(items, key=lambda x: x[1])] on a non-empty sequence: the
    running best is replaced only by an item with a greater key. *)
Fixpoint max_by_score (best : string * Q) (items : list (string * Q)) : string * Q :=
  match items with
  | [] => best
  | x :: rest =>
      if Qgtb x.2 best.2 then max_by_score x rest else max_by_score best rest
  end.

Definition calculate_mood_from_hormones (hormone_levels : gmap string Q) : string * Q :=
  match mood_scores hormone_levels with
  | [] => ("neutral"%string, 0.5)
  | first :: rest =>
      let top_mood := max_by_score first rest in
      let mood_name := top_mood.1 in
      let raw_intensity := top_mood.2 in
      let intensity := py_min 1.0 (py_max 0.1 raw_intensity) in
      (mood_name, intensity)
  end.

(** A JSON file on disk: absent, present but rejected by [json.load], or
    holding a value of the expected shape. *)
Inductive FileState (A : Type) : Type :=
  | Missing
  | Unparsable
  | Holds (content : A).
Arguments Missing {A}.
Arguments Unparsable {A}.
Arguments Holds {A} content.

(** What [open(path, "w")] followed by [json.dump] does this time. *)
Inductive WriteOutcome : Type :=
  | Written      (* no exception *)
  | OpenFails    (* mkdir or open raises: the file is untouched *)
  | DumpFails.   (* json.dump raises after the file was truncated *)

Definition write_file {A : Type} (outcome : WriteOutcome) (content : A)
    (old : FileState A) : FileState A :=
  match outcome with
  | Written => Holds content
  | OpenFails => old
  | DumpFails => Unparsable
  end.

(** The mood-context dict; [.get] with a default reads an optional key. *)
Record MoodContext := {
  ctx_is_hybrid : option bool;
  ctx_is_emergent : option bool;
  ctx_stability : option string
}.

Record MoodData := {
  current_mood : string;
  intensity : Q;
  context : MoodContext;
  last_updated : string
}.

Record HistoryEntry := {
  timestamp : string;
  mood : string;
  entry_intensity : Q;
  reason : string;
  is_hybrid : bool;
  is_emergent : bool;
  stability : string;
  hormone_snapshot : option (gmap string Q)
}.

(** persona/mood_adjustments.json and persona/mood_history.json. *)
Record Files := {
  mood_adjustments_json : FileState MoodData;
  mood_history_json : FileState (list HistoryEntry)
}.

(** What the outside world answers during one call of [update_mood]. *)
Record Env := {
  utcnow_mood : string;            (* first datetime.utcnow().isoformat() *)
  utcnow_entry : string;           (* second one *)
  hormone_doc : HormoneDoc;        (* the hormone document at that time *)
  mood_write : WriteOutcome;       (* writing mood_adjustments.json *)
  history_init_write : WriteOutcome; (* creating a missing history file *)
  history_write : WriteOutcome     (* writing mood_history.json *)
}.

(** [load_mood_history]: the list it returns and the history file after it. *)
Definition load_mood_history (init_write : WriteOutcome)
    (file : FileState (list HistoryEntry))
    : list HistoryEntry * FileState (list HistoryEntry) :=
  match file with
  | Missing => ([], write_file init_write [] Missing)
  | Unparsable => ([], Unparsable)
  | Holds history => (history, Holds history)
  end.

Definition save_mood_history (outcome : WriteOutcome) (history : list HistoryEntry)
    (file : FileState (list HistoryEntry)) : FileState (list HistoryEntry) :=
  write_file outcome history file.

(** [needle in s]. *)
Fixpoint str_prefix (p s : string) : bool :=
  match p, s with
  | EmptyString, _ => true
  | String a p', String b s' => (Ascii.eqb a b && str_prefix p' s')%bool
  | String _ _, EmptyString => false
  end.

Fixpoint str_contains (needle s : string) : bool :=
  (str_prefix needle s ||
   match s with
   | EmptyString => false
   | String _ s' => str_contains needle s'
   end)%bool.

(** [history[-100:]]. *)
Definition last_100 (history : list HistoryEntry) : list HistoryEntry :=
  drop (length history - 100) history.

Section UpdateMood.

(** [get_mood_context] is imported from persona/hormone_api.py, which is
    not among the sources; [update_mood] only stores what it returns. *)
Variable get_mood_context : string -> Q -> MoodContext.

(** The arguments of one call. *)
Record Call := {
  call_env : Env;
  new_mood : string;
  call_intensity : Q;
  call_reason : string;
  hormone_context : option MoodContext
}.

Definition resolved_context (c : Call) : MoodContext :=
  match hormone_context c with
  | None => get_mood_context (new_mood c) (call_intensity c)
  | Some ctx => ctx
  end.

(** [mood_data] of lines 143-148. *)
Definition mood_data_of (c : Call) : MoodData :=
  {| current_mood := new_mood c;
     intensity := call_intensity c;
     context := resolved_context c;
     last_updated := utcnow_mood (call_env c) |}.

(** [history_entry] of lines 159-171. *)
Definition history_entry_of (c : Call) : HistoryEntry :=
  let ctx := resolved_context c in
  let r := call_reason c in
  {| timestamp := utcnow_entry (call_env c);
     mood := new_mood c;
     entry_intensity := call_intensity c;
     reason := r;
     is_hybrid := default false (ctx_is_hybrid ctx);
     is_emergent := default false (ctx_is_emergent ctx);
     stability := default "medium"%string (ctx_stability ctx);
     hormone_snapshot :=
       if (negb (String.eqb r "") &&
           (str_contains "contextual" r || str_contains "hormone_event" r))%bool
       then Some (load_hormone_levels (hormone_doc (call_env c)))
       else None |}.

(** [update_mood]: the two files after the call. *)
Definition update_mood (c : Call) (files : Files) : Files :=
  let env := call_env c in
  match mood_write env with
  | Written =>
      let '(history, history_file) :=
        load_mood_history (history_init_write env) (mood_history_json files) in
      let history := history ++ [history_entry_of c] in
      let history :=
        if Nat.ltb 100 (length history) then last_100 history else history in
      {| mood_adjustments_json := Holds (mood_data_of c);
         mood_history_json := save_mood_history (history_write env) history history_file |}
  | failed =>
      (* except Exception: print(...); return *)
      {| mood_adjustments_json :=
           write_file failed (mood_data_of c) (mood_adjustments_json files);
         mood_history_json := mood_history_json files |}
  end.

(** Did the call append its entry to the persisted ledger? *)
Definition succeeds (c : Call) : bool :=
  match mood_write (call_env c), history_write (call_env c) with
  | Written, Written => true
  | _, _ => false
  end.

Fixpoint run_calls (calls : list Call) (files : Files) : Files :=
  match calls with
  | [] => files
  | c :: rest => run_calls rest (update_mood c files)
  end.

End UpdateMood.

(** What a reader of the history file gets: the persisted ledger. *)
Definition ledger (files : Files) : list HistoryEntry :=
  match mood_history_json files with
  | Holds history => history
  | Missing | Unparsable => []
  end.

(** ** Auxiliary definitions for the statements *)

(** The factor of the resistance curve. *)
Definition resistance_factor (current : Q) : Q :=
  0.4 + 0.6 * (1 - Qabs (current - 0.5) * 2).

(** The level that lines 171-175 compute from the current level and the
    raw delta of one hormone. *)
Definition new_level (current base_delta : Q) : Q :=
  py_max 0 (py_min 1
    (current + _apply_resistance current
                 (py_max (- _RATE_LIMIT) (py_min _RATE_LIMIT base_delta)))).

(** An executable check of [in_unit_range]. *)
Definition in_unit_rangeb (levels : gmap string Q) : bool :=
  forallb (fun kv => (Qle_bool 0 kv.2 && Qle_bool kv.2 1)%bool) (map_to_list levels).

(** A store at the extremes, updated by a frightened and then by a neutral
    message. *)
Definition saturated_levels : gmap string Q :=
  <["dopamine" := 0]> (<["serotonin" := 1]> (<["cortisol" := 1]>
    (<["oxytocin" := 0.5]> ∅))).

Definition fear_signal : list EmotionSignal :=
  [ {| em_label := "fear"; em_score := 1 |} ].

Definition not_toxic : ToxicitySignal :=
  {| is_toxic := false; tox_score := 0; tox_label := "NOT_TOXIC" |}.

Definition toxic_signal : ToxicitySignal :=
  {| is_toxic := true; tox_score := 0.9; tox_label := "TOXIC" |}.

Definition joy_signal : list EmotionSignal :=
  [ {| em_label := "joy"; em_score := 1.0 |} ].

(** Every row of a weight table names each hormone once. *)
Definition rows_unique (table : list (string * list (string * Q))) : Prop :=
  Forall (fun entry => NoDup entry.2.*1) table.

(** Every row of a weight table only names the four hormones. *)
Definition rows_known (table : list (string * list (string * Q))) : Prop :=
  Forall (fun entry => Forall (fun kv => kv.1 ∈ hormone_names) entry.2) table.

(** The delta map before the toxicity pass. *)
Definition emotion_deltas_of (emotions : list EmotionSignal) (overall_confidence : Q)
    : gmap string Q :=
  (emotion_pass (primary_of emotions overall_confidence).1
     (primary_of emotions overall_confidence).2 overall_confidence).1.

(** The scenarios of [test_mood_calculation]. *)
Definition levels_of (dopamine serotonin cortisol oxytocin : Q) : gmap string Q :=
  <["dopamine" := dopamine]> (<["serotonin" := serotonin]>
    (<["cortisol" := cortisol]> (<["oxytocin" := oxytocin]> ∅))).

(** Lines 173-177: append, then keep the last 100. *)
Definition append_and_cap (history : list HistoryEntry) (entry : HistoryEntry)
    : list HistoryEntry :=
  let history := history ++ [entry] in
  if Nat.ltb 100 (length history) then last_100 history else history.

Definition no_context : string -> Q -> MoodContext :=
  fun _ _ => {| ctx_is_hybrid := None; ctx_is_emergent := None; ctx_stability := None |}.

Definition sample_call (mood_outcome history_outcome : WriteOutcome) : Call :=
  {| call_env := {| utcnow_mood := "2025-01-01T00:00:00";
                    utcnow_entry := "2025-01-01T00:00:01";
                    hormone_doc := None;
                    mood_write := mood_outcome;
                    history_init_write := Written;
                    history_write := history_outcome |};
     new_mood := "anxious";
     call_intensity := 0.51;
     call_reason := "contextual_analysis";
     hormone_context := None |}.

Definition one_entry_files : Files :=
  update_mood no_context (sample_call Written Written)
    {| mood_adjustments_json := Missing; mood_history_json := Missing |}.

(** ** persona/emotion_nsfw_checker.py *)

(** The characters that [str.strip()] and [str.split()] treat as white
    space, among the ASCII ones. *)
Definition is_space (c : Ascii.ascii) : bool :=
  let n := Ascii.nat_of_ascii c in
  ((Nat.leb 9 n && Nat.leb n 13) || (Nat.leb 28 n && Nat.leb n 32))%bool.

(** [not text or not text.strip()]. *)
Fixpoint is_blank (text : string) : bool :=
  match text with
  | EmptyString => true
  | String c rest => (is_space c && is_blank rest)%bool
  end.

(** [len(text.split())]: the number of maximal runs of non-space
    characters; [after_space] tells whether a new word may start. *)
Fixpoint count_words (after_space : bool) (text : string) : nat :=
  match text with
  | EmptyString => 0
  | String c rest =>
      if is_space c then count_words true rest
      else ((if after_space then 1 else 0) + count_words false rest)%nat
  end.

Definition word_count (text : string) : nat := count_words true text.

(** What a [transformers] text-classification pipeline returns for one
    input: a list with one list of results, a list of results, or one
    result. *)
Inductive PipelineOutput : Type :=
  | Batch (rows : list (list EmotionSignal))
  | Flat (row : list EmotionSignal)
  | Single (result : EmotionSignal).

(** The [isinstance] cascade of lines 90-95 and 138-143. *)
Definition pipeline_scores (results : PipelineOutput) : list EmotionSignal :=
  match results with
  | Batch (first :: _) => first
  | Batch [] => []
  | Flat row => row
  | Single result => [result]
  end.

(** One step of a stable sort by descending score: [x], which stood before
    the items of [sorted], goes before the first item that does not score
    more than it. *)
Fixpoint insert_by_score (x : EmotionSignal) (sorted : list EmotionSignal)
    : list EmotionSignal :=
  match sorted with
  | [] => [x]
  | y :: rest =>
      if Qgtb (em_score y) (em_score x) then y :: insert_by_score x rest
      else x :: y :: rest
  end.

(** [emotions.sort(key=lambda x: x["score"], reverse=True)]: the sort is
    stable, so its result is the one of the stable insertion sort. *)
Definition sort_by_score (emotions : list EmotionSignal) : list EmotionSignal :=
  foldr insert_by_score [] emotions.

(** [detect_emotion(text, min_confidence)].  [processed_text] is the value
    of [preprocess_text(text)]; [pipeline] is what the emotion model
    returns for it, [None] when the call or the reading of a result
    raises. *)
Definition detect_emotion (text processed_text : string)
    (pipeline : option PipelineOutput) (min_confidence : Q) : list EmotionSignal :=
  if is_blank text then []
  else if String.eqb processed_text "" then []
  else
    match pipeline with
    | None => []
    | Some results =>
        let emotion_scores := pipeline_scores results in
        let emotions :=
          filter (fun result => Qgtb (em_score result) min_confidence = true)
                 emotion_scores in
        sort_by_score emotions
    end.

(** The loop of lines 150-156: the score of the first result labelled
    TOXIC. *)
Fixpoint find_toxic (toxicity_scores : list EmotionSignal) : option Q :=
  match toxicity_scores with
  | [] => None
  | result :: rest =>
      if String.eqb (em_label result) "TOXIC" then Some (em_score result)
      else find_toxic rest
  end.

Definition not_toxic_result : ToxicitySignal :=
  {| is_toxic := false; tox_score := 0.0; tox_label := "NOT_TOXIC" |}.

(** [detect_toxicity(text, min_confidence)], with the same conventions as
    [detect_emotion]. *)
Definition detect_toxicity (text processed_text : string)
    (pipeline : option PipelineOutput) (min_confidence : Q) : ToxicitySignal :=
  if is_blank text then not_toxic_result
  else if String.eqb processed_text "" then not_toxic_result
  else
    match pipeline with
    | None => not_toxic_result
    | Some results =>
        match find_toxic (pipeline_scores results) with
        | None => not_toxic_result
        | Some toxic_score =>
            if Qgtb toxic_score min_confidence
            then {| is_toxic := true; tox_score := toxic_score; tox_label := "TOXIC" |}
            else {| is_toxic := false; tox_score := toxic_score;
                    tox_label := "NOT_TOXIC" |}
        end
    end.

(** The dict returned by [analyze_sentiment_confidence]. *)
Record ConfidenceMetrics := {
  overall_confidence : Q;
  emotion_clarity : Q;
  context_ambiguity : Q;
  text_quality : Q;
  toxicity_confidence : Q
}.

Definition ambiguous_phrases : list string :=
  ["i guess"; "maybe"; "sort of"; "kind of"; "perhaps"; "might be"]%string.

(** Lines 189-194. *)
Definition emotion_clarity_of (emotions : list EmotionSignal) : Q :=
  match emotions with
  | [] => 0.1
  | top :: others =>
      let top_score := em_score top in
      let second_score := match others with second :: _ => em_score second | [] => 0 end in
      py_min 1.0 (top_score - second_score + 0.2)
  end.

(** Lines 197-206. *)
Definition text_quality_of (text : string) : Q :=
  if is_blank text then 0.0
  else
    let n := word_count text in
    if Nat.leb 5 n then py_min 1.0 (inject_Z (Z.of_nat n) / 10)
    else if Nat.leb 2 n then 0.6
    else 0.3.

(** Lines 209-213. *)
Definition context_ambiguity_of (text : string) : Q :=
  if existsb (fun phrase => str_contains phrase (lower text)) ambiguous_phrases
  then 0.4 else 0.8.

(** Lines 216-219. *)
Definition toxicity_confidence_of (toxicity : ToxicitySignal) : Q :=
  if is_toxic toxicity then py_min 1.0 (tox_score toxicity) else 0.0.

Definition analyze_sentiment_confidence (text : string)
    (emotions : list EmotionSignal) (toxicity : ToxicitySignal) : ConfidenceMetrics :=
  let clarity := emotion_clarity_of emotions in
  let quality := text_quality_of text in
  let ambiguity := context_ambiguity_of text in
  let tox_confidence := toxicity_confidence_of toxicity in
  let base_confidence := clarity * 0.4 + quality * 0.3 + ambiguity * 0.3 in
  let base_confidence :=
    if Qgtb tox_confidence 0.7 then py_max base_confidence 0.8 else base_confidence in
  {| overall_confidence := py_min 1.0 base_confidence;
     emotion_clarity := clarity;
     context_ambiguity := ambiguity;
     text_quality := quality;
     toxicity_confidence := tox_confidence |}.

(** A message as the engine sees it: the text, its preprocessed form and
    the answers of the two models. *)
Record Message := {
  msg_text : string;
  msg_processed : string;
  emotion_output : option PipelineOutput;
  toxicity_output : option PipelineOutput
}.

(** Lines 89-91 of [analyze_contextual_sentiment] followed by the rest of
    the function: the analysis of a message. *)
Definition analyze_message (m : Message) : Analysis :=
  let emotions := detect_emotion (msg_text m) (msg_processed m) (emotion_output m) 0.1 in
  let toxicity_result :=
    detect_toxicity (msg_text m) (msg_processed m) (toxicity_output m) 0.3 in
  let confidence := analyze_sentiment_confidence (msg_text m) emotions toxicity_result in
  analyze_contextual_sentiment emotions toxicity_result (overall_confidence confidence).

(** ** persona/hormone_adjuster.py and persona/mood_tracker.py: the callers *)

(** [apply_contextual_hormone_adjustments(text)] on a message. *)
Definition apply_message (m : Message) (doc : HormoneDoc)
    : option (gmap string Q * HormoneDoc) :=
  apply_analysis (analyze_message m) doc.

(** [event_to_text] of [adjust_hormones]. *)
Definition event_to_text : list (string * string) :=
  [ ("stress", "I feel terrible and anxious about this situation");
    ("positive_feedback", "This is amazing and wonderful, I love it");
    ("social_connection", "I feel love and deep connection with you");
    ("neutral_interaction", "This is a normal conversation") ]%string.

(** [event_to_text.get(event, event)]. *)
Definition event_text (event : string) : string :=
  default event (table_get event event_to_text).

(** [adjust_hormones(event)]: the text that is analysed is
    [event_text event]; the other three arguments are its preprocessed form
    and the answers of the two models for it. *)
Definition event_message (event processed_text : string)
    (emotion_result toxicity_result : option PipelineOutput) : Message :=
  {| msg_text := event_text event;
     msg_processed := processed_text;
     emotion_output := emotion_result;
     toxicity_output := toxicity_result |}.

Definition adjust_hormones (event processed_text : string)
    (emotion_result toxicity_result : option PipelineOutput) (doc : HormoneDoc)
    : option (gmap string Q * HormoneDoc) :=
  apply_message (event_message event processed_text emotion_result toxicity_result) doc.

(** The persisted state of the engine. *)
Record World := {
  hormone_levels_json : HormoneDoc;
  mood_files : Files
}.

(** The default that [get_current_mood] returns when the document cannot
    be read. *)
Definition default_mood_data (now : string) : MoodData :=
  {| current_mood := "neutral";
     intensity := 0.5;
     context := {| ctx_is_hybrid := Some false;
                   ctx_is_emergent := Some false;
                   ctx_stability := Some "medium"%string |};
     last_updated := now |}.

(** [get_current_mood()]; [now] is [datetime.utcnow().isoformat()]. *)
Definition get_current_mood (now : string) (files : Files) : MoodData :=
  match mood_adjustments_json files with
  | Holds mood_data => mood_data
  | Missing | Unparsable => default_mood_data now
  end.

(** The environment of a call of [update_mood] made while the hormone
    document is [doc]. *)
Definition env_at (env : Env) (doc : HormoneDoc) : Env :=
  {| utcnow_mood := utcnow_mood env;
     utcnow_entry := utcnow_entry env;
     hormone_doc := doc;
     mood_write := mood_write env;
     history_init_write := history_init_write env;
     history_write := history_write env |}.

(** The fluctuation loop of lines 308-312 for one level; [drift] is the
    value of [random.uniform(-0.02, 0.02)]. *)
Definition fluctuate_level (drift level : Q) : Q :=
  let baseline_pull := (0.5 - level) * 0.01 in
  py_max 0.0 (py_min 1.0 (level + (drift + baseline_pull))).

(** The summary that [get_mood_summary] returns. *)
Record MoodSummary := {
  current_state : MoodData;
  summary_hormone_levels : gmap string Q;
  recent_moods : list string;
  hybrid_states_count : nat;
  emergent_states_count : nat;
  total_mood_changes : nat;
  has_undefined_states : bool;
  mood_volatility : string
}.

(** [history[-n:]]. *)
Definition last_n {A : Type} (n : nat) (l : list A) : list A :=
  drop (length l - n) l.

(** [len(set(recent_moods))]. *)
Definition distinct_count (names : list string) : nat :=
  length (remove_dups names).

Section MoodCallers.

Variable get_mood_context : string -> Q -> MoodContext.

(** [update_mood_from_hormones(reason)]: the returned triple and the files
    after the call.  [env] answers the writes; the hormone document is the
    one of the world. *)
Definition update_mood_from_hormones (env : Env) (reason : string) (w : World)
    : (string * Q * MoodContext) * World :=
  let hormone_levels := load_hormone_levels (hormone_levels_json w) in
  let '(mood, intensity) := calculate_mood_from_hormones hormone_levels in
  let context := get_mood_context mood intensity in
  let files :=
    update_mood get_mood_context
      {| call_env := env_at env (hormone_levels_json w);
         new_mood := mood;
         call_intensity := intensity;
         call_reason := reason;
         hormone_context := Some context |}
      (mood_files w) in
  ((mood, intensity, context),
   {| hormone_levels_json := hormone_levels_json w; mood_files := files |}).

(** [apply_sentiment_to_mood(conversation_text)]; [None] when the hormone
    adjustment raises. *)
Definition apply_sentiment_to_mood (m : Message) (env : Env) (w : World)
    : option ((string * Q * MoodContext) * World) :=
  match apply_message m (hormone_levels_json w) with
  | None => None
  | Some (new_hormones, doc) =>
      Some (update_mood_from_hormones env "contextual_analysis"
              {| hormone_levels_json := doc; mood_files := mood_files w |})
  end.

(** [handle_event_and_update_mood(event)]; [None] when [adjust_hormones]
    raises. *)
Definition handle_event_and_update_mood (event processed_text : string)
    (emotion_result toxicity_result : option PipelineOutput) (env : Env) (w : World)
    : option ((string * Q * MoodContext * gmap string Q) * World) :=
  match adjust_hormones event processed_text emotion_result toxicity_result
          (hormone_levels_json w) with
  | None => None
  | Some (new_hormones, doc) =>
      let '((mood, intensity, context), w') :=
        update_mood_from_hormones env ("hormone_event:" +:+ event)
          {| hormone_levels_json := doc; mood_files := mood_files w |} in
      Some ((mood, intensity, context, new_hormones), w')
  end.

(** [force_mood_recalculation()]. *)
Definition force_mood_recalculation (env : Env) (w : World)
    : (string * Q * MoodContext) * World :=
  update_mood_from_hormones env "manual_recalculation" w.

(** [simulate_hormone_fluctuation()]; [drift h] is the random drift drawn
    for hormone [h]. *)
Definition simulate_hormone_fluctuation (drift : string -> Q) (env : Env) (w : World)
    : (string * Q * MoodContext) * World :=
  let hormones := load_hormone_levels (hormone_levels_json w) in
  let hormones := map_imap (fun h level => Some (fluctuate_level (drift h) level)) hormones in
  update_mood_from_hormones env "natural_fluctuation"
    {| hormone_levels_json := save_hormone_levels hormones; mood_files := mood_files w |}.

End MoodCallers.

(** [get_mood_summary()]: the summary and the files after the call (a
    missing history file is created by [load_mood_history]). *)
Definition get_mood_summary (now : string) (init_write : WriteOutcome) (w : World)
    : MoodSummary * World :=
  let current_mood_data := get_current_mood now (mood_files w) in
  let hormone_levels := load_hormone_levels (hormone_levels_json w) in
  let '(history, history_file) :=
    load_mood_history init_write (mood_history_json (mood_files w)) in
  let recent_moods := mood <$> last_n 10 history in
  let hybrid_count := length (filter (fun entry => is_hybrid entry = true) (last_n 20 history)) in
  let emergent_count :=
    length (filter (fun entry => is_emergent entry = true) (last_n 20 history)) in
  ({| current_state := current_mood_data;
      summary_hormone_levels := hormone_levels;
      recent_moods := recent_moods;
      hybrid_states_count := hybrid_count;
      emergent_states_count := emergent_count;
      total_mood_changes := length history;
      has_undefined_states := (Nat.ltb 0 hybrid_count || Nat.ltb 0 emergent_count)%bool;
      mood_volatility :=
        if Nat.ltb 6 (distinct_count recent_moods) then "high"%string
        else if Nat.ltb 3 (distinct_count recent_moods) then "medium"%string
        else "low"%string |},
   {| hormone_levels_json := hormone_levels_json w;
      mood_files := {| mood_adjustments_json := mood_adjustments_json (mood_files w);
                       mood_history_json := history_file |} |}).

(** One step of the hormone store: a contextual update or a fluctuation. *)
Inductive HormoneStep : Type :=
  | Contextual (analysis : Analysis)
  | Fluctuation (drift : string -> Q).

Definition hormone_step (step : HormoneStep) (doc : HormoneDoc) : HormoneDoc :=
  match step with
  | Contextual analysis =>
      match apply_analysis analysis doc with
      | Some (_, doc') => doc'
      | None => doc
      end
  | Fluctuation drift =>
      save_hormone_levels
        (map_imap (fun h level => Some (fluctuate_level (drift h) level))
           (load_hormone_levels doc))
  end.

Fixpoint run_steps (steps : list HormoneStep) (doc : HormoneDoc) : HormoneDoc :=
  match steps with
  | [] => doc
  | step :: rest => run_steps rest (hormone_step step doc)
  end.

(** An analysis with no signal: a neutral message. *)
Definition neutral_analysis : Analysis :=
  analyze_contextual_sentiment [] not_toxic_result 0.

(** ** The catalogue of [calculate_mood_from_hormones] by blocks *)

(** [level - 0.5] for one hormone, with the default of [.get]. *)
Definition deviation (hormone_levels : gmap string Q) (hormone : string) : Q :=
  default 0.5 (hormone_levels !! hormone) - 0.5.

(** The candidates of lines 74-80. *)
Definition cortisol_moods (dopa_dev sero_dev cort_dev : Q) : list (string * Q) :=
  if Qgtb cort_dev 0.1 then
    (if Qltb sero_dev (-0.05)
     then [("anxious"%string, Qabs cort_dev + Qabs sero_dev * 0.7)] else []) ++
    (if Qltb dopa_dev (-0.05)
     then [("restless"%string, Qabs cort_dev + Qabs dopa_dev * 0.6)] else []) ++
    (if Qgtb cort_dev 0.15
     then [("stressed"%string, Qabs cort_dev * 1.2)] else [])
  else [].

(** The candidates of lines 83-89. *)
Definition serotonin_moods (dopa_dev sero_dev cort_dev : Q) : list (string * Q) :=
  if Qltb sero_dev (-0.08) then
    if Qltb dopa_dev (-0.05)
    then [("depressed"%string, Qabs sero_dev + Qabs dopa_dev * 0.8)]
    else if Qgtb cort_dev 0.05
    then [("melancholic"%string, Qabs sero_dev + Qabs cort_dev * 0.6)]
    else [("sad"%string, Qabs sero_dev * 1.1)]
  else [].

(** The candidates of lines 92-98. *)
Definition dopamine_moods (dopa_dev sero_dev oxy_dev : Q) : list (string * Q) :=
  if Qgtb dopa_dev 0.08 then
    if Qgtb oxy_dev 0.05
    then [("euphoric"%string, dopa_dev + oxy_dev * 0.8)]
    else if Qgtb sero_dev 0.05
    then [("cheerful"%string, dopa_dev + sero_dev * 0.7)]
    else [("energetic"%string, dopa_dev * 1.2)]
  else [].

(** The candidates of lines 101-107. *)
Definition oxytocin_moods (dopa_dev sero_dev oxy_dev : Q) : list (string * Q) :=
  if Qgtb oxy_dev 0.1 then
    if Qgtb dopa_dev 0.05
    then [("loving"%string, oxy_dev + dopa_dev * 0.6)]
    else if Qgtb sero_dev 0.03
    then [("affectionate"%string, oxy_dev + sero_dev * 0.8)]
    else [("caring"%string, oxy_dev * 1.1)]
  else [].

(** The candidate of lines 110-111. *)
Definition content_mood (dopa_dev sero_dev cort_dev : Q) : list (string * Q) :=
  if (Qgtb dopa_dev 0.03 && Qgtb sero_dev 0.03 && Qltb cort_dev 0.1)%bool
  then [("content"%string, (dopa_dev + sero_dev) * 0.8)] else [].

(** The candidate of lines 114-115. *)
Definition conflicted_mood (dopa_dev sero_dev cort_dev : Q) : list (string * Q) :=
  if (Qgtb (Qabs dopa_dev) 0.05 && Qgtb (Qabs sero_dev) 0.05
      && Qgtb (Qabs cort_dev) 0.05)%bool
  then [("conflicted"%string, (Qabs dopa_dev + Qabs sero_dev + Qabs cort_dev) * 0.4)]
  else [].

(** The call of [update_mood] that [update_mood_from_hormones] makes. *)
Definition mood_call (get_mood_context : string -> Q -> MoodContext) (env : Env)
    (reason : string) (w : World) : Call :=
  let result := calculate_mood_from_hormones (load_hormone_levels (hormone_levels_json w)) in
  {| call_env := env_at env (hormone_levels_json w);
     new_mood := result.1;
     call_intensity := result.2;
     call_reason := reason;
     hormone_context := Some (get_mood_context result.1 result.2) |}.

(** Sample data for the concrete instances. *)
Definition sample_env : Env := call_env (sample_call Written Written).

Definition fear_message : Message :=
  {| msg_text := "I am scared of this";
     msg_processed := "I am scared of this";
     emotion_output :=
       Some (Batch [[ {| em_label := "sadness"; em_score := 0.2 |};
                      {| em_label := "fear"; em_score := 0.7 |};
                      {| em_label := "joy"; em_score := 0.05 |} ]]);
     toxicity_output :=
       Some (Batch [[ {| em_label := "NOT_TOXIC"; em_score := 0.9 |};
                      {| em_label := "TOXIC"; em_score := 0.1 |} ]]) |}.

Definition fresh_world : World :=
  {| hormone_levels_json := None;
     mood_files := {| mood_adjustments_json := Missing; mood_history_json := Missing |} |}.

Definition toxic_message : Message :=
  {| msg_text := "you are awful";
     msg_processed := "you are awful";
     emotion_output :=
       Some (Flat [ {| em_label := "anger"; em_score := 0.8 |} ]);
     toxicity_output :=
       Some (Single {| em_label := "TOXIC"; em_score := 0.9 |}) |}.

Definition stressed_levels : gmap string Q := levels_of 0.3 0.2 0.8 0.4.

Definition one_entry_world : World :=
  {| hormone_levels_json := Some stressed_levels; mood_files := one_entry_files |}.

(** ** The headings of [_EMOTION_HORMONE_MAP] *)

(** The keys under [# Positive emotions] (lines 28-38). *)
Definition positive_emotions : list string :=
  ["joy"; "love"; "admiration"; "excitement"; "gratitude"; "relief"; "pride";
   "optimism"; "caring"; "approval"]%string.

(** The keys under [# Negative emotions] (lines 40-50). *)
Definition negative_emotions : list string :=
  ["anger"; "sadness"; "fear"; "disgust"; "annoyance"; "disappointment";
   "embarrassment"; "grief"; "nervousness"; "remorse"]%string.

(** The keys under [# Neutral/Complex emotions] (lines 52-56). *)
Definition neutral_complex_emotions : list string :=
  ["surprise"; "curiosity"; "confusion"; "neutral"]%string.

(** ** Lines 171-175 over binary64 *)

(** A decimal literal denotes the nearest double, as it does in Python. *)
#[local] Set Warnings "-inexact-float".

(** Python's [max(a, b)] and [min(a, b)] on doubles. *)
Definition b64_max (a b : float) : float := if PrimFloat.ltb a b then b else a.

Definition b64_min (a b : float) : float := if PrimFloat.ltb b a then b else a.

Definition _RATE_LIMIT_b64 : float := 0.08%float.

(** [_apply_resistance] with the operations of binary64. *)
Definition _apply_resistance_b64 (current delta : float) : float :=
  (let distance := 1 - PrimFloat.abs (current - 0.5) * 2 in
   delta * (0.4 + 0.6 * distance))%float.

(** The level that lines 171-175 store, with the operations of binary64. *)
Definition new_level_b64 (current base_delta : float) : float :=
  let delta := b64_max (- _RATE_LIMIT_b64)%float (b64_min _RATE_LIMIT_b64 base_delta) in
  let delta := _apply_resistance_b64 current delta in
  b64_max 0%float (b64_min 1%float (current + delta)%float).

(** The rational that a finite double denotes. *)
Definition b64_to_Q (x : float) : option Q :=
  match Prim2SF x with
  | S754_zero _ => Some 0
  | S754_finite negative mantissa exponent =>
      let magnitude := inject_Z (Z.pos mantissa) * Qpower 2 exponent in
      Some (if negative then - magnitude else magnitude)
  | S754_infinity _ | S754_nan => None
  end.

(** * Properties *)

(** ** Arithmetic helpers *)

Lemma Qabs_cases (x : Q) :
  (0 <= x /\ Qabs x == x) \/ (x < 0 /\ Qabs x == - x).
Proof.
  destruct (Qlt_le_dec x 0) as [Hneg | Hpos].
  - right. split; [exact Hneg |]. apply Qabs_neg. lra.
  - left. split; [exact Hpos |]. now apply Qabs_pos.
Qed.

(** Case analysis on the sign of the argument of one [Qabs]. *)
Ltac qabs x :=
  let Hs := fresh "Hsign" in
  let He := fresh "Habs" in
  destruct (Qabs_cases x) as [[Hs He] | [Hs He]].

Lemma clamp_bounds (lo hi v : Q) :
  lo <= hi -> lo <= py_max lo (py_min hi v) <= hi.
Proof.
  intros Hle. unfold py_max, py_min.
  destruct (Qlt_le_dec v hi); destruct (Qlt_le_dec lo _); lra.
Qed.

Lemma clamp_id (lo hi v : Q) :
  lo <= v <= hi -> py_max lo (py_min hi v) == v.
Proof.
  intros Hv. unfold py_max, py_min.
  destruct (Qlt_le_dec v hi); destruct (Qlt_le_dec lo _); lra.
Qed.

Lemma resistance_factor_range (c : Q) :
  0 <= c <= 1 -> 0.4 <= resistance_factor c <= 1.
Proof.
  intros Hc. unfold resistance_factor. qabs (c - 0.5); lra.
Qed.

Lemma apply_resistance_abs (c d : Q) :
  0 <= c <= 1 ->
  Qabs (_apply_resistance c d) == Qabs d * resistance_factor c.
Proof.
  intros Hc. unfold _apply_resistance. fold (resistance_factor c).
  rewrite Qabs_Qmult.
  rewrite (Qabs_pos (resistance_factor c)); [reflexivity |].
  pose proof (resistance_factor_range c Hc). lra.
Qed.

(** ** C5: the resistance curve *)

(** C5.  For a current level [c] in [0,1] and any raw delta [d],
    [_apply_resistance c d] is [d * (0.4 + 0.6 * (1 - |c - 0.5| * 2))]; it
    is [d] at [c = 0.5]; its magnitude is at least [0.4 * |d|] at [c = 0]
    and at [c = 1]; and for a fixed [d] the magnitude does not grow when
    [|c - 0.5|] grows. *)
Theorem C5_apply_resistance_curve (c d : Q) (Hc : 0 <= c <= 1) :
  _apply_resistance c d == d * (0.4 + 0.6 * (1 - Qabs (c - 0.5) * 2)) /\
  _apply_resistance 0.5 d == d /\
  0.4 * Qabs d <= Qabs (_apply_resistance 0 d) /\
  0.4 * Qabs d <= Qabs (_apply_resistance 1 d) /\
  (forall c' : Q, 0 <= c' <= 1 ->
     Qabs (c - 0.5) <= Qabs (c' - 0.5) ->
     Qabs (_apply_resistance c' d) <= Qabs (_apply_resistance c d)).
Proof.
  split; [reflexivity |].
  split.
  { unfold _apply_resistance.
    assert (E : Qabs (0.5 - 0.5) == 0) by reflexivity.
    rewrite E. lra. }
  split.
  { unfold _apply_resistance. rewrite Qabs_Qmult.
    assert (E : Qabs (0.4 + 0.6 * (1 - Qabs (0 - 0.5) * 2)) == 0.4) by reflexivity.
    rewrite E. lra. }
  split.
  { unfold _apply_resistance. rewrite Qabs_Qmult.
    assert (E : Qabs (0.4 + 0.6 * (1 - Qabs (1 - 0.5) * 2)) == 0.4) by reflexivity.
    rewrite E. lra. }
  intros c' Hc' Hfar.
  rewrite !apply_resistance_abs by assumption.
  assert (Hf : resistance_factor c' <= resistance_factor c)
    by (unfold resistance_factor; lra).
  pose proof (Qabs_nonneg d) as Hd.
  nra.
Qed.

(** ** The rate-limit and resistance filter *)

Lemma new_level_range (c d : Q) : 0 <= new_level c d <= 1.
Proof. unfold new_level. apply clamp_bounds. lra. Qed.

Lemma effective_delta_bound (c d : Q) :
  0 <= c <= 1 ->
  Qabs (_apply_resistance c (py_max (- _RATE_LIMIT) (py_min _RATE_LIMIT d))) <= 0.08.
Proof.
  intros Hc. rewrite apply_resistance_abs by assumption.
  pose proof (resistance_factor_range c Hc) as Hf.
  set (r := py_max (- _RATE_LIMIT) (py_min _RATE_LIMIT d)).
  assert (Hr : - (0.08) <= r <= 0.08).
  { subst r. pose proof (clamp_bounds (- _RATE_LIMIT) _RATE_LIMIT d) as Hb.
    unfold _RATE_LIMIT in *. lra. }
  qabs r; nra.
Qed.

Lemma adjust_loop_origin hormones items : forall updated res h v,
  adjust_loop hormones items updated = Some res ->
  res !! h = Some v ->
  updated !! h = Some v \/
  exists c d, (h, d) ∈ items /\ hormones !! h = Some c /\ v = new_level c d.
Proof.
  induction items as [| [k d] rest IH]; intros updated res h v Hrun Hv; simpl in Hrun.
  - left. congruence.
  - destruct (hormones !! k) as [c |] eqn:Hk; [| discriminate].
    destruct (IH _ _ _ _ Hrun Hv) as [Hold | (c' & d' & Hin & Hc' & ->)].
    + destruct (decide (k = h)) as [-> | Hne].
      * rewrite lookup_insert_eq in Hold. right. exists c, d.
        split; [apply elem_of_cons; by left |]. split; [done |].
        unfold new_level. congruence.
      * rewrite lookup_insert_ne in Hold by done. by left.
    + right. exists c', d'. split; [apply elem_of_cons; by right | done].
Qed.

Lemma adjust_loop_other hormones items : forall updated res h,
  adjust_loop hormones items updated = Some res ->
  h ∉ items.*1 ->
  res !! h = updated !! h.
Proof.
  induction items as [| [k d] rest IH]; intros updated res h Hrun Hnot; simpl in Hrun.
  - congruence.
  - destruct (hormones !! k) as [c |] eqn:Hk; [| discriminate].
    rewrite fmap_cons in Hnot. apply not_elem_of_cons in Hnot as [Hne Hrest].
    rewrite (IH _ _ _ Hrun Hrest). by rewrite lookup_insert_ne.
Qed.

Lemma adjust_loop_hit hormones items : forall updated res h d,
  adjust_loop hormones items updated = Some res ->
  NoDup items.*1 ->
  (h, d) ∈ items ->
  exists c, hormones !! h = Some c /\ res !! h = Some (new_level c d).
Proof.
  induction items as [| [k d0] rest IH]; intros updated res h d Hrun Hnd Hin; simpl in Hrun.
  - by apply elem_of_nil in Hin.
  - destruct (hormones !! k) as [c |] eqn:Hk; [| discriminate].
    rewrite fmap_cons in Hnd. apply NoDup_cons in Hnd as [Hfresh Hnd].
    simpl in Hfresh.
    apply elem_of_cons in Hin as [Heq | Hin].
    + injection Heq as -> ->. exists c. split; [done |].
      rewrite (adjust_loop_other _ _ _ _ _ Hrun Hfresh).
      by rewrite lookup_insert_eq.
    + eapply IH; eauto.
Qed.

Lemma adjust_loop_total hormones items : forall updated,
  (forall h, h ∈ items.*1 -> is_Some (hormones !! h)) ->
  is_Some (adjust_loop hormones items updated).
Proof.
  induction items as [| [k d] rest IH]; intros updated Hall; simpl.
  - by eexists.
  - destruct (Hall k) as [c Hc]; [rewrite fmap_cons; apply elem_of_cons; by left |].
    rewrite Hc. apply IH. intros h Hh. apply Hall.
    rewrite fmap_cons. apply elem_of_cons. by right.
Qed.

(** The order of the items is irrelevant when the keys are distinct. *)
Lemma adjust_loop_order hormones items items' :
  items ≡ₚ items' ->
  NoDup items.*1 ->
  forall updated,
    adjust_loop hormones items updated = adjust_loop hormones items' updated.
Proof.
  induction 1 as [| [k d] l l' Hperm IH | [k1 d1] [k2 d2] l | l1 l2 l3 H12 IH12 H23 IH23];
    intros Hnd updated.
  - reflexivity.
  - simpl. rewrite fmap_cons in Hnd. apply NoDup_cons in Hnd as [_ Hnd].
    destruct (hormones !! k); [| reflexivity]. by apply IH.
  - simpl. rewrite !fmap_cons in Hnd.
    apply NoDup_cons in Hnd as [Hne _]. simpl in Hne.
    apply not_elem_of_cons in Hne as [Hne _].
    destruct (hormones !! k1), (hormones !! k2); try reflexivity.
    by rewrite insert_insert_ne.
  - rewrite IH12 by done. apply IH23. by rewrite <- H12.
Qed.

Lemma decay_step_range (v : Q) : 0 <= v <= 1 -> 0 <= decay_step v <= 1.
Proof.
  intros Hv. unfold decay_step, _DECAY_STEP.
  destruct (Qlt_le_dec (Qabs (v - 0.5)) 0.01) as [Hnear | Hfar]; [lra |].
  destruct (Qlt_le_dec 0.5 v); qabs (v - 0.5); lra.
Qed.

Lemma in_unit_rangeb_sound (levels : gmap string Q) :
  in_unit_rangeb levels = true -> in_unit_range levels.
Proof.
  unfold in_unit_rangeb, in_unit_range. intros Hb h v Hlk.
  rewrite forallb_forall in Hb.
  apply elem_of_map_to_list, list_elem_of_In in Hlk.
  specialize (Hb _ Hlk). simpl in Hb.
  apply andb_true_iff in Hb as [H0 H1].
  apply Qle_bool_iff in H0, H1. by split.
Qed.

Lemma save_in_unit_range (levels : gmap string Q) :
  in_unit_range (load_hormone_levels (save_hormone_levels levels)).
Proof.
  unfold save_hormone_levels, load_hormone_levels, in_unit_range. simpl.
  intros h v Hlk. rewrite lookup_fmap in Hlk.
  destruct (levels !! h) as [w |]; simpl in Hlk; [| discriminate].
  injection Hlk as <-. apply clamp_bounds. lra.
Qed.

Lemma save_keeps_levels (levels : gmap string Q) (h : string) (v : Q) :
  in_unit_range levels -> levels !! h = Some v ->
  exists v', load_hormone_levels (save_hormone_levels levels) !! h = Some v' /\ v' == v.
Proof.
  intros Hr Hlk. unfold save_hormone_levels, load_hormone_levels. simpl.
  rewrite lookup_fmap, Hlk. simpl. eexists. split; [reflexivity |].
  apply clamp_id. exact (Hr _ _ Hlk).
Qed.

Lemma apply_analysis_range analysis doc updated doc' :
  in_unit_range (load_hormone_levels doc) ->
  apply_analysis analysis doc = Some (updated, doc') ->
  in_unit_range updated /\ doc' = save_hormone_levels updated.
Proof.
  intros Hr. unfold apply_analysis.
  destruct (map_to_list (hormone_deltas analysis)) as [| item items] eqn:Hitems.
  - intros [= <- <-]. split; [| done].
    intros h v Hlk. rewrite lookup_fmap in Hlk.
    destruct (load_hormone_levels doc !! h) as [w |] eqn:Hw; simpl in Hlk; [| discriminate].
    injection Hlk as <-. apply decay_step_range. exact (Hr _ _ Hw).
  - destruct (adjust_loop _ _ _) as [res |] eqn:Hrun; [| discriminate].
    intros [= <- <-]. split; [| done].
    intros h v Hlk.
    destruct (adjust_loop_origin _ _ _ _ _ _ Hrun Hlk) as [Hold | (c & d & _ & _ & ->)].
    + exact (Hr _ _ Hold).
    + apply new_level_range.
Qed.

Lemma run_updates_range analyses : forall doc,
  in_unit_range (load_hormone_levels doc) ->
  in_unit_range (load_hormone_levels (run_updates analyses doc)).
Proof.
  induction analyses as [| a rest IH]; intros doc Hr; simpl; [done |].
  destruct (apply_analysis a doc) as [[updated doc'] |] eqn:Hstep.
  - apply IH. destruct (apply_analysis_range _ _ _ _ Hr Hstep) as [_ ->].
    apply save_in_unit_range.
  - by apply IH.
Qed.

Lemma not_in_items_of_lookup_None (m : gmap string Q) (h : string) :
  m !! h = None -> h ∉ (map_to_list m).*1.
Proof.
  intros Hnone Hin. apply list_elem_of_fmap in Hin as ([k d] & -> & Hin).
  apply elem_of_map_to_list in Hin. simpl in Hnone. congruence.
Qed.

(** ** C1: the levels stay in [0,1] *)

(** C1.  For a hormone store whose values all lie in [0,1] and any analysis
    result, the levels that [apply_contextual_hormone_adjustments] returns
    and the levels it saves have every value in [0,1] (the saved levels are
    the returned ones); the decay step and the clamped new level never
    leave [0,1]; hence after any sequence of updates the store still has
    every value in [0,1]. *)
Theorem C1_levels_stay_in_unit_range (doc : HormoneDoc)
    (Hrange : in_unit_range (load_hormone_levels doc)) :
  (forall analysis updated doc',
     apply_analysis analysis doc = Some (updated, doc') ->
     in_unit_range updated /\
     in_unit_range (load_hormone_levels doc') /\
     (forall h v, updated !! h = Some v ->
        exists v', load_hormone_levels doc' !! h = Some v' /\ v' == v)) /\
  (forall emotions toxicity_result overall_confidence updated doc',
     apply_contextual_hormone_adjustments emotions toxicity_result
       overall_confidence doc = Some (updated, doc') ->
     in_unit_range updated /\ in_unit_range (load_hormone_levels doc')) /\
  (forall v, 0 <= v <= 1 -> 0 <= decay_step v <= 1) /\
  (forall c d, 0 <= new_level c d <= 1) /\
  (forall analyses,
     in_unit_range (load_hormone_levels (run_updates analyses doc))).
Proof.
  assert (Hstep : forall analysis updated doc',
     apply_analysis analysis doc = Some (updated, doc') ->
     in_unit_range updated /\
     in_unit_range (load_hormone_levels doc') /\
     (forall h v, updated !! h = Some v ->
        exists v', load_hormone_levels doc' !! h = Some v' /\ v' == v)).
  { intros analysis updated doc' Happly.
    destruct (apply_analysis_range _ _ _ _ Hrange Happly) as [Hupd ->].
    split; [exact Hupd |]. split; [apply save_in_unit_range |].
    intros h v Hlk. by apply save_keeps_levels. }
  split; [exact Hstep |].
  split.
  { intros emotions tox conf updated doc' Happly.
    destruct (Hstep _ _ _ Happly) as (H1 & H2 & _). by split. }
  split; [apply decay_step_range |].
  split; [apply new_level_range |].
  intros analyses. by apply run_updates_range.
Qed.

Lemma C1_levels_stay_in_unit_range_witness :
  in_unit_range
    (load_hormone_levels
       (run_updates
          [ analyze_contextual_sentiment fear_signal not_toxic 1;
            analyze_contextual_sentiment [] not_toxic 0.1 ]
          (Some saturated_levels))).
Proof.
  assert (Hrange : in_unit_range (load_hormone_levels (Some saturated_levels))).
  { apply in_unit_rangeb_sound. vm_compute. reflexivity. }
  exact (proj2 (proj2 (proj2 (proj2
    (C1_levels_stay_in_unit_range (Some saturated_levels) Hrange)))) _).
Defined.

(** ** C6: the rate limit *)

(** C6, as the claim states it, fails on the binary64 code.  From the level
    0.5 a raw delta of -0.10 (the serotonin weight of sadness at intensity
    1.0 and confidence 1.0) is clamped to -0.08 and passes the resistance
    curve with factor 1; the rounded sum is 0.41999999999999998, which
    differs from 0.5 by more than 0.08, and by more than the double
    [_RATE_LIMIT] too.  Every raw delta below the limit gives the same
    level, such as the serotonin weight -0.12 of grief at intensity 0.9 and
    confidence 0.8. *)
Lemma C6_rate_limit_counterexample :
  exists old new limit : Q,
    b64_to_Q 0.5%float = Some old /\
    b64_to_Q (new_level_b64 0.5 (-0.10 * 1.0 * 1.0))%float = Some new /\
    b64_to_Q (new_level_b64 0.5 (-0.12 * 0.9 * 0.8))%float = Some new /\
    b64_to_Q _RATE_LIMIT_b64 = Some limit /\
    0.08 < Qabs (new - old) /\
    limit < Qabs (new - old).
Proof.
  eexists _, _, _.
  split; [reflexivity |]. split; [reflexivity |]. split; [vm_compute; reflexivity |].
  split; [reflexivity |].
  split; vm_compute; reflexivity.
Qed.

(** C6, amended.  In a non-neutral update the raw delta of a hormone is
    clamped to [-0.08, 0.08] before the resistance curve is applied; for a
    current level in [0,1] the resistance factor lies in [0.4, 1], so the
    effective delta that the update adds to the level is at most the rate
    limit 0.08 in absolute value, whatever the size of the raw delta; the
    new level is the sum of the current level and that effective delta,
    clamped to [0,1]; a hormone without a delta keeps its level. *)
Theorem C6_effective_delta_within_rate_limit (analysis : Analysis) (doc : HormoneDoc)
    (updated : gmap string Q) (doc' : HormoneDoc) (h : string) (c : Q)
    (Hsignal : hormone_deltas analysis <> ∅)
    (Hcur : load_hormone_levels doc !! h = Some c)
    (Hc : 0 <= c <= 1)
    (Happly : apply_analysis analysis doc = Some (updated, doc')) :
  exists c' : Q,
    updated !! h = Some c' /\
    (forall d, hormone_deltas analysis !! h = Some d ->
       let limited := py_max (- _RATE_LIMIT) (py_min _RATE_LIMIT d) in
       let effective := _apply_resistance c limited in
       - _RATE_LIMIT <= limited <= _RATE_LIMIT /\
       0.4 <= resistance_factor c <= 1 /\
       effective = limited * resistance_factor c /\
       Qabs effective <= _RATE_LIMIT /\
       c' = py_max 0 (py_min 1 (c + effective))) /\
    (hormone_deltas analysis !! h = None -> c' = c).
Proof.
  unfold apply_analysis in Happly.
  destruct (map_to_list (hormone_deltas analysis)) as [| item items] eqn:Hitems.
  { apply map_to_list_empty_iff in Hitems. contradiction. }
  rewrite <- Hitems in Happly.
  destruct (adjust_loop _ _ _) as [res |] eqn:Hrun; [| discriminate].
  injection Happly as <- <-.
  destruct (hormone_deltas analysis !! h) as [d |] eqn:Hd.
  - destruct (adjust_loop_hit _ _ _ _ h d Hrun) as (c0 & Hc0 & Hres).
    { apply NoDup_fst_map_to_list. }
    { by apply elem_of_map_to_list. }
    assert (c0 = c) as -> by congruence.
    exists (new_level c d). split; [exact Hres |].
    split; [| discriminate].
    intros d' [= <-] limited effective. subst limited effective.
    split; [apply clamp_bounds; unfold _RATE_LIMIT; lra |].
    split; [by apply resistance_factor_range |].
    split; [reflexivity |].
    split; [exact (effective_delta_bound c d Hc) | reflexivity].
  - exists c. split.
    { rewrite (adjust_loop_other _ _ _ _ h Hrun); [exact Hcur |].
      by apply not_in_items_of_lookup_None. }
    split; [discriminate | reflexivity].
Qed.

(** Joy at intensity 1.0 and confidence 1.0 asks for +0.12 of dopamine; the
    delta is limited to 0.08 and, at the baseline, added in full. *)
Lemma C6_effective_delta_within_rate_limit_witness :
  hormone_deltas (analyze_contextual_sentiment joy_signal not_toxic 1.0)
    !! "dopamine"%string = Some (0.12 * 1.0 * 1.0) /\
  _RATE_LIMIT < 0.12 * 1.0 * 1.0 /\
  Qabs (_apply_resistance 0.5
          (py_max (- _RATE_LIMIT) (py_min _RATE_LIMIT (0.12 * 1.0 * 1.0))))
    <= _RATE_LIMIT /\
  exists c' : Q,
    (fst <$> apply_analysis (analyze_contextual_sentiment joy_signal not_toxic 1.0) None)
      ≫= (.!! "dopamine"%string) = Some c' /\
    c' = py_max 0 (py_min 1
           (0.5 + _apply_resistance 0.5
                    (py_max (- _RATE_LIMIT) (py_min _RATE_LIMIT (0.12 * 1.0 * 1.0))))).
Proof.
  split; [vm_compute; reflexivity |].
  split; [vm_compute; reflexivity |].
  destruct (apply_analysis (analyze_contextual_sentiment joy_signal not_toxic 1.0) None)
    as [[updated doc'] |] eqn:Happly; [| vm_compute in Happly; discriminate].
  destruct (C6_effective_delta_within_rate_limit
    (analyze_contextual_sentiment joy_signal not_toxic 1.0) None
    updated doc' "dopamine"%string 0.5)
    as (c' & Hlk & Hval & _).
  - vm_compute. discriminate.
  - vm_compute. reflexivity.
  - split; vm_compute; discriminate.
  - exact Happly.
  - destruct (Hval (0.12 * 1.0 * 1.0)) as (_ & _ & _ & Hbound & Hnew);
      [vm_compute; reflexivity |].
    split; [exact Hbound |].
    exists c'. split; [exact Hlk | exact Hnew].
Defined.

(** ** C3: neutral decay *)

Lemma inject_nat_succ (n : nat) :
  inject_Z (Z.of_nat (S n)) == inject_Z (Z.of_nat n) + 1.
Proof.
  rewrite Nat2Z.inj_succ. unfold Z.succ. rewrite inject_Z_plus. reflexivity.
Qed.

Lemma inject_nat_nonneg (n : nat) : 0 <= inject_Z (Z.of_nat n).
Proof.
  change 0 with (inject_Z 0). rewrite <- Zle_Qle. apply Nat2Z.is_nonneg.
Qed.

Lemma decay_step_distance (v : Q) :
  (Qabs (v - 0.5) < 0.01 /\ decay_step v = 0.5) \/
  (0.01 <= Qabs (v - 0.5) /\
   Qabs (decay_step v - 0.5) == Qabs (v - 0.5) - 0.01).
Proof.
  unfold decay_step, _DECAY_STEP.
  destruct (Qlt_le_dec (Qabs (v - 0.5)) 0.01) as [Hnear | Hfar]; [by left |].
  right. split; [exact Hfar |].
  destruct (Qlt_le_dec 0.5 v); qabs (v - 0.5);
    match goal with |- Qabs ?x == _ => qabs x end; lra.
Qed.

Lemma decay_iter_baseline (n : nat) : forall v, v == 0.5 -> decay_iter n v == 0.5.
Proof.
  induction n as [| n IH]; intros v Hv; simpl; [exact Hv |].
  apply IH. destruct (decay_step_distance v) as [[_ ->] | [Hfar _]]; [reflexivity |].
  exfalso. qabs (v - 0.5); lra.
Qed.

Lemma decay_iter_reaches (n : nat) : forall v,
  Qabs (v - 0.5) <= inject_Z (Z.of_nat n) * 0.01 -> decay_iter n v == 0.5.
Proof.
  induction n as [| n IH]; intros v Hdist.
  - change (inject_Z (Z.of_nat 0)) with 0 in Hdist. simpl.
    qabs (v - 0.5); lra.
  - simpl decay_iter. rewrite inject_nat_succ in Hdist.
    destruct (decay_step_distance v) as [[_ ->] | [Hfar Hd]].
    + apply decay_iter_baseline. reflexivity.
    + apply IH. rewrite Hd. lra.
Qed.

Lemma decay_step_no_overshoot (v : Q) :
  (0.5 <= v -> 0.5 <= decay_step v <= v) /\
  (v <= 0.5 -> v <= decay_step v <= 0.5).
Proof.
  unfold decay_step, _DECAY_STEP.
  destruct (Qlt_le_dec (Qabs (v - 0.5)) 0.01) as [Hnear | Hfar];
    [| destruct (Qlt_le_dec 0.5 v)]; qabs (v - 0.5); split; intros; lra.
Qed.

Lemma decay_iter_no_overshoot (n : nat) : forall v,
  (0.5 <= v -> 0.5 <= decay_iter n v <= v) /\
  (v <= 0.5 -> v <= decay_iter n v <= 0.5).
Proof.
  induction n as [| n IH]; intros v; simpl; [split; intros; lra |].
  destruct (decay_step_no_overshoot v) as [Hhi Hlo].
  destruct (IH (decay_step v)) as [IHhi IHlo].
  split; intros Hside.
  - specialize (Hhi Hside). specialize (IHhi (proj1 Hhi)). lra.
  - specialize (Hlo Hside). specialize (IHlo (proj2 Hlo)). lra.
Qed.

Lemma steps_needed_cover (x : Q) :
  x <= inject_Z (Z.of_nat (Z.to_nat (Qceiling x))).
Proof.
  apply Qle_trans with (inject_Z (Qceiling x)); [apply Qle_ceiling |].
  rewrite <- Zle_Qle. lia.
Qed.

(** C3.  With an empty delta map the update replaces every level by its
    decay step: exactly 0.5 when the level is within 0.01 of 0.5, else 0.01
    closer to 0.5.  Starting from any [v] in [0,1], [n] neutral updates
    with [n >= |v - 0.5| / 0.01] (in particular the ceiling of that
    quotient) leave the level equal to 0.5, and no number of neutral
    updates takes it to the other side of 0.5. *)
Theorem C3_neutral_decay_converges (v : Q) (Hv : 0 <= v <= 1) :
  (forall analysis doc,
     hormone_deltas analysis = ∅ ->
     apply_analysis analysis doc =
       Some (decay_step <$> load_hormone_levels doc,
             save_hormone_levels (decay_step <$> load_hormone_levels doc))) /\
  (Qabs (v - 0.5) < 0.01 -> decay_step v = 0.5) /\
  (0.01 <= Qabs (v - 0.5) -> 0.5 < v -> decay_step v = v - 0.01) /\
  (0.01 <= Qabs (v - 0.5) -> v < 0.5 -> decay_step v = v + 0.01) /\
  (forall n : nat,
     Qabs (v - 0.5) / 0.01 <= inject_Z (Z.of_nat n) -> decay_iter n v == 0.5) /\
  decay_iter (Z.to_nat (Qceiling (Qabs (v - 0.5) / 0.01))) v == 0.5 /\
  (forall n : nat,
     (0.5 <= v -> 0.5 <= decay_iter n v <= v) /\
     (v <= 0.5 -> v <= decay_iter n v <= 0.5)).
Proof.
  assert (Hdiv : forall x, x / 0.01 == x * 100).
  { intros x. unfold Qdiv. assert (E : / 0.01 == 100) by reflexivity.
    rewrite E. reflexivity. }
  assert (Hreach : forall n : nat,
     Qabs (v - 0.5) / 0.01 <= inject_Z (Z.of_nat n) -> decay_iter n v == 0.5).
  { intros n Hn. apply decay_iter_reaches. rewrite Hdiv in Hn. lra. }
  split.
  { intros analysis doc Hempty. unfold apply_analysis.
    rewrite Hempty, map_to_list_empty. reflexivity. }
  split.
  { intros Hnear. unfold decay_step, _DECAY_STEP.
    destruct (Qlt_le_dec (Qabs (v - 0.5)) 0.01); [reflexivity | lra]. }
  split.
  { intros Hfar Hside. unfold decay_step, _DECAY_STEP.
    destruct (Qlt_le_dec (Qabs (v - 0.5)) 0.01); [lra |].
    destruct (Qlt_le_dec 0.5 v); [reflexivity | lra]. }
  split.
  { intros Hfar Hside. unfold decay_step, _DECAY_STEP.
    destruct (Qlt_le_dec (Qabs (v - 0.5)) 0.01); [lra |].
    destruct (Qlt_le_dec 0.5 v); [lra | reflexivity]. }
  split; [exact Hreach |].
  split; [apply Hreach, steps_needed_cover |].
  intros n. apply decay_iter_no_overshoot.
Qed.

(** From 0.535 the quotient is 3.5: four neutral updates reach 0.5. *)
Lemma C3_neutral_decay_converges_witness :
  Z.to_nat (Qceiling (Qabs (0.535 - 0.5) / 0.01)) = 4%nat /\
  decay_iter 4 0.535 == 0.5 /\
  0.5 <= decay_iter 3 0.535 <= 0.535.
Proof.
  assert (Hv : 0 <= 0.535 <= 1) by (split; vm_compute; discriminate).
  destruct (C3_neutral_decay_converges 0.535 Hv) as (_ & _ & _ & _ & _ & Hceil & Hside).
  split; [vm_compute; reflexivity |].
  split; [exact Hceil |].
  apply (proj1 (Hside 3%nat)). vm_compute. discriminate.
Defined.

(** ** The signal-to-delta mapper *)

Lemma table_get_elem_of {A : Type} (key : string) (table : list (string * A)) (v : A) :
  table_get key table = Some v -> (key, v) ∈ table.
Proof.
  induction table as [| [k w] rest IH]; simpl; [discriminate |].
  destruct (String.eqb key k) eqn:Hk.
  - apply String.eqb_eq in Hk as ->. intros [= ->]. apply elem_of_cons. by left.
  - intros Hrest. apply elem_of_cons. right. by apply IH.
Qed.

Lemma table_get_None {A : Type} (key : string) (table : list (string * A)) :
  key ∉ table.*1 -> table_get key table = None.
Proof.
  induction table as [| [k w] rest IH]; simpl; [done |].
  intros Hnot. apply not_elem_of_cons in Hnot as [Hne Hrest].
  destruct (String.eqb key k) eqn:Hk.
  - apply String.eqb_eq in Hk. contradiction.
  - by apply IH.
Qed.

(** What one pass over a row does to each hormone of the delta map: the
    scaled weight is added to the delta that is already there. *)
Lemma accumulate_lookup (row : list (string * Q)) (scale : Q -> Q) :
  forall (deltas : gmap string Q) (h : string),
  NoDup row.*1 ->
  accumulate row scale deltas !! h =
    match table_get h row with
    | Some w => Some (default 0 (deltas !! h) + scale w)
    | None => deltas !! h
    end.
Proof.
  induction row as [| [k w] rest IH]; intros deltas h Hnd; simpl; [done |].
  rewrite fmap_cons in Hnd. apply NoDup_cons in Hnd as [Hfresh Hnd]. simpl in Hfresh.
  rewrite IH by done.
  destruct (String.eqb h k) eqn:Hk.
  - apply String.eqb_eq in Hk as ->.
    rewrite (table_get_None _ _ Hfresh). by rewrite lookup_insert_eq.
  - apply String.eqb_neq in Hk.
    rewrite lookup_insert_ne by done. reflexivity.
Qed.

Lemma accumulate_keys (row : list (string * Q)) (scale : Q -> Q) :
  forall (deltas : gmap string Q) (h : string),
  is_Some (accumulate row scale deltas !! h) ->
  is_Some (deltas !! h) \/ h ∈ row.*1.
Proof.
  induction row as [| [k w] rest IH]; intros deltas h Hsome; simpl in *; [by left |].
  destruct (IH _ _ Hsome) as [Hhere | Hrest].
  - destruct (decide (k = h)) as [-> | Hne].
    + right. apply elem_of_cons. by left.
    + rewrite lookup_insert_ne in Hhere by done. by left.
  - right. apply elem_of_cons. by right.
Qed.

Lemma emotion_rows_unique : rows_unique _EMOTION_HORMONE_MAP.
Proof. unfold rows_unique. apply (bool_decide_unpack _). vm_compute. exact I. Qed.

Lemma toxicity_rows_unique : rows_unique _TOXICITY_HORMONE_MAP.
Proof. unfold rows_unique. apply (bool_decide_unpack _). vm_compute. exact I. Qed.

Lemma emotion_rows_known : rows_known _EMOTION_HORMONE_MAP.
Proof. unfold rows_known. apply (bool_decide_unpack _). vm_compute. exact I. Qed.

Lemma toxicity_rows_known : rows_known _TOXICITY_HORMONE_MAP.
Proof. unfold rows_known. apply (bool_decide_unpack _). vm_compute. exact I. Qed.

Lemma row_unique table key row :
  rows_unique table -> table_get key table = Some row -> NoDup row.*1.
Proof.
  intros Hall Hget. apply table_get_elem_of in Hget.
  unfold rows_unique in Hall. rewrite Forall_forall in Hall.
  exact (Hall _ Hget).
Qed.

Lemma row_known table key row h :
  rows_known table -> table_get key table = Some row ->
  h ∈ row.*1 -> h ∈ hormone_names.
Proof.
  intros Hall Hget Hin. apply table_get_elem_of in Hget.
  unfold rows_known in Hall. rewrite Forall_forall in Hall.
  specialize (Hall _ Hget). simpl in Hall. rewrite Forall_forall in Hall.
  apply list_elem_of_fmap in Hin as (kv & -> & Hkv). by apply Hall.
Qed.

Lemma analyze_deltas emotions tox conf :
  hormone_deltas (analyze_contextual_sentiment emotions tox conf) =
    if (is_toxic tox && Qgtb (tox_score tox) _TOXICITY_THRESHOLD)%bool then
      match table_get (lower (tox_label tox)) _TOXICITY_HORMONE_MAP with
      | Some tox_deltas =>
          accumulate tox_deltas (fun base_delta => base_delta * tox_score tox)
            (emotion_deltas_of emotions conf)
      | None => emotion_deltas_of emotions conf
      end
    else emotion_deltas_of emotions conf.
Proof.
  unfold analyze_contextual_sentiment, emotion_deltas_of, toxicity_of.
  cbn [hormone_deltas].
  destruct (is_toxic tox); [| reflexivity].
  destruct (Qgtb (tox_score tox) _TOXICITY_THRESHOLD); [| reflexivity].
  cbn [andb fst snd toxicity_pass].
  destruct (table_get (lower (tox_label tox)) _TOXICITY_HORMONE_MAP); reflexivity.
Qed.

Lemma Qgtb_true (a b : Q) : Qgtb a b = true <-> b < a.
Proof.
  unfold Qgtb. destruct (Qlt_le_dec b a) as [H | H]; split; intros; try done; lra.
Qed.

Lemma Qgtb_false (a b : Q) : Qgtb a b = false <-> a <= b.
Proof.
  unfold Qgtb. destruct (Qlt_le_dec b a) as [H | H]; split; intros; try done; lra.
Qed.

Lemma emotion_deltas_lookup emotions conf row h :
  table_get (primary_of emotions conf).1 _EMOTION_HORMONE_MAP = Some row ->
  emotion_deltas_of emotions conf !! h =
    match table_get h row with
    | Some w => Some (0 + w * (primary_of emotions conf).2 * conf)
    | None => None
    end.
Proof.
  intros Hrow. unfold emotion_deltas_of, emotion_pass. rewrite Hrow. cbn [fst].
  rewrite accumulate_lookup by (eapply row_unique; [apply emotion_rows_unique | exact Hrow]).
  rewrite lookup_empty. reflexivity.
Qed.

(** ** C4: the emotion weight table *)

(** C4, as the claim states it, fails on the size of the table: the dict
    literal does not have 22 entries. *)
Lemma C4_emotion_table_size_counterexample :
  ~ (length _EMOTION_HORMONE_MAP = 22%nat).
Proof. vm_compute. discriminate. Qed.

(** C4, amended.  The emotion weight table has exactly 24 entries with
    distinct keys, spanning positive, negative and neutral/complex emotions:
    its keys are the 10 of the positive heading, then the 10 of the negative
    heading, then the 4 of the neutral/complex heading, the last being
    "neutral" with an empty row; joy maps to dopamine +0.12 and serotonin
    +0.08, fear to cortisol +0.15 and serotonin -0.06; when the confidence
    exceeds 0.3 the primary emotion is the lower-cased first label with its
    score, and each weight of its row, scaled by that score and the overall
    confidence, is added into the (initially empty) delta map. *)
Theorem C4_emotion_table_scaling :
  length _EMOTION_HORMONE_MAP = 24%nat /\
  NoDup _EMOTION_HORMONE_MAP.*1 /\
  _EMOTION_HORMONE_MAP.*1
    = positive_emotions ++ negative_emotions ++ neutral_complex_emotions /\
  length positive_emotions = 10%nat /\
  length negative_emotions = 10%nat /\
  length neutral_complex_emotions = 4%nat /\
  table_get "neutral" _EMOTION_HORMONE_MAP = Some [] /\
  table_get "joy" _EMOTION_HORMONE_MAP
    = Some [("dopamine"%string, 0.12); ("serotonin"%string, 0.08)] /\
  table_get "fear" _EMOTION_HORMONE_MAP
    = Some [("cortisol"%string, 0.15); ("serotonin"%string, -0.06)] /\
  (forall e rest tox conf,
     _CONFIDENCE_THRESHOLD < conf ->
     primary_emotion (analyze_contextual_sentiment (e :: rest) tox conf)
       = lower (em_label e) /\
     emotion_intensity (analyze_contextual_sentiment (e :: rest) tox conf)
       = em_score e) /\
  (forall emotions tox conf row,
     let analysis := analyze_contextual_sentiment emotions tox conf in
     table_get (primary_emotion analysis) _EMOTION_HORMONE_MAP = Some row ->
     emotion_deltas_of emotions conf =
       accumulate row
         (fun base_delta => base_delta * emotion_intensity analysis * conf) ∅ /\
     (forall h,
        emotion_deltas_of emotions conf !! h =
          match table_get h row with
          | Some w => Some (0 + w * emotion_intensity analysis * conf)
          | None => None
          end) /\
     (is_toxic tox = false ->
        hormone_deltas analysis = emotion_deltas_of emotions conf)).
Proof.
  split; [reflexivity |].
  split; [apply (bool_decide_unpack _); vm_compute; exact I |].
  split; [reflexivity |].
  split; [reflexivity |].
  split; [reflexivity |].
  split; [reflexivity |].
  split; [reflexivity |].
  split; [reflexivity |].
  split; [reflexivity |].
  split.
  { intros e rest tox conf Hconf.
    unfold analyze_contextual_sentiment, primary_of. cbn [primary_emotion emotion_intensity].
    apply Qgtb_true in Hconf. rewrite Hconf. by split. }
  intros emotions tox conf row analysis Hrow.
  subst analysis. unfold analyze_contextual_sentiment in *.
  cbn [primary_emotion emotion_intensity] in *.
  split.
  { unfold emotion_deltas_of, emotion_pass. rewrite Hrow. reflexivity. }
  split.
  { intros h. by apply emotion_deltas_lookup. }
  intros Hclean.
  change (hormone_deltas (analyze_contextual_sentiment emotions tox conf)
          = emotion_deltas_of emotions conf).
  rewrite analyze_deltas, Hclean. reflexivity.
Qed.

(** ** C7: toxicity adds onto the emotion deltas *)

(** C7.  The toxicity label reaches the delta map only when the result is
    flagged toxic and its score is greater than 0.5; then, if the
    lower-cased label is a key of the 7-entry toxicity table, each hormone
    of its row gets the weight times the raw toxicity score added to the
    delta that the emotion pass left for it (0 when there is none) and the
    other hormones keep their emotion delta; a label that is not in the
    toxicity table, or a primary emotion that is not in the emotion table,
    contributes nothing, and the function is total. *)
Theorem C7_toxicity_additive (emotions : list EmotionSignal)
    (tox : ToxicitySignal) (conf : Q) :
  let analysis := analyze_contextual_sentiment emotions tox conf in
  let emotion_only := emotion_deltas_of emotions conf in
  length _TOXICITY_HORMONE_MAP = 7%nat /\
  NoDup _TOXICITY_HORMONE_MAP.*1 /\
  (is_toxic tox = false \/ tox_score tox <= 0.5 ->
     toxicity_detected analysis = [] /\ hormone_deltas analysis = emotion_only) /\
  (is_toxic tox = true -> 0.5 < tox_score tox ->
     toxicity_detected analysis = [lower (tox_label tox)] /\
     match table_get (lower (tox_label tox)) _TOXICITY_HORMONE_MAP with
     | Some row =>
         forall h,
           hormone_deltas analysis !! h =
             match table_get h row with
             | Some w => Some (default 0 (emotion_only !! h) + w * tox_score tox)
             | None => emotion_only !! h
             end
     | None => hormone_deltas analysis = emotion_only
     end) /\
  (table_get (primary_emotion analysis) _EMOTION_HORMONE_MAP = None ->
     emotion_only = ∅).
Proof.
  intros analysis emotion_only. subst analysis emotion_only.
  split; [reflexivity |].
  split; [apply (bool_decide_unpack _); vm_compute; exact I |].
  split.
  { intros Hoff. rewrite analyze_deltas.
    unfold analyze_contextual_sentiment, toxicity_of. cbn [toxicity_detected].
    destruct (is_toxic tox); [| by split].
    destruct Hoff as [Hoff | Hoff]; [discriminate |].
    change 0.5 with _TOXICITY_THRESHOLD in Hoff.
    apply Qgtb_false in Hoff. rewrite Hoff. by split. }
  split.
  { intros Hflag Hscore. rewrite analyze_deltas.
    unfold analyze_contextual_sentiment, toxicity_of. cbn [toxicity_detected].
    change 0.5 with _TOXICITY_THRESHOLD in Hscore.
    apply Qgtb_true in Hscore. rewrite Hflag, Hscore. cbn [andb fst].
    split; [reflexivity |].
    destruct (table_get (lower (tox_label tox)) _TOXICITY_HORMONE_MAP) as [row |] eqn:Hrow;
      [| reflexivity].
    intros h. apply accumulate_lookup.
    eapply row_unique; [apply toxicity_rows_unique | exact Hrow]. }
  intros Hnone. unfold analyze_contextual_sentiment in Hnone.
  cbn [primary_emotion] in Hnone.
  unfold emotion_deltas_of, emotion_pass. rewrite Hnone. reflexivity.
Qed.

(** ** C10: the delta map only names the four hormones *)

(** C10.  Every key of the delta map that [analyze_contextual_sentiment]
    returns is one of dopamine, serotonin, cortisol and oxytocin, the only
    hormone names of the two weight tables; so for a store that has these
    four keys the update raises no [KeyError]: it returns and saves. *)
Theorem C10_delta_keys_are_hormones (emotions : list EmotionSignal)
    (tox : ToxicitySignal) (conf : Q) :
  rows_known _EMOTION_HORMONE_MAP /\
  rows_known _TOXICITY_HORMONE_MAP /\
  (forall h,
     is_Some (hormone_deltas (analyze_contextual_sentiment emotions tox conf) !! h) ->
     h ∈ hormone_names) /\
  (forall doc,
     (forall h, h ∈ hormone_names -> is_Some (load_hormone_levels doc !! h)) ->
     is_Some (apply_contextual_hormone_adjustments emotions tox conf doc)).
Proof.
  assert (Hemo : forall h, is_Some (emotion_deltas_of emotions conf !! h) ->
                           h ∈ hormone_names).
  { intros h Hsome. unfold emotion_deltas_of, emotion_pass in Hsome.
    destruct (table_get _ _EMOTION_HORMONE_MAP) as [row |] eqn:Hrow; cbn [fst] in Hsome.
    - apply accumulate_keys in Hsome as [Hempty | Hin].
      + rewrite lookup_empty in Hempty. by destruct Hempty.
      + eapply row_known; [apply emotion_rows_known | exact Hrow | exact Hin].
    - rewrite lookup_empty in Hsome. by destruct Hsome. }
  assert (Hkeys : forall h,
     is_Some (hormone_deltas (analyze_contextual_sentiment emotions tox conf) !! h) ->
     h ∈ hormone_names).
  { intros h. rewrite analyze_deltas.
    destruct (is_toxic tox && Qgtb (tox_score tox) _TOXICITY_THRESHOLD)%bool; [| apply Hemo].
    destruct (table_get _ _TOXICITY_HORMONE_MAP) as [row |] eqn:Hrow; [| apply Hemo].
    intros Hsome. apply accumulate_keys in Hsome as [Hold | Hin].
    - by apply Hemo.
    - eapply row_known; [apply toxicity_rows_known | exact Hrow | exact Hin]. }
  split; [apply emotion_rows_known |].
  split; [apply toxicity_rows_known |].
  split; [exact Hkeys |].
  intros doc Hstore.
  unfold apply_contextual_hormone_adjustments, apply_analysis.
  set (deltas := hormone_deltas (analyze_contextual_sentiment emotions tox conf)) in *.
  destruct (map_to_list deltas) as [| item items] eqn:Hitems; [by eexists |].
  rewrite <- Hitems.
  destruct (adjust_loop_total (load_hormone_levels doc) (map_to_list deltas)
              (load_hormone_levels doc)) as [res Hres].
  { intros h Hin. apply Hstore, Hkeys.
    apply list_elem_of_fmap in Hin as ([k d] & -> & Hin).
    apply elem_of_map_to_list in Hin. simpl. by eexists. }
  rewrite Hres. by eexists.
Qed.

(** ** The mood classifier *)

(** [max_by_score] returns the first item of maximal score: the items
    before it score strictly less, the items after it score at most as
    much. *)
Lemma max_by_score_first_max (items : list (string * Q)) : forall best,
  exists pre post,
    best :: items = pre ++ max_by_score best items :: post /\
    (forall x, x ∈ pre -> x.2 < (max_by_score best items).2) /\
    (forall x, x ∈ post -> x.2 <= (max_by_score best items).2).
Proof.
  induction items as [| x rest IH]; intros best; simpl.
  - exists [], []. split; [reflexivity |].
    split; intros y Hy; by apply elem_of_nil in Hy.
  - destruct (Qgtb x.2 best.2) eqn:Hcmp.
    + apply Qgtb_true in Hcmp.
      destruct (IH x) as (pre & post & Heq & Hpre & Hpost).
      set (r := max_by_score x rest) in *.
      assert (Hx : x.2 <= r.2).
      { destruct pre as [| p pre'].
        - injection Heq as Hr _. rewrite <- Hr. lra.
        - injection Heq as -> _. apply Qlt_le_weak, Hpre, elem_of_cons. by left. }
      exists (best :: pre), post. split; [by rewrite Heq |].
      split; [| exact Hpost].
      intros y Hy. apply elem_of_cons in Hy as [-> | Hy]; [lra | by apply Hpre].
    + apply Qgtb_false in Hcmp.
      destruct (IH best) as (pre & post & Heq & Hpre & Hpost).
      set (r := max_by_score best rest) in *.
      destruct pre as [| p pre'].
      * injection Heq as Hr Hrest. exists [], (x :: post).
        split; [simpl; rewrite <- Hr, <- Hrest; reflexivity |].
        split; [intros y Hy; by apply elem_of_nil in Hy |].
        intros y Hy. apply elem_of_cons in Hy as [-> | Hy]; [| by apply Hpost].
        rewrite <- Hr. exact Hcmp.
      * injection Heq as <- Hrest.
        assert (Hbest : best.2 < r.2) by (apply Hpre, elem_of_cons; by left).
        exists (best :: x :: pre'), post.
        split; [simpl; by rewrite Hrest |].
        split; [| exact Hpost].
        intros y Hy. apply elem_of_cons in Hy as [-> | Hy]; [exact Hbest |].
        apply elem_of_cons in Hy as [-> | Hy]; [lra |].
        apply Hpre, elem_of_cons. by right.
Qed.

(** The gated candidates appear in the order of the catalogue, each at most
    once. *)
Lemma mood_scores_in_catalogue (levels : gmap string Q) :
  (mood_scores levels).*1 `sublist_of` mood_catalogue.
Proof.
  unfold mood_scores. cbv zeta. rewrite !fmap_app.
  change mood_catalogue with
    (["anxious"; "restless"; "stressed"]%string ++
     ["depressed"; "melancholic"; "sad"]%string ++
     ["euphoric"; "cheerful"; "energetic"]%string ++
     ["loving"; "affectionate"; "caring"]%string ++
     ["content"]%string ++ ["conflicted"]%string).
  repeat apply sublist_app;
    repeat match goal with
    | |- context [if ?b then _ else _] => destruct b
    end; simpl; repeat constructor.
Qed.

Lemma mood_scores_baseline (levels : gmap string Q) :
  (forall h v, levels !! h = Some v -> v == 0.5) ->
  mood_scores levels = [].
Proof.
  intros Hbase.
  assert (Hget : forall h, default 0.5 (levels !! h) == 0.5).
  { intros h. destruct (levels !! h) as [v |] eqn:Hv; simpl; [eauto | reflexivity]. }
  unfold mood_scores. cbv zeta.
  pose proof (Hget "dopamine"%string) as Hd.
  pose proof (Hget "serotonin"%string) as Hs.
  pose proof (Hget "cortisol"%string) as Hc.
  pose proof (Hget "oxytocin"%string) as Ho.
  set (d := default 0.5 (levels !! "dopamine"%string)) in *.
  set (s := default 0.5 (levels !! "serotonin"%string)) in *.
  set (c := default 0.5 (levels !! "cortisol"%string)) in *.
  set (o := default 0.5 (levels !! "oxytocin"%string)) in *.
  assert (G1 : Qgtb (c - 0.5) 0.1 = false) by (apply Qgtb_false; lra).
  assert (G2 : Qltb (s - 0.5) (-0.08) = false)
    by (unfold Qltb; destruct (Qlt_le_dec _ _); [lra | done]).
  assert (G3 : Qgtb (d - 0.5) 0.08 = false) by (apply Qgtb_false; lra).
  assert (G4 : Qgtb (o - 0.5) 0.1 = false) by (apply Qgtb_false; lra).
  assert (G5 : Qgtb (d - 0.5) 0.03 = false) by (apply Qgtb_false; lra).
  assert (G6 : Qgtb (Qabs (d - 0.5)) 0.05 = false)
    by (apply Qgtb_false; qabs (d - 0.5); lra).
  rewrite G1, G2, G3, G4, G5, G6. reflexivity.
Qed.

(** ** C2: selection of the mood *)

(** C2.  When no candidate is gated on, [calculate_mood_from_hormones]
    returns ("neutral", 0.5).  Otherwise it returns a gated candidate whose
    score is at least the score of every gated candidate and greater than
    the score of every candidate registered before it; so a candidate that
    scores strictly more than all the others is the one returned.  The
    returned intensity is the winning score clamped to [0.1, 1.0].  The
    candidates are registered in the order of the catalogue.  For levels
    all equal to 0.5 the result is ("neutral", 0.5). *)
Theorem C2_mood_selection (levels : gmap string Q) :
  let scores := mood_scores levels in
  let result := calculate_mood_from_hormones levels in
  (scores = [] -> result = ("neutral"%string, 0.5)) /\
  (scores <> [] ->
     exists pre name score post,
       scores = pre ++ (name, score) :: post /\
       (forall x, x ∈ pre -> x.2 < score) /\
       (forall x, x ∈ post -> x.2 <= score) /\
       result = (name, py_min 1.0 (py_max 0.1 score)) /\
       0.1 <= result.2 <= 1 /\
       (0.1 <= score <= 1 -> result.2 == score) /\
       (score < 0.1 -> result.2 == 0.1) /\
       (1 < score -> result.2 == 1)) /\
  (forall pre c post,
     scores = pre ++ c :: post ->
     (forall x, x ∈ pre ++ post -> x.2 < c.2) ->
     result.1 = c.1) /\
  scores.*1 `sublist_of` mood_catalogue /\
  ((forall h v, levels !! h = Some v -> v == 0.5) ->
     result = ("neutral"%string, 0.5)).
Proof.
  intros scores result.
  assert (Hwin : scores <> [] ->
     exists pre name score post,
       scores = pre ++ (name, score) :: post /\
       (forall x, x ∈ pre -> x.2 < score) /\
       (forall x, x ∈ post -> x.2 <= score) /\
       result = (name, py_min 1.0 (py_max 0.1 score))).
  { subst scores result. unfold calculate_mood_from_hormones.
    destruct (mood_scores levels) as [| first rest]; [done |]. intros _.
    destruct (max_by_score_first_max rest first) as (pre & post & Heq & Hpre & Hpost).
    destruct (max_by_score first rest) as [name score] eqn:Htop. simpl in *.
    exists pre, name, score, post. by repeat split. }
  split.
  { subst scores result. unfold calculate_mood_from_hormones. by intros ->. }
  split.
  { intros Hne. destruct (Hwin Hne) as (pre & name & score & post & Heq & Hpre & Hpost & Hres).
    exists pre, name, score, post.
    repeat (split; [assumption |]).
    rewrite Hres. simpl. unfold py_min, py_max.
    destruct (Qlt_le_dec 0.1 score); destruct (Qlt_le_dec _ 1.0);
      repeat split; intros; lra. }
  split.
  { intros pre c post Heq Hstrict.
    assert (Hne : scores <> []) by (rewrite Heq; by destruct pre).
    destruct (Hwin Hne) as (pre' & name & score & post' & Heq' & Hpre' & Hpost' & Hres).
    rewrite Hres. simpl.
    assert (Hc : c ∈ pre' ++ (name, score) :: post')
      by (rewrite <- Heq', Heq; apply elem_of_app; right; apply elem_of_cons; by left).
    assert (Hw : (name, score) ∈ pre ++ c :: post)
      by (rewrite <- Heq, Heq'; apply elem_of_app; right; apply elem_of_cons; by left).
    assert (Hw' : (name, score) = c \/ score < c.2).
    { apply elem_of_app in Hw as [Hw | Hw].
      - right. apply (Hstrict (name, score)), elem_of_app. by left.
      - apply elem_of_cons in Hw as [Hw | Hw]; [by left |].
        right. apply (Hstrict (name, score)), elem_of_app. by right. }
    destruct Hw' as [<- | Hlt]; [reflexivity |].
    exfalso. apply elem_of_app in Hc as [Hc | Hc].
    - specialize (Hpre' _ Hc). lra.
    - apply elem_of_cons in Hc as [-> | Hc]; [simpl in Hlt; lra |].
      specialize (Hpost' _ Hc). lra. }
  split; [apply mood_scores_in_catalogue |].
  intros Hbase. subst result. unfold calculate_mood_from_hormones.
  by rewrite (mood_scores_baseline levels Hbase).
Qed.

Example mood_high_stress :
  (calculate_mood_from_hormones (levels_of 0.3 0.2 0.8 0.4)).1 = "anxious"%string.
Proof. vm_compute. reflexivity. Qed.

Example mood_happy_love :
  (calculate_mood_from_hormones (levels_of 0.8 0.7 0.3 0.9)).1 = "euphoric"%string.
Proof. vm_compute. reflexivity. Qed.

Example mood_baseline :
  calculate_mood_from_hormones (levels_of 0.5 0.5 0.5 0.5) = ("neutral"%string, 0.5).
Proof. vm_compute. reflexivity. Qed.

(** ** The mood history ledger *)

Lemma append_and_cap_length history entry :
  length (append_and_cap history entry) = Nat.min 100 (S (length history)).
Proof.
  unfold append_and_cap, last_100.
  destruct (Nat.ltb 100 (length (history ++ [entry]))) eqn:Hlen.
  - apply Nat.ltb_lt in Hlen. rewrite length_drop.
    rewrite length_app in *. cbn [length] in *. lia.
  - apply Nat.ltb_ge in Hlen. rewrite length_app in *. cbn [length] in *. lia.
Qed.

Lemma append_and_cap_suffix history entry :
  append_and_cap history entry `suffix_of` history ++ [entry].
Proof.
  unfold append_and_cap, last_100.
  destruct (Nat.ltb 100 (length (history ++ [entry]))); [| done].
  exists (take (length (history ++ [entry]) - 100) (history ++ [entry])).
  by rewrite take_drop.
Qed.

Lemma load_mood_history_ledger init_write files :
  (load_mood_history init_write (mood_history_json files)).1 = ledger files.
Proof. unfold ledger. by destruct (mood_history_json files). Qed.

Section Ledger.

Variable get_mood_context : string -> Q -> MoodContext.

(** The three things a call can do to the persisted ledger. *)
Lemma update_mood_ledger (c : Call) (files : Files) :
  (succeeds c = true /\
   ledger (update_mood get_mood_context c files) =
     append_and_cap (ledger files) (history_entry_of get_mood_context c)) \/
  (succeeds c = false /\
   (ledger (update_mood get_mood_context c files) = ledger files \/
    ledger (update_mood get_mood_context c files) = [])).
Proof.
  unfold update_mood, succeeds, ledger, save_mood_history, append_and_cap.
  destruct files as [mood_file history_file].
  destruct (mood_write (call_env c)); cbn [mood_history_json];
    [| right; split; [done | by left] ..].
  destruct history_file as [| | history];
    destruct (history_init_write (call_env c));
    destruct (history_write (call_env c)); cbn;
    first [ left; split; reflexivity
          | right; split; [reflexivity | by left]
          | right; split; [reflexivity | by right] ].
Qed.

Lemma update_mood_bounded (c : Call) (files : Files) :
  (length (ledger files) <= 100)%nat ->
  (length (ledger (update_mood get_mood_context c files)) <= 100)%nat.
Proof.
  intros Hlen.
  destruct (update_mood_ledger c files) as [[_ ->] | [_ [-> | ->]]].
  - rewrite append_and_cap_length. lia.
  - exact Hlen.
  - simpl. lia.
Qed.

Lemma update_mood_order (c : Call) (files : Files) :
  ledger (update_mood get_mood_context c files)
    `sublist_of` ledger files ++ [history_entry_of get_mood_context c].
Proof.
  destruct (update_mood_ledger c files) as [[_ ->] | [_ [-> | ->]]].
  - destruct (append_and_cap_suffix (ledger files)
                (history_entry_of get_mood_context c)) as [dropped ->].
    by apply sublist_inserts_l.
  - by apply sublist_inserts_r.
  - apply sublist_nil_l.
Qed.

Lemma run_calls_bounded (calls : list Call) : forall files,
  (length (ledger files) <= 100)%nat ->
  (length (ledger (run_calls get_mood_context calls files)) <= 100)%nat.
Proof.
  induction calls as [| c rest IH]; intros files Hlen; simpl; [exact Hlen |].
  by apply IH, update_mood_bounded.
Qed.

Lemma run_calls_order (calls : list Call) : forall files,
  ledger (run_calls get_mood_context calls files)
    `sublist_of` ledger files ++ (history_entry_of get_mood_context <$> calls).
Proof.
  induction calls as [| c rest IH]; intros files; simpl.
  - by rewrite app_nil_r.
  - etrans; [apply IH |].
    rewrite (cons_middle _ (ledger files)), app_assoc.
    apply sublist_app; [apply update_mood_order | done].
Qed.

End Ledger.

(** ** C8: the ledger is capped at 100 and keeps its order *)

(** C8.  A call of [update_mood] whose two writes succeed appends exactly
    one entry to the loaded history and persists the last 100 entries of
    the result, the new entry being the last one; whatever the writes do,
    a ledger of at most 100 entries has at most 100 entries after any
    number of calls, and its entries are, in the same order, entries of
    the old ledger followed by entries of the calls in call order;
    [load_mood_history] returns the empty list for a missing and for an
    unparsable file (and never raises). *)
Theorem C8_history_capped_and_ordered (get_mood_context : string -> Q -> MoodContext) :
  (forall (c : Call) (files : Files),
     succeeds c = true ->
     let entry := history_entry_of get_mood_context c in
     let after := ledger (update_mood get_mood_context c files) in
     after = last_100 (ledger files ++ [entry]) /\
     length after = Nat.min 100 (S (length (ledger files))) /\
     last after = Some entry /\
     after `suffix_of` ledger files ++ [entry]) /\
  (forall (calls : list Call) (files : Files),
     (length (ledger files) <= 100)%nat ->
     (length (ledger (run_calls get_mood_context calls files)) <= 100)%nat) /\
  (forall (calls : list Call) (files : Files),
     ledger (run_calls get_mood_context calls files)
       `sublist_of` ledger files ++ (history_entry_of get_mood_context <$> calls)) /\
  (forall (init_write : WriteOutcome),
     (load_mood_history init_write Missing).1 = [] /\
     (load_mood_history init_write Unparsable).1 = []) /\
  (forall (init_write : WriteOutcome) (files : Files),
     (load_mood_history init_write (mood_history_json files)).1 = ledger files).
Proof.
  split.
  { intros c files Hok entry after. subst entry after.
    destruct (update_mood_ledger get_mood_context c files) as [[_ Heq] | [Hfail _]];
      [| congruence].
    rewrite Heq.
    assert (Hcap : append_and_cap (ledger files) (history_entry_of get_mood_context c)
                   = last_100 (ledger files ++ [history_entry_of get_mood_context c])).
    { unfold append_and_cap, last_100.
      destruct (Nat.ltb 100 _) eqn:Hlen; [reflexivity |].
      apply Nat.ltb_ge in Hlen.
      replace (_ - 100)%nat with 0%nat by lia. reflexivity. }
    split; [exact Hcap |].
    split; [apply append_and_cap_length |].
    split; [| apply append_and_cap_suffix].
    destruct (append_and_cap_suffix (ledger files)
                (history_entry_of get_mood_context c)) as [dropped Hsplit].
    pose proof (append_and_cap_length (ledger files)
                  (history_entry_of get_mood_context c)) as Hlen.
    destruct (append_and_cap _ _) as [| x xs] using rev_ind.
    - simpl in Hlen. lia.
    - rewrite app_assoc in Hsplit. apply app_inj_tail in Hsplit as [_ <-].
      apply last_snoc. }
  split; [intros calls files; apply run_calls_bounded |].
  split; [intros calls files; apply run_calls_order |].
  split; [intros init_write; split; reflexivity |].
  intros init_write files. apply load_mood_history_ledger.
Qed.

(** ** C9: a failed write of the current mood leaves the ledger alone *)

(** C9.  When writing the current-mood document raises, [update_mood]
    returns at once: the history file is not read, created or written, so
    the persisted ledger is the one from before the call. *)
Theorem C9_failed_mood_write_keeps_ledger
    (get_mood_context : string -> Q -> MoodContext) (c : Call) (files : Files)
    (Hfail : mood_write (call_env c) <> Written) :
  mood_history_json (update_mood get_mood_context c files) = mood_history_json files /\
  ledger (update_mood get_mood_context c files) = ledger files /\
  succeeds c = false.
Proof.
  unfold ledger, update_mood, succeeds.
  destruct (mood_write (call_env c)); [contradiction | by repeat split ..].
Qed.

Lemma C9_failed_mood_write_keeps_ledger_witness :
  length (ledger one_entry_files) = 1%nat /\
  ledger (update_mood no_context (sample_call DumpFails Written) one_entry_files)
    = ledger one_entry_files.
Proof.
  split; [vm_compute; reflexivity |].
  apply (C9_failed_mood_write_keeps_ledger no_context
           (sample_call DumpFails Written) one_entry_files).
  vm_compute. discriminate.
Defined.

(** 105 successful calls on a fresh directory leave 100 entries. *)
Example ledger_after_105_calls :
  length (ledger (run_calls no_context (replicate 105 (sample_call Written Written))
                    {| mood_adjustments_json := Missing; mood_history_json := Missing |}))
    = 100%nat.
Proof. vm_compute. reflexivity. Qed.


(** ** Concrete instances *)

(** At 0.5 a delta of 0.08 passes unchanged; nearer to 1 it is damped more. *)
Lemma C5_apply_resistance_curve_witness :
  _apply_resistance 0.5 0.08 == 0.08 /\
  Qabs (_apply_resistance 0.9 0.08) <= Qabs (_apply_resistance 0.6 0.08).
Proof.
  destruct (C5_apply_resistance_curve 0.6 0.08) as (_ & Hmid & _ & _ & Hmono).
  { split; vm_compute; discriminate. }
  split; [exact Hmid |].
  apply Hmono; [split |]; vm_compute; discriminate.
Defined.

(** The stress scenario has gated candidates; the intensity is in range. *)
Lemma C2_mood_selection_witness :
  0.1 <= (calculate_mood_from_hormones (levels_of 0.3 0.2 0.8 0.4)).2 <= 1.
Proof.
  destruct (proj1 (proj2 (C2_mood_selection (levels_of 0.3 0.2 0.8 0.4))))
    as (pre & name & score & post & _ & _ & _ & _ & Hrange & _).
  { vm_compute. discriminate. }
  exact Hrange.
Defined.

(** Joy at full score and confidence: dopamine gets 0.12 * 1.0 * 1.0. *)
Lemma C4_emotion_table_scaling_witness :
  hormone_deltas (analyze_contextual_sentiment joy_signal not_toxic 1.0)
    !! "dopamine"%string = Some (0 + 0.12 * 1.0 * 1.0).
Proof.
  destruct C4_emotion_table_scaling
    as (_ & _ & _ & _ & _ & _ & _ & Hjoy & _ & _ & Hscale).
  destruct (Hscale joy_signal not_toxic 1.0 _ Hjoy) as (_ & Hlookup & Hclean).
  rewrite (Hclean eq_refl). exact (Hlookup "dopamine"%string).
Defined.

(** A frightened and toxic message: the toxicity weight of cortisol, times
    the raw score 0.9, is added to the delta that fear left for cortisol. *)
Lemma C7_toxicity_additive_witness :
  hormone_deltas (analyze_contextual_sentiment fear_signal toxic_signal 1)
    !! "cortisol"%string
  = Some (default 0 (emotion_deltas_of fear_signal 1 !! "cortisol"%string)
          + 0.15 * tox_score toxic_signal).
Proof.
  destruct (C7_toxicity_additive fear_signal toxic_signal 1) as (_ & _ & _ & Hon & _).
  destruct (Hon eq_refl) as [_ Hrow]; [vm_compute; reflexivity |].
  exact (Hrow "cortisol"%string).
Defined.

(** A second successful call makes a ledger of two entries. *)
Lemma C8_history_capped_and_ordered_witness :
  length (ledger (update_mood no_context (sample_call Written Written) one_entry_files))
    = 2%nat.
Proof.
  destruct (C8_history_capped_and_ordered no_context) as (Hstep & _).
  destruct (Hstep (sample_call Written Written) one_entry_files eq_refl)
    as (_ & Hlen & _).
  rewrite Hlen. vm_compute. reflexivity.
Defined.

(** On the default store the frightened and toxic message is applied. *)
Lemma C10_delta_keys_are_hormones_witness :
  is_Some (apply_contextual_hormone_adjustments fear_signal toxic_signal 1 None).
Proof.
  destruct (C10_delta_keys_are_hormones fear_signal toxic_signal 1)
    as (_ & _ & _ & Hruns).
  apply Hruns. intros h Hh. unfold hormone_names in Hh.
  repeat (apply elem_of_cons in Hh as [-> | Hh]; [vm_compute; eauto |]).
  by apply elem_of_nil in Hh.
Defined.


(** * Further properties of the code *)

(** ** persona/emotion_nsfw_checker.py: what the detectors return *)

Lemma insert_by_score_perm (x : EmotionSignal) (l : list EmotionSignal) :
  insert_by_score x l ≡ₚ x :: l.
Proof.
  induction l as [| y rest IH]; simpl; [done |].
  destruct (Qgtb (em_score y) (em_score x)); [| done].
  rewrite IH. apply Permutation_swap.
Qed.

Lemma sort_by_score_perm (l : list EmotionSignal) : sort_by_score l ≡ₚ l.
Proof.
  induction l as [| x rest IH]; simpl; [done |].
  rewrite insert_by_score_perm. by rewrite IH.
Qed.

Lemma insert_by_score_sorted (x : EmotionSignal) (l : list EmotionSignal) :
  StronglySorted (fun a b => em_score b <= em_score a) l ->
  StronglySorted (fun a b => em_score b <= em_score a) (insert_by_score x l).
Proof.
  induction 1 as [| y rest Hsorted IH Hall]; simpl.
  - repeat constructor.
  - destruct (Qgtb (em_score y) (em_score x)) eqn:Hcmp.
    + apply Qgtb_true in Hcmp. constructor; [exact IH |].
      rewrite insert_by_score_perm. constructor; [lra | exact Hall].
    + apply Qgtb_false in Hcmp. constructor; [by constructor |].
      constructor; [exact Hcmp |].
      rewrite Forall_forall in Hall |- *. intros z Hz.
      specialize (Hall z Hz). simpl in Hall. lra.
Qed.

Lemma sort_by_score_sorted (l : list EmotionSignal) :
  StronglySorted (fun a b => em_score b <= em_score a) (sort_by_score l).
Proof.
  induction l as [| x rest IH]; simpl; [constructor |].
  by apply insert_by_score_sorted.
Qed.

(** The items of one score keep their relative order: the sort is stable. *)
Lemma insert_by_score_stable (s : Q) (x : EmotionSignal) (l : list EmotionSignal) :
  filter (fun e => Qeq_bool (em_score e) s = true) (insert_by_score x l)
  = filter (fun e => Qeq_bool (em_score e) s = true) (x :: l).
Proof.
  induction l as [| y rest IH]; simpl; [done |].
  destruct (Qgtb (em_score y) (em_score x)) eqn:Hcmp; [| done].
  apply Qgtb_true in Hcmp.
  rewrite !filter_cons. rewrite IH, filter_cons.
  destruct (decide (Qeq_bool (em_score y) s = true)) as [Hy |];
    destruct (decide (Qeq_bool (em_score x) s = true)) as [Hx |]; try done.
  apply Qeq_bool_iff in Hy, Hx. lra.
Qed.

Lemma sort_by_score_stable (s : Q) (l : list EmotionSignal) :
  filter (fun e => Qeq_bool (em_score e) s = true) (sort_by_score l)
  = filter (fun e => Qeq_bool (em_score e) s = true) l.
Proof.
  induction l as [| x rest IH]; simpl; [done |].
  rewrite insert_by_score_stable, !filter_cons, IH. done.
Qed.

(** X1.  [detect_emotion] returns the results of the model that score more
    than [min_confidence], each once, ordered by descending score with the
    results of equal score in the order of the model; its first element
    scores at least as much as every kept result; for a blank text, an
    empty preprocessed text or a failing model it returns the empty list. *)
Theorem X1_detect_emotion_sorted (text processed_text : string)
    (pipeline : option PipelineOutput) (min_confidence : Q) :
  let emotions := detect_emotion text processed_text pipeline min_confidence in
  StronglySorted (fun a b => em_score b <= em_score a) emotions /\
  (forall e, e ∈ emotions -> min_confidence < em_score e) /\
  (forall top rest e, emotions = top :: rest -> e ∈ emotions ->
     em_score e <= em_score top) /\
  (forall results,
     pipeline = Some results -> is_blank text = false -> processed_text <> ""%string ->
     emotions ≡ₚ filter (fun r => Qgtb (em_score r) min_confidence = true)
                   (pipeline_scores results) /\
     forall s,
       filter (fun e => Qeq_bool (em_score e) s = true) emotions
       = filter (fun e => Qeq_bool (em_score e) s = true)
           (filter (fun r => Qgtb (em_score r) min_confidence = true)
              (pipeline_scores results))) /\
  (is_blank text = true \/ processed_text = ""%string \/ pipeline = None ->
     emotions = []).
Proof.
  intros emotions.
  assert (Hshape : emotions = [] \/
     exists results, pipeline = Some results /\ is_blank text = false /\
       processed_text <> ""%string /\
       emotions = sort_by_score
         (filter (fun r => Qgtb (em_score r) min_confidence = true)
            (pipeline_scores results))).
  { subst emotions. unfold detect_emotion.
    destruct (is_blank text); [by left |].
    destruct (String.eqb processed_text "") eqn:Hp; [by left |].
    apply String.eqb_neq in Hp.
    destruct pipeline as [results |]; [| by left].
    right. exists results. by repeat split. }
  assert (Hsorted : StronglySorted (fun a b => em_score b <= em_score a) emotions).
  { destruct Hshape as [-> | (results & _ & _ & _ & ->)];
      [constructor | apply sort_by_score_sorted]. }
  split; [exact Hsorted |].
  split.
  { intros e He. destruct Hshape as [Hnil | (results & _ & _ & _ & Heq)].
    - rewrite Hnil in He. by apply elem_of_nil in He.
    - rewrite Heq, sort_by_score_perm in He.
      apply list_elem_of_filter in He as [He _]. by apply Qgtb_true in He. }
  split.
  { intros top rest e Heq He. rewrite Heq in Hsorted, He.
    apply StronglySorted_inv in Hsorted as [_ Hall].
    apply elem_of_cons in He as [-> | He]; [lra |].
    rewrite Forall_forall in Hall. exact (Hall e He). }
  split.
  { intros results Hpipe Hblank Hproc. subst emotions. unfold detect_emotion.
    rewrite Hblank, Hpipe. apply String.eqb_neq in Hproc. rewrite Hproc.
    split; [apply sort_by_score_perm | intros s; apply sort_by_score_stable]. }
  intros Hoff. subst emotions. unfold detect_emotion.
  destruct (is_blank text); [done |].
  destruct Hoff as [Hoff | [-> | ->]]; [done | done |].
  by destruct (String.eqb processed_text "").
Qed.

(** X2.  [detect_toxicity] flags the text exactly when the first result
    labelled TOXIC scores more than [min_confidence]; the label it returns
    is TOXIC when flagged and NOT_TOXIC otherwise, the score is the score of
    that first TOXIC result (0 when there is none), and a blank text, an
    empty preprocessed text or a failing model give the unflagged result
    with score 0. *)
Theorem X2_detect_toxicity_shape (text processed_text : string)
    (pipeline : option PipelineOutput) (min_confidence : Q) :
  let result := detect_toxicity text processed_text pipeline min_confidence in
  (is_toxic result = true ->
     tox_label result = "TOXIC"%string /\ min_confidence < tox_score result /\
     exists results, pipeline = Some results /\
       find_toxic (pipeline_scores results) = Some (tox_score result)) /\
  (is_toxic result = false -> tox_label result = "NOT_TOXIC"%string) /\
  (forall results toxic_score,
     is_blank text = false -> processed_text <> ""%string ->
     pipeline = Some results ->
     find_toxic (pipeline_scores results) = Some toxic_score ->
     tox_score result = toxic_score /\
     (is_toxic result = true <-> min_confidence < toxic_score)) /\
  (is_blank text = true \/ processed_text = ""%string \/ pipeline = None ->
     result = not_toxic_result).
Proof.
  intros result. subst result. unfold detect_toxicity.
  split.
  { destruct (is_blank text); [discriminate |].
    destruct (String.eqb processed_text ""); [discriminate |].
    destruct pipeline as [results |]; [| discriminate].
    destruct (find_toxic (pipeline_scores results)) as [s |] eqn:Hfind; [| discriminate].
    destruct (Qgtb s min_confidence) eqn:Hcmp; [| discriminate].
    intros _. apply Qgtb_true in Hcmp. simpl. repeat split; [exact Hcmp |].
    by exists results. }
  split.
  { destruct (is_blank text); [done |].
    destruct (String.eqb processed_text ""); [done |].
    destruct pipeline as [results |]; [| done].
    destruct (find_toxic (pipeline_scores results)) as [s |]; [| done].
    by destruct (Qgtb s min_confidence). }
  split.
  { intros results s Hblank Hproc -> Hfind.
    apply String.eqb_neq in Hproc. rewrite Hblank, Hproc, Hfind.
    destruct (Qgtb s min_confidence) eqn:Hcmp; simpl.
    - apply Qgtb_true in Hcmp. by repeat split.
    - apply Qgtb_false in Hcmp. split; [done |]. split; [discriminate | lra]. }
  intros Hoff. destruct (is_blank text); [done |].
  destruct Hoff as [Hoff | [-> | ->]]; [done | done |].
  by destruct (String.eqb processed_text "").
Qed.

Lemma detect_toxicity_flagged text processed_text pipeline min_confidence :
  is_toxic (detect_toxicity text processed_text pipeline min_confidence) = true ->
  tox_label (detect_toxicity text processed_text pipeline min_confidence)
    = "TOXIC"%string.
Proof.
  unfold detect_toxicity.
  destruct (is_blank text); [discriminate |].
  destruct (String.eqb processed_text ""); [discriminate |].
  destruct pipeline as [results |]; [| discriminate].
  destruct (find_toxic (pipeline_scores results)) as [s |]; [| discriminate].
  by destruct (Qgtb s min_confidence).
Qed.

(** X3.  Whatever the toxicity model answers, the only row of the toxicity
    table that a result of [detect_toxicity] can select is the one of
    "toxic": when the result is flagged and scores more than 0.5, cortisol
    gets +0.15 times the score and serotonin -0.08 times the score on top
    of their emotion deltas, and dopamine and oxytocin keep their emotion
    deltas; otherwise the delta map is the emotion map. *)
Theorem X3_detected_toxicity_uses_toxic_row (text processed_text : string)
    (pipeline : option PipelineOutput) (min_confidence : Q)
    (emotions : list EmotionSignal) (conf : Q) :
  let tox := detect_toxicity text processed_text pipeline min_confidence in
  let deltas := hormone_deltas (analyze_contextual_sentiment emotions tox conf) in
  let emotion_only := emotion_deltas_of emotions conf in
  (is_toxic tox = true -> 0.5 < tox_score tox ->
     deltas !! "cortisol"%string
       = Some (default 0 (emotion_only !! "cortisol"%string) + 0.15 * tox_score tox) /\
     deltas !! "serotonin"%string
       = Some (default 0 (emotion_only !! "serotonin"%string) + -0.08 * tox_score tox) /\
     deltas !! "dopamine"%string = emotion_only !! "dopamine"%string /\
     deltas !! "oxytocin"%string = emotion_only !! "oxytocin"%string) /\
  (is_toxic tox = false \/ tox_score tox <= 0.5 -> deltas = emotion_only).
Proof.
  intros tox deltas emotion_only. subst deltas emotion_only.
  rewrite analyze_deltas. split.
  - intros Hflag Hscore.
    pose proof (detect_toxicity_flagged _ _ _ _ Hflag) as Hlabel.
    fold tox in Hlabel. rewrite Hflag, Hlabel.
    change 0.5 with _TOXICITY_THRESHOLD in Hscore.
    apply Qgtb_true in Hscore. rewrite Hscore. cbn [andb].
    change (table_get (lower "TOXIC") _TOXICITY_HORMONE_MAP)
      with (Some [("cortisol"%string, 0.15); ("serotonin"%string, -0.08)]).
    cbv iota.
    assert (Hnd : NoDup [("cortisol"%string, 0.15); ("serotonin"%string, -0.08)].*1)
      by (apply (bool_decide_unpack _); vm_compute; exact I).
    rewrite !(accumulate_lookup _ _ _ _ Hnd). by repeat split.
  - intros [Hoff | Hoff].
    + by rewrite Hoff.
    + change 0.5 with _TOXICITY_THRESHOLD in Hoff.
      apply Qgtb_false in Hoff. rewrite Hoff.
      by destruct (is_toxic tox).
Qed.

(** ** The confidence gate *)

Lemma emotion_clarity_upper (emotions : list EmotionSignal) :
  emotion_clarity_of emotions <= 1.
Proof.
  unfold emotion_clarity_of, py_min. destruct emotions as [| top others]; [lra |].
  destruct (Qlt_le_dec _ 1.0); lra.
Qed.

Lemma emotion_clarity_lower (emotions : list EmotionSignal) :
  StronglySorted (fun a b => em_score b <= em_score a) emotions ->
  (forall e, e ∈ emotions -> 0 <= em_score e) ->
  (emotions = [] /\ emotion_clarity_of emotions == 0.1) \/
  (emotions <> [] /\ 0.2 <= emotion_clarity_of emotions).
Proof.
  intros Hsorted Hpos. destruct emotions as [| top others].
  - left. split; [done | reflexivity].
  - right. split; [done |]. unfold emotion_clarity_of, py_min.
    assert (Htop : 0 <= em_score top) by (apply Hpos, elem_of_cons; by left).
    apply StronglySorted_inv in Hsorted as [_ Hall].
    destruct others as [| second rest].
    + destruct (Qlt_le_dec _ 1.0); lra.
    + apply Forall_cons in Hall as [Hsecond _].
      destruct (Qlt_le_dec _ 1.0); lra.
Qed.

Lemma text_quality_range (text : string) :
  0 <= text_quality_of text <= 1 /\
  (is_blank text = false -> 0.3 <= text_quality_of text).
Proof.
  unfold text_quality_of. destruct (is_blank text).
  - split; [lra | discriminate].
  - destruct (Nat.leb 5 (word_count text)) eqn:Hfive.
    + apply Nat.leb_le in Hfive.
      assert (Hq : 0.5 <= inject_Z (Z.of_nat (word_count text)) / 10).
      { unfold Qdiv. assert (E : / 10 == 0.1) by reflexivity. rewrite E.
        assert (Hz : inject_Z 5 <= inject_Z (Z.of_nat (word_count text)))
          by (rewrite <- Zle_Qle; lia).
        change (inject_Z 5) with 5 in Hz. lra. }
      unfold py_min. destruct (Qlt_le_dec _ 1.0); split; intros; lra.
    + destruct (Nat.leb 2 (word_count text)); split; intros; lra.
Qed.

Lemma context_ambiguity_values (text : string) :
  context_ambiguity_of text = 0.4 \/ context_ambiguity_of text = 0.8.
Proof. unfold context_ambiguity_of. destruct (existsb _ _); auto. Qed.

Lemma confidence_upper text emotions toxicity :
  overall_confidence (analyze_sentiment_confidence text emotions toxicity) <= 1.
Proof.
  unfold analyze_sentiment_confidence. cbn [overall_confidence].
  unfold py_min. destruct (Qlt_le_dec _ 1.0); lra.
Qed.

Lemma confidence_toxic_boost text emotions toxicity :
  is_toxic toxicity = true -> 0.7 < tox_score toxicity ->
  0.8 <= overall_confidence (analyze_sentiment_confidence text emotions toxicity).
Proof.
  intros Hflag Hscore.
  unfold analyze_sentiment_confidence. cbn [overall_confidence].
  unfold toxicity_confidence_of. rewrite Hflag.
  assert (Hgate : Qgtb (py_min 1.0 (tox_score toxicity)) 0.7 = true).
  { apply Qgtb_true. unfold py_min. destruct (Qlt_le_dec _ 1.0); lra. }
  rewrite Hgate. unfold py_min, py_max.
  destruct (Qlt_le_dec _ 0.8); destruct (Qlt_le_dec _ 1.0); lra.
Qed.

Lemma confidence_lower text emotions toxicity :
  StronglySorted (fun a b => em_score b <= em_score a) emotions ->
  (forall e, e ∈ emotions -> 0 <= em_score e) ->
  0.16 <= overall_confidence (analyze_sentiment_confidence text emotions toxicity) /\
  (emotions <> [] -> is_blank text = false ->
   existsb (fun phrase => str_contains phrase (lower text)) ambiguous_phrases = false ->
   0.41 <= overall_confidence (analyze_sentiment_confidence text emotions toxicity)).
Proof.
  intros Hsorted Hpos.
  unfold analyze_sentiment_confidence. cbn [overall_confidence].
  pose proof (emotion_clarity_upper emotions) as Hcu.
  pose proof (text_quality_range text) as [[Hq0 Hq1] Hq].
  set (clarity := emotion_clarity_of emotions) in *.
  set (quality := text_quality_of text) in *.
  assert (Hbase : forall b, py_min 1.0 b <= py_min 1.0
     (if Qgtb (toxicity_confidence_of toxicity) 0.7 then py_max b 0.8 else b)).
  { intros b. destruct (Qgtb _ 0.7); [| lra].
    unfold py_min, py_max.
    destruct (Qlt_le_dec b 0.8); repeat destruct (Qlt_le_dec _ 1.0); lra. }
  assert (Hmin : forall lo b, lo <= 1 -> lo <= b -> lo <= py_min 1.0 b).
  { intros lo b Hlo Hb. unfold py_min. destruct (Qlt_le_dec b 1.0); lra. }
  assert (Hc : 0.1 <= clarity /\ (emotions <> [] -> 0.2 <= clarity)).
  { destruct (emotion_clarity_lower emotions Hsorted Hpos) as [[Hnil Hc] | [Hne Hc]];
      fold clarity in Hc; split; intros; try contradiction; lra. }
  destruct Hc as [Hc1 Hc2].
  split.
  - eapply Qle_trans; [| apply Hbase]. apply Hmin; [lra |].
    unfold context_ambiguity_of. destruct (existsb _ _); lra.
  - intros Hne Hblank Hplain. specialize (Hq Hblank). specialize (Hc2 Hne).
    eapply Qle_trans; [| apply Hbase]. apply Hmin; [lra |].
    unfold context_ambiguity_of. rewrite Hplain. lra.
Qed.

(** X4.  The overall confidence never exceeds 1; it is at least 0.8 when
    the toxicity result is flagged with a score above 0.7; for emotions
    ordered by descending non-negative score it is at least 0.16, and more
    than the gate of 0.3 (at least 0.41) when there is an emotion, the text
    is not blank and it contains none of the hedging phrases. *)
Theorem X4_confidence_bounds (text : string) (emotions : list EmotionSignal)
    (toxicity : ToxicitySignal) :
  let confidence := analyze_sentiment_confidence text emotions toxicity in
  overall_confidence confidence <= 1 /\
  (is_toxic toxicity = true -> 0.7 < tox_score toxicity ->
     0.8 <= overall_confidence confidence) /\
  (StronglySorted (fun a b => em_score b <= em_score a) emotions ->
   (forall e, e ∈ emotions -> 0 <= em_score e) ->
     0.16 <= overall_confidence confidence /\
     (emotions <> [] -> is_blank text = false ->
      existsb (fun phrase => str_contains phrase (lower text)) ambiguous_phrases = false ->
        0.41 <= overall_confidence confidence /\
        _CONFIDENCE_THRESHOLD < overall_confidence confidence)).
Proof.
  intros confidence. subst confidence.
  split; [apply confidence_upper |].
  split; [apply confidence_toxic_boost |].
  intros Hsorted Hpos.
  destruct (confidence_lower text emotions toxicity Hsorted Hpos) as [Hlow Hplain].
  split; [exact Hlow |].
  intros Hne Hblank Hphrase. specialize (Hplain Hne Hblank Hphrase).
  unfold _CONFIDENCE_THRESHOLD. split; lra.
Qed.

Lemma detect_emotion_facts text processed_text pipeline min_confidence :
  StronglySorted (fun a b => em_score b <= em_score a)
    (detect_emotion text processed_text pipeline min_confidence) /\
  (forall e, e ∈ detect_emotion text processed_text pipeline min_confidence ->
     min_confidence < em_score e) /\
  (detect_emotion text processed_text pipeline min_confidence <> [] ->
     is_blank text = false).
Proof.
  unfold detect_emotion.
  destruct (is_blank text);
    [repeat split; [constructor | intros e He; by apply elem_of_nil in He | done] |].
  destruct (String.eqb processed_text "");
    [repeat split; [constructor | intros e He; by apply elem_of_nil in He] |].
  destruct pipeline as [results |];
    [| repeat split; [constructor | intros e He; by apply elem_of_nil in He]].
  split; [apply sort_by_score_sorted |]. split; [| done].
  intros e He. rewrite sort_by_score_perm in He.
  apply list_elem_of_filter in He as [He _]. by apply Qgtb_true in He.
Qed.

(** X5.  When the emotion model gives at least one result above 0.1 for a
    message whose text contains none of the hedging phrases, or whose
    toxicity result is flagged with a score above 0.7, the confidence gate
    is open: the primary emotion of the analysis is the lower-cased label of
    the best-scoring result and the intensity is its score. *)
Theorem X5_top_emotion_drives_message (m : Message) (top : EmotionSignal)
    (rest : list EmotionSignal)
    (Hemotions : detect_emotion (msg_text m) (msg_processed m) (emotion_output m) 0.1
                 = top :: rest)
    (Hclear :
       existsb (fun phrase => str_contains phrase (lower (msg_text m)))
         ambiguous_phrases = false \/
       (is_toxic (detect_toxicity (msg_text m) (msg_processed m)
                    (toxicity_output m) 0.3) = true /\
        0.7 < tox_score (detect_toxicity (msg_text m) (msg_processed m)
                           (toxicity_output m) 0.3))) :
  primary_emotion (analyze_message m) = lower (em_label top) /\
  emotion_intensity (analyze_message m) = em_score top /\
  (forall e, e ∈ top :: rest -> 0.1 < em_score e <= em_score top).
Proof.
  destruct (detect_emotion_facts (msg_text m) (msg_processed m) (emotion_output m) 0.1)
    as (Hsorted & Hmin & Hblank).
  rewrite Hemotions in Hsorted, Hmin, Hblank.
  assert (Hpos : forall e, e ∈ top :: rest -> 0 <= em_score e).
  { intros e He. specialize (Hmin e He). lra. }
  assert (Hgate : Qgtb (overall_confidence
      (analyze_sentiment_confidence (msg_text m) (top :: rest)
         (detect_toxicity (msg_text m) (msg_processed m) (toxicity_output m) 0.3)))
      _CONFIDENCE_THRESHOLD = true).
  { apply Qgtb_true. unfold _CONFIDENCE_THRESHOLD.
    destruct Hclear as [Hplain | [Hflag Hscore]].
    - destruct (confidence_lower (msg_text m) (top :: rest)
                  (detect_toxicity (msg_text m) (msg_processed m) (toxicity_output m) 0.3)
                  Hsorted Hpos) as [_ Hopen].
      specialize (Hopen ltac:(done) (Hblank ltac:(done)) Hplain). lra.
    - pose proof (confidence_toxic_boost (msg_text m) (top :: rest) _ Hflag Hscore). lra. }
  unfold analyze_message. rewrite Hemotions.
  unfold analyze_contextual_sentiment. cbn [primary_emotion emotion_intensity].
  unfold primary_of. rewrite Hgate. cbn [fst snd].
  split; [reflexivity |]. split; [reflexivity |].
  intros e He. split; [by apply Hmin |].
  apply StronglySorted_inv in Hsorted as [_ Hall].
  apply elem_of_cons in He as [-> | He]; [lra |].
  rewrite Forall_forall in Hall. exact (Hall e He).
Qed.

(** ** Messages without a signal *)

Lemma emotion_deltas_neutral emotions conf :
  emotions = [] \/ conf <= _CONFIDENCE_THRESHOLD ->
  primary_of emotions conf = ("neutral"%string, 0) /\
  emotion_deltas_of emotions conf = ∅.
Proof.
  intros Hquiet.
  assert (Hprimary : primary_of emotions conf = ("neutral"%string, 0)).
  { unfold primary_of. destruct emotions as [| e rest]; [done |].
    destruct Hquiet as [Hnil | Hlow]; [done |].
    apply Qgtb_false in Hlow. by rewrite Hlow. }
  split; [exact Hprimary |].
  unfold emotion_deltas_of. rewrite Hprimary. reflexivity.
Qed.

(** X6.  A message without any emotion result, or whose confidence is at
    most 0.3, and whose toxicity result is not flagged or scores at most
    0.5, has the primary emotion "neutral", the single reason
    "emotion_neutral" and an empty delta map, so the update is the decay of
    every hormone and it cannot raise; a blank message is such a message. *)
Theorem X6_quiet_message_decays (emotions : list EmotionSignal)
    (tox : ToxicitySignal) (conf : Q) (doc : HormoneDoc)
    (Hquiet : emotions = [] \/ conf <= 0.3)
    (Hclean : is_toxic tox = false \/ tox_score tox <= 0.5) :
  let analysis := analyze_contextual_sentiment emotions tox conf in
  primary_emotion analysis = "neutral"%string /\
  adjustment_reasons analysis = ["emotion_neutral"%string] /\
  hormone_deltas analysis = ∅ /\
  apply_contextual_hormone_adjustments emotions tox conf doc =
    Some (decay_step <$> load_hormone_levels doc,
          save_hormone_levels (decay_step <$> load_hormone_levels doc)) /\
  (forall m : Message, is_blank (msg_text m) = true ->
     apply_message m doc =
       Some (decay_step <$> load_hormone_levels doc,
             save_hormone_levels (decay_step <$> load_hormone_levels doc))).
Proof.
  intros analysis. subst analysis.
  change 0.3 with _CONFIDENCE_THRESHOLD in Hquiet.
  destruct (emotion_deltas_neutral emotions conf Hquiet) as [Hprimary Hempty].
  assert (Htox : toxicity_of tox = ([], 0)).
  { unfold toxicity_of. destruct (is_toxic tox); [| done].
    destruct Hclean as [Hoff | Hlow]; [done |].
    change 0.5 with _TOXICITY_THRESHOLD in Hlow.
    apply Qgtb_false in Hlow. by rewrite Hlow. }
  assert (Hdeltas : hormone_deltas (analyze_contextual_sentiment emotions tox conf) = ∅).
  { rewrite analyze_deltas, Hempty.
    destruct (is_toxic tox); [| done].
    destruct Hclean as [Hoff | Hlow]; [done |].
    change 0.5 with _TOXICITY_THRESHOLD in Hlow.
    apply Qgtb_false in Hlow. by rewrite Hlow. }
  assert (Hdecay : forall analysis, hormone_deltas analysis = ∅ ->
     apply_analysis analysis doc =
       Some (decay_step <$> load_hormone_levels doc,
             save_hormone_levels (decay_step <$> load_hormone_levels doc))).
  { intros analysis Hnone. unfold apply_analysis.
    by rewrite Hnone, map_to_list_empty. }
  split.
  { unfold analyze_contextual_sentiment. cbn [primary_emotion]. by rewrite Hprimary. }
  split.
  { unfold analyze_contextual_sentiment. cbn [adjustment_reasons].
    rewrite Hprimary, Htox. reflexivity. }
  split; [exact Hdeltas |].
  split; [by apply Hdecay |].
  intros m Hblank. apply Hdecay. unfold analyze_message.
  assert (He : detect_emotion (msg_text m) (msg_processed m) (emotion_output m) 0.1 = [])
    by (unfold detect_emotion; by rewrite Hblank).
  assert (Ht : detect_toxicity (msg_text m) (msg_processed m) (toxicity_output m) 0.3
               = not_toxic_result)
    by (unfold detect_toxicity; by rewrite Hblank).
  rewrite He, Ht, analyze_deltas.
  destruct (emotion_deltas_neutral [] (overall_confidence
    (analyze_sentiment_confidence (msg_text m) [] not_toxic_result))) as [_ ->];
    [by left | reflexivity].
Qed.

(** ** More on the rate-limit and resistance filter *)

Lemma new_level_direction (c d : Q) :
  0 <= c <= 1 ->
  (0 <= d -> c <= new_level c d) /\
  (d <= 0 -> new_level c d <= c).
Proof.
  intros Hc. pose proof (resistance_factor_range c Hc) as Hf.
  unfold new_level, _apply_resistance. fold (resistance_factor c).
  set (f := resistance_factor c) in *.
  set (r := py_max (- _RATE_LIMIT) (py_min _RATE_LIMIT d)).
  assert (Hr : (0 <= d -> 0 <= r) /\ (d <= 0 -> r <= 0)).
  { subst r. unfold _RATE_LIMIT, py_max, py_min.
    destruct (Qlt_le_dec d 0.08); destruct (Qlt_le_dec _ _);
      split; intros; lra. }
  destruct Hr as (Hr1 & Hr2).
  assert (He : (0 <= d -> 0 <= r * f) /\ (d <= 0 -> r * f <= 0)).
  { split; intros Hd; [specialize (Hr1 Hd) | specialize (Hr2 Hd)]; nra. }
  destruct He as (He1 & He2).
  set (e := r * f) in *.
  unfold py_max, py_min.
  destruct (Qlt_le_dec (c + e) 1); destruct (Qlt_le_dec 0 _);
    split; intros Hd;
    try specialize (He1 Hd); try specialize (He2 Hd); lra.
Qed.

(** X7.  An update never moves a hormone against the sign of its delta: for
    a level in [0,1], a non-negative delta does not lower it and a
    non-positive delta does not raise it. *)
Theorem X7_update_follows_delta_sign (analysis : Analysis) (doc : HormoneDoc)
    (updated : gmap string Q) (doc' : HormoneDoc) (h : string) (c d : Q)
    (Hcur : load_hormone_levels doc !! h = Some c)
    (Hc : 0 <= c <= 1)
    (Hdelta : hormone_deltas analysis !! h = Some d)
    (Happly : apply_analysis analysis doc = Some (updated, doc')) :
  exists c' : Q,
    updated !! h = Some c' /\
    (0 <= d -> c <= c') /\
    (d <= 0 -> c' <= c).
Proof.
  unfold apply_analysis in Happly.
  destruct (map_to_list (hormone_deltas analysis)) as [| item items] eqn:Hitems.
  { apply map_to_list_empty_iff in Hitems. rewrite Hitems in Hdelta.
    by rewrite lookup_empty in Hdelta. }
  rewrite <- Hitems in Happly.
  destruct (adjust_loop _ _ _) as [res |] eqn:Hrun; [| discriminate].
  injection Happly as <- <-.
  destruct (adjust_loop_hit _ _ _ _ h d Hrun) as (c0 & Hc0 & Hres).
  { apply NoDup_fst_map_to_list. }
  { by apply elem_of_map_to_list. }
  assert (c0 = c) as -> by congruence.
  exists (new_level c d). split; [exact Hres |].
  by apply new_level_direction.
Qed.

Lemma adjust_loop_dom hormones items : forall updated res,
  adjust_loop hormones items updated = Some res ->
  dom hormones ⊆ dom updated ->
  dom res = dom updated.
Proof.
  induction items as [| [k d] rest IH]; intros updated res Hrun Hsub; simpl in Hrun.
  - congruence.
  - destruct (hormones !! k) as [c |] eqn:Hk; [| discriminate].
    assert (Hin : k ∈ dom updated) by (apply Hsub, elem_of_dom; by eexists).
    assert (Hsame : dom (<[k:=py_max 0 (py_min 1
              (c + _apply_resistance c
                     (py_max (- _RATE_LIMIT) (py_min _RATE_LIMIT d))))]> updated)
            = dom updated).
    { rewrite dom_insert_L. apply subseteq_union_1_L. by apply singleton_subseteq_l. }
    rewrite (IH _ _ Hrun); [exact Hsame | by rewrite Hsame].
Qed.

Lemma adjust_loop_needs_keys hormones items : forall updated res,
  adjust_loop hormones items updated = Some res ->
  forall h, h ∈ items.*1 -> is_Some (hormones !! h).
Proof.
  induction items as [| [k d] rest IH]; intros updated res Hrun h Hh; simpl in Hrun.
  - by apply elem_of_nil in Hh.
  - destruct (hormones !! k) as [c |] eqn:Hk; [| discriminate].
    rewrite fmap_cons in Hh. apply elem_of_cons in Hh as [-> | Hh].
    + by eexists.
    + by eapply IH.
Qed.

(** X8.  An update that returns neither adds nor removes a hormone: the
    returned levels and the saved document have exactly the keys of the
    loaded store. *)
Theorem X8_update_keeps_key_set (analysis : Analysis) (doc : HormoneDoc)
    (updated : gmap string Q) (doc' : HormoneDoc)
    (Happly : apply_analysis analysis doc = Some (updated, doc')) :
  dom updated = dom (load_hormone_levels doc) /\
  dom (load_hormone_levels doc') = dom (load_hormone_levels doc).
Proof.
  assert (Hdom : dom updated = dom (load_hormone_levels doc) /\
                 doc' = save_hormone_levels updated).
  { unfold apply_analysis in Happly.
    destruct (map_to_list (hormone_deltas analysis)) as [| item items] eqn:Hitems.
    - injection Happly as <- <-. split; [apply dom_fmap_L | done].
    - destruct (adjust_loop _ _ _) as [res |] eqn:Hrun; [| discriminate].
      injection Happly as <- <-. split; [| done].
      by apply (adjust_loop_dom _ _ _ _ Hrun). }
  destruct Hdom as [Hdom ->]. split; [exact Hdom |].
  unfold save_hormone_levels, load_hormone_levels at 1. simpl.
  by rewrite dom_fmap_L.
Qed.

(** X9.  The update raises (and then saves nothing) exactly when the delta
    map names a hormone that the loaded store does not have. *)
Theorem X9_update_fails_on_missing_key (analysis : Analysis) (doc : HormoneDoc) :
  apply_analysis analysis doc = None <->
  exists h, is_Some (hormone_deltas analysis !! h) /\
            load_hormone_levels doc !! h = None.
Proof.
  unfold apply_analysis.
  destruct (map_to_list (hormone_deltas analysis)) as [| item items] eqn:Hitems.
  - split; [discriminate |]. intros (h & [d Hd] & _).
    apply map_to_list_empty_iff in Hitems. rewrite Hitems in Hd.
    by rewrite lookup_empty in Hd.
  - rewrite <- Hitems.
    destruct (adjust_loop _ _ _) as [res |] eqn:Hrun.
    + split; [discriminate |]. intros (h & [d Hd] & Hmiss).
      destruct (adjust_loop_needs_keys _ _ _ _ Hrun h) as [c Hc]; [| congruence].
      apply list_elem_of_fmap. exists (h, d). split; [done |].
      by apply elem_of_map_to_list.
    + split; [| done]. intros _.
      destruct (decide (Forall (fun k => is_Some (load_hormone_levels doc !! k))
                          (map_to_list (hormone_deltas analysis)).*1)) as [Hall | Hnot].
      * rewrite Forall_forall in Hall.
        destruct (adjust_loop_total (load_hormone_levels doc)
                    (map_to_list (hormone_deltas analysis))
                    (load_hormone_levels doc) Hall) as [res Hres].
        congruence.
      * apply not_Forall_Exists in Hnot; [| apply _].
        apply Exists_exists in Hnot as (h & Hin & Hmiss).
        exists h. split.
        -- apply list_elem_of_fmap in Hin as ([k d] & -> & Hin).
           apply elem_of_map_to_list in Hin. by eexists.
        -- destruct (load_hormone_levels doc !! h) eqn:E; [| done].
           exfalso. apply Hmiss. by eexists.
Qed.

(** ** Natural fluctuation *)

Lemma fluctuate_level_range (drift level : Q) : 0 <= fluctuate_level drift level <= 1.
Proof.
  unfold fluctuate_level.
  pose proof (clamp_bounds 0.0 1.0 (level + (drift + (0.5 - level) * 0.01))). lra.
Qed.







Lemma hormone_step_range (step : HormoneStep) (doc : HormoneDoc) :
  in_unit_range (load_hormone_levels doc) ->
  in_unit_range (load_hormone_levels (hormone_step step doc)).
Proof.
  intros Hr. destruct step as [analysis | drift]; simpl.
  - destruct (apply_analysis analysis doc) as [[updated doc'] |] eqn:Hstep; [| done].
    destruct (apply_analysis_range _ _ _ _ Hr Hstep) as [_ ->].
    apply save_in_unit_range.
  - apply save_in_unit_range.
Qed.

(** X11.  Contextual updates and natural fluctuations are the two writers
    of the hormone store in these modules; any interleaving of them, with
    any analyses and any drifts, leaves a store whose values were in [0,1]
    with all its values in [0,1], and the values that a fluctuation hands to
    the store are already clamped by the loop itself. *)
Theorem X11_all_writers_keep_unit_range (steps : list HormoneStep) (doc : HormoneDoc)
    (Hrange : in_unit_range (load_hormone_levels doc)) :
  in_unit_range (load_hormone_levels (run_steps steps doc)) /\
  (forall drift levels,
     in_unit_range
       (map_imap (fun h level => Some (fluctuate_level (drift h) level)) levels)).
Proof.
  split.
  - revert doc Hrange. induction steps as [| step rest IH]; intros doc Hrange; simpl.
    + exact Hrange.
    + by apply IH, hormone_step_range.
  - intros drift levels h v Hv. rewrite map_lookup_imap in Hv.
    destruct (levels !! h) as [level |]; simpl in Hv; [| discriminate].
    injection Hv as <-. apply fluctuate_level_range.
Qed.

(** ** Neutral messages bring the mood back to neutral *)

Lemma settle_step (v : Q) :
  0 <= v <= 1 ->
  0 <= py_max 0 (py_min 1 (decay_step v)) <= 1 /\
  ((Qabs (v - 0.5) < 0.01 /\ py_max 0 (py_min 1 (decay_step v)) == 0.5) \/
   (0.01 <= Qabs (v - 0.5) /\
    Qabs (py_max 0 (py_min 1 (decay_step v)) - 0.5) == Qabs (v - 0.5) - 0.01)).
Proof.
  intros Hv. pose proof (decay_step_range v Hv) as Hd.
  pose proof (clamp_id 0 1 _ Hd) as Hid.
  split; [lra |].
  destruct (decay_step_distance v) as [[Hnear Heq] | [Hfar Hdist]].
  - left. split; [exact Hnear |]. rewrite Hid, Heq. reflexivity.
  - right. split; [exact Hfar |]. rewrite Hid. exact Hdist.
Qed.

Lemma quiet_analysis_step (analysis : Analysis) (doc : HormoneDoc) :
  hormone_deltas analysis = ∅ ->
  apply_analysis analysis doc =
    Some (decay_step <$> load_hormone_levels doc,
          save_hormone_levels (decay_step <$> load_hormone_levels doc)).
Proof. intros Hquiet. unfold apply_analysis. by rewrite Hquiet, map_to_list_empty. Qed.

Lemma quiet_updates_settle (analyses : list Analysis) : forall doc,
  Forall (fun analysis => hormone_deltas analysis = ∅) analyses ->
  (forall h v, load_hormone_levels doc !! h = Some v ->
     0 <= v <= 1 /\ Qabs (v - 0.5) <= inject_Z (Z.of_nat (length analyses)) * 0.01) ->
  forall h v, load_hormone_levels (run_updates analyses doc) !! h = Some v ->
    v == 0.5.
Proof.
  induction analyses as [| analysis rest IH]; intros doc Hquiet Hclose h v Hv.
  - simpl in Hv. destruct (Hclose h v Hv) as [_ Hdist].
    change (inject_Z (Z.of_nat (length []))) with 0 in Hdist. qabs (v - 0.5); lra.
  - apply Forall_cons in Hquiet as [Hfirst Hquiet].
    cbn [run_updates] in Hv. rewrite (quiet_analysis_step _ _ Hfirst) in Hv.
    eapply IH; [exact Hquiet | | exact Hv].
    intros k u Hu.
    change (load_hormone_levels (save_hormone_levels ?m))
      with ((fun v => py_max 0 (py_min 1 v)) <$> m) in Hu.
    rewrite !lookup_fmap in Hu.
    destruct (load_hormone_levels doc !! k) as [u0 |] eqn:Hk;
      cbn [fmap option_fmap option_map] in Hu; [| discriminate].
    injection Hu as <-.
    destruct (Hclose k u0 Hk) as [Hrange Hdist].
    cbn [length] in Hdist. rewrite inject_nat_succ in Hdist.
    pose proof (inject_nat_nonneg (length rest)) as Hn.
    destruct (settle_step u0 Hrange) as [Hr [[_ Heq] | [_ Heq]]].
    + split; [exact Hr |]. rewrite Heq.
      assert (E : Qabs (0.5 - 0.5) == 0) by reflexivity. rewrite E. lra.
    + split; [exact Hr |]. rewrite Heq. lra.
Qed.

(** X12.  From any store with values in [0,1], fifty or more consecutive
    updates without a signal (empty delta maps) leave every hormone equal to
    0.5, and the mood calculated from the store is then ("neutral", 0.5). *)
Theorem X12_quiet_messages_reset_mood (doc : HormoneDoc) (analyses : list Analysis)
    (Hrange : in_unit_range (load_hormone_levels doc))
    (Hquiet : Forall (fun analysis => hormone_deltas analysis = ∅) analyses)
    (Hn : (50 <= length analyses)%nat) :
  let settled := load_hormone_levels (run_updates analyses doc) in
  (forall h v, settled !! h = Some v -> v == 0.5) /\
  calculate_mood_from_hormones settled = ("neutral"%string, 0.5).
Proof.
  intros settled.
  assert (Hsettled : forall h v, settled !! h = Some v -> v == 0.5).
  { apply quiet_updates_settle; [exact Hquiet |]. intros h v Hv.
    pose proof (Hrange h v Hv) as Hr. simpl in Hr. split; [exact Hr |].
    assert (Hz : inject_Z 50 <= inject_Z (Z.of_nat (length analyses)))
      by (rewrite <- Zle_Qle; lia).
    change (inject_Z 50) with 50 in Hz.
    qabs (v - 0.5); lra. }
  split; [exact Hsettled |].
  unfold calculate_mood_from_hormones.
  by rewrite (mood_scores_baseline settled Hsettled).
Qed.

(** ** More on the mood classifier *)

Lemma mood_scores_blocks (levels : gmap string Q) :
  mood_scores levels =
    cortisol_moods (deviation levels "dopamine") (deviation levels "serotonin")
                   (deviation levels "cortisol") ++
    serotonin_moods (deviation levels "dopamine") (deviation levels "serotonin")
                    (deviation levels "cortisol") ++
    dopamine_moods (deviation levels "dopamine") (deviation levels "serotonin")
                   (deviation levels "oxytocin") ++
    oxytocin_moods (deviation levels "dopamine") (deviation levels "serotonin")
                   (deviation levels "oxytocin") ++
    content_mood (deviation levels "dopamine") (deviation levels "serotonin")
                 (deviation levels "cortisol") ++
    conflicted_mood (deviation levels "dopamine") (deviation levels "serotonin")
                    (deviation levels "cortisol").
Proof. reflexivity. Qed.

Lemma Qltb_true (a b : Q) : Qltb a b = true <-> a < b.
Proof.
  unfold Qltb. destruct (Qlt_le_dec a b) as [H | H]; split; intros; try done; lra.
Qed.

Lemma Qltb_false (a b : Q) : Qltb a b = false <-> b <= a.
Proof.
  unfold Qltb. destruct (Qlt_le_dec a b) as [H | H]; split; intros; try done; lra.
Qed.

(** The result is neutral, or it is a gated candidate of maximal score. *)
Lemma calculate_mood_cases (levels : gmap string Q) :
  (mood_scores levels = [] /\
   calculate_mood_from_hormones levels = ("neutral"%string, 0.5)) \/
  (exists name score,
     (name, score) ∈ mood_scores levels /\
     (forall x, x ∈ mood_scores levels -> x.2 <= score) /\
     calculate_mood_from_hormones levels = (name, py_min 1.0 (py_max 0.1 score))).
Proof.
  unfold calculate_mood_from_hormones.
  destruct (mood_scores levels) as [| first rest]; [by left |].
  right.
  destruct (max_by_score_first_max rest first) as (pre & post & Heq & Hpre & Hpost).
  destruct (max_by_score first rest) as [name score]. simpl in *.
  exists name, score. rewrite Heq. split.
  { apply elem_of_app. right. apply elem_of_cons. by left. }
  split; [| reflexivity].
  intros x Hx. apply elem_of_app in Hx as [Hx | Hx].
  - apply Qlt_le_weak. by apply Hpre.
  - apply elem_of_cons in Hx as [-> | Hx]; [simpl; lra | by apply Hpost].
Qed.

Lemma intensity_clamp (score : Q) :
  0.1 <= py_min 1.0 (py_max 0.1 score) <= 1 /\
  (forall lo, lo <= score -> lo <= 1 -> lo <= py_min 1.0 (py_max 0.1 score)).
Proof.
  unfold py_min, py_max.
  destruct (Qlt_le_dec 0.1 score); destruct (Qlt_le_dec _ 1.0);
    repeat split; intros; lra.
Qed.

Lemma catalogue_not_neutral (name : string) :
  name ∈ mood_catalogue -> name <> "neutral"%string.
Proof.
  intros Hin ->. revert Hin. apply (bool_decide_unpack _). vm_compute. exact I.
Qed.

Lemma mood_scores_names (levels : gmap string Q) (name : string) (score : Q) :
  (name, score) ∈ mood_scores levels -> name ∈ mood_catalogue.
Proof.
  intros Hin.
  eapply elem_of_sublist; [| apply mood_scores_in_catalogue].
  apply list_elem_of_fmap. by exists (name, score).
Qed.

(** X13.  [calculate_mood_from_hormones] always returns one of the fourteen
    names of the catalogue or "neutral", with an intensity in [0.1, 1]; it
    returns "neutral" exactly when no candidate is gated on, and then with
    intensity 0.5. *)
Theorem X13_mood_result_range (levels : gmap string Q) :
  let result := calculate_mood_from_hormones levels in
  result.1 ∈ ("neutral"%string :: mood_catalogue) /\
  0.1 <= result.2 <= 1 /\
  (result.1 = "neutral"%string <-> mood_scores levels = []) /\
  (result.1 = "neutral"%string -> result.2 = 0.5).
Proof.
  intros result. subst result.
  destruct (calculate_mood_cases levels)
    as [[Hnone ->] | (name & score & Hin & _ & ->)]; simpl.
  - split; [apply elem_of_cons; by left |].
    split; [lra |]. split; [done | done].
  - pose proof (mood_scores_names _ _ _ Hin) as Hname.
    pose proof (catalogue_not_neutral _ Hname) as Hne.
    split; [apply elem_of_cons; by right |].
    split; [apply intensity_clamp |].
    split; [| done].
    split; [done |]. intros Hnil. rewrite Hnil in Hin. by apply elem_of_nil in Hin.
Qed.

Lemma gated_candidate_wins (levels : gmap string Q) (name : string) (score : Q) :
  (name, score) ∈ mood_scores levels ->
  (calculate_mood_from_hormones levels).1 <> "neutral"%string /\
  (forall lo, lo <= score -> lo <= 1 ->
     lo <= (calculate_mood_from_hormones levels).2).
Proof.
  intros Hin.
  destruct (calculate_mood_cases levels)
    as [[Hnone _] | (winner & best & Hwin & Hmax & ->)].
  - rewrite Hnone in Hin. by apply elem_of_nil in Hin.
  - simpl. split.
    + apply catalogue_not_neutral. by eapply mood_scores_names.
    + intros lo Hlo Hone. apply intensity_clamp; [| exact Hone].
      specialize (Hmax _ Hin). simpl in Hmax. lra.
Qed.

Lemma cortisol_trigger (d s c : Q) :
  0.15 < c -> ("stressed"%string, Qabs c * 1.2) ∈ cortisol_moods d s c.
Proof.
  intros Hc. unfold cortisol_moods.
  assert (H1 : Qgtb c 0.1 = true) by (apply Qgtb_true; lra).
  assert (H2 : Qgtb c 0.15 = true) by (apply Qgtb_true; lra).
  rewrite H1, H2. rewrite !elem_of_app. right. right. apply elem_of_cons. by left.
Qed.

Lemma serotonin_trigger (d s c : Q) :
  s < -0.08 -> exists name x, (name, x) ∈ serotonin_moods d s c /\ - s <= x.
Proof.
  intros Hs. unfold serotonin_moods.
  assert (H1 : Qltb s (-0.08) = true) by (by apply Qltb_true).
  rewrite H1.
  destruct (Qltb d (-0.05)); [| destruct (Qgtb c 0.05)];
    eexists _, _; (split; [apply elem_of_cons; by left |]);
    qabs s; try qabs d; try qabs c; lra.
Qed.

Lemma dopamine_trigger (d s o : Q) :
  0.08 < d -> exists name x, (name, x) ∈ dopamine_moods d s o /\ d <= x.
Proof.
  intros Hd. unfold dopamine_moods.
  assert (H1 : Qgtb d 0.08 = true) by (by apply Qgtb_true).
  rewrite H1.
  destruct (Qgtb o 0.05) eqn:Ho; [| destruct (Qgtb s 0.05) eqn:Hs];
    eexists _, _; (split; [apply elem_of_cons; by left |]);
    try apply Qgtb_true in Ho; try apply Qgtb_true in Hs; lra.
Qed.

Lemma oxytocin_trigger (d s o : Q) :
  0.1 < o -> exists name x, (name, x) ∈ oxytocin_moods d s o /\ o <= x.
Proof.
  intros Ho. unfold oxytocin_moods.
  assert (H1 : Qgtb o 0.1 = true) by (by apply Qgtb_true).
  rewrite H1.
  destruct (Qgtb d 0.05) eqn:Hd; [| destruct (Qgtb s 0.03) eqn:Hs];
    eexists _, _; (split; [apply elem_of_cons; by left |]);
    try apply Qgtb_true in Hd; try apply Qgtb_true in Hs; lra.
Qed.

(** X14.  The mood is ("neutral", 0.5) whenever dopamine is within
    [0.45, 0.53], serotonin is at least 0.42 and cortisol and oxytocin are
    at most 0.6 (deviations within [-0.05, 0.03], >= -0.08, <= 0.1, <= 0.1).
    It is never neutral when cortisol deviates by more than 0.15, serotonin
    by less than -0.08, dopamine by more than 0.08 or oxytocin by more than
    0.1, and then the intensity is at least that deviation (1.2 times it for
    cortisol), capped at 1. *)
Theorem X14_neutral_zone_and_triggers (levels : gmap string Q) :
  let result := calculate_mood_from_hormones levels in
  let dopa_dev := deviation levels "dopamine" in
  let sero_dev := deviation levels "serotonin" in
  let cort_dev := deviation levels "cortisol" in
  let oxy_dev := deviation levels "oxytocin" in
  (-0.05 <= dopa_dev <= 0.03 -> -0.08 <= sero_dev -> cort_dev <= 0.1 ->
   oxy_dev <= 0.1 -> result = ("neutral"%string, 0.5)) /\
  (0.15 < cort_dev ->
     result.1 <> "neutral"%string /\ py_min 1 (cort_dev * 1.2) <= result.2) /\
  (sero_dev < -0.08 ->
     result.1 <> "neutral"%string /\ py_min 1 (- sero_dev) <= result.2) /\
  (0.08 < dopa_dev ->
     result.1 <> "neutral"%string /\ py_min 1 dopa_dev <= result.2) /\
  (0.1 < oxy_dev ->
     result.1 <> "neutral"%string /\ py_min 1 oxy_dev <= result.2).
Proof.
  intros result dopa_dev sero_dev cort_dev oxy_dev.
  assert (Hcap : forall lo, py_min 1 lo <= lo /\ py_min 1 lo <= 1).
  { intros lo. unfold py_min. destruct (Qlt_le_dec lo 1); lra. }
  assert (Hlift : forall name score lo,
     (name, score) ∈ mood_scores levels -> lo <= score ->
     result.1 <> "neutral"%string /\ py_min 1 lo <= result.2).
  { intros name score lo Hin Hlo.
    destruct (gated_candidate_wins levels name score Hin) as [Hne Hlow].
    split; [exact Hne |]. destruct (Hcap lo). apply Hlow; lra. }
  split.
  { intros Hd Hs Hc Ho. subst result. unfold calculate_mood_from_hormones.
    rewrite mood_scores_blocks.
    fold dopa_dev sero_dev cort_dev oxy_dev.
    unfold cortisol_moods, serotonin_moods, dopamine_moods, oxytocin_moods,
      content_mood, conflicted_mood.
    assert (G1 : Qgtb cort_dev 0.1 = false) by (apply Qgtb_false; lra).
    assert (G2 : Qltb sero_dev (-0.08) = false) by (apply Qltb_false; lra).
    assert (G3 : Qgtb dopa_dev 0.08 = false) by (apply Qgtb_false; lra).
    assert (G4 : Qgtb oxy_dev 0.1 = false) by (apply Qgtb_false; lra).
    assert (G5 : Qgtb dopa_dev 0.03 = false) by (apply Qgtb_false; lra).
    assert (G6 : Qgtb (Qabs dopa_dev) 0.05 = false)
      by (apply Qgtb_false; qabs dopa_dev; lra).
    rewrite G1, G2, G3, G4, G5, G6. reflexivity. }
  split.
  { intros Hc.
    apply (Hlift "stressed"%string (Qabs cort_dev * 1.2)).
    - rewrite mood_scores_blocks. apply elem_of_app. left.
      by apply cortisol_trigger.
    - qabs cort_dev; lra. }
  split.
  { intros Hs.
    destruct (serotonin_trigger dopa_dev sero_dev cort_dev Hs) as (name & x & Hin & Hx).
    apply (Hlift name x); [| exact Hx].
    rewrite mood_scores_blocks, !elem_of_app. right. by left. }
  split.
  { intros Hd.
    destruct (dopamine_trigger dopa_dev sero_dev oxy_dev Hd) as (name & x & Hin & Hx).
    apply (Hlift name x); [| exact Hx].
    rewrite mood_scores_blocks, !elem_of_app. right. right. by left. }
  intros Ho.
  destruct (oxytocin_trigger dopa_dev sero_dev oxy_dev Ho) as (name & x & Hin & Hx).
  apply (Hlift name x); [| exact Hx].
  rewrite mood_scores_blocks, !elem_of_app. right. right. right. by left.
Qed.

(** A singleton-or-empty block: its only possible member. *)
Ltac one_member H :=
  first [ by apply elem_of_nil in H
        | apply elem_of_cons in H as [H | H];
          [injection H as -> -> | by apply elem_of_nil in H] ].

Lemma cortisol_moods_gate (d s c : Q) (name : string) (x : Q) :
  (name, x) ∈ cortisol_moods d s c ->
  0.1 < c /\
  ((name = "anxious"%string /\ s < -0.05) \/
   (name = "restless"%string /\ d < -0.05) \/
   (name = "stressed"%string /\ 0.15 < c)).
Proof.
  unfold cortisol_moods. destruct (Qgtb c 0.1) eqn:Hc; [| intros H; one_member H].
  apply Qgtb_true in Hc. rewrite !elem_of_app. intros [H | [H | H]]; split; try exact Hc.
  - destruct (Qltb s (-0.05)) eqn:Hs; one_member H. apply Qltb_true in Hs. auto.
  - destruct (Qltb d (-0.05)) eqn:Hd; one_member H. apply Qltb_true in Hd. auto.
  - destruct (Qgtb c 0.15) eqn:Hc2; one_member H. apply Qgtb_true in Hc2. auto.
Qed.

Lemma serotonin_moods_gate (d s c : Q) (name : string) (x : Q) :
  (name, x) ∈ serotonin_moods d s c ->
  s < -0.08 /\
  (name = "depressed"%string \/ name = "melancholic"%string \/ name = "sad"%string).
Proof.
  unfold serotonin_moods. destruct (Qltb s (-0.08)) eqn:Hs; [| intros H; one_member H].
  apply Qltb_true in Hs.
  destruct (Qltb d (-0.05)); [| destruct (Qgtb c 0.05)];
    intros H; one_member H; auto.
Qed.

Lemma dopamine_moods_gate (d s o : Q) (name : string) (x : Q) :
  (name, x) ∈ dopamine_moods d s o ->
  0.08 < d /\
  (name = "euphoric"%string \/ name = "cheerful"%string \/ name = "energetic"%string).
Proof.
  unfold dopamine_moods. destruct (Qgtb d 0.08) eqn:Hd; [| intros H; one_member H].
  apply Qgtb_true in Hd.
  destruct (Qgtb o 0.05); [| destruct (Qgtb s 0.05)];
    intros H; one_member H; auto.
Qed.

Lemma oxytocin_moods_gate (d s o : Q) (name : string) (x : Q) :
  (name, x) ∈ oxytocin_moods d s o ->
  0.1 < o /\
  (name = "loving"%string \/ name = "affectionate"%string \/ name = "caring"%string).
Proof.
  unfold oxytocin_moods. destruct (Qgtb o 0.1) eqn:Ho; [| intros H; one_member H].
  apply Qgtb_true in Ho.
  destruct (Qgtb d 0.05); [| destruct (Qgtb s 0.03)];
    intros H; one_member H; auto.
Qed.

Lemma content_mood_gate (d s c : Q) (name : string) (x : Q) :
  (name, x) ∈ content_mood d s c ->
  name = "content"%string /\ 0.03 < d /\ 0.03 < s /\ c < 0.1.
Proof.
  unfold content_mood.
  destruct (Qgtb d 0.03) eqn:Hd; destruct (Qgtb s 0.03) eqn:Hs;
    destruct (Qltb c 0.1) eqn:Hc; cbn [andb]; intros H; one_member H.
  apply Qgtb_true in Hd, Hs. apply Qltb_true in Hc. auto.
Qed.

Lemma conflicted_mood_gate (d s c : Q) (name : string) (x : Q) :
  (name, x) ∈ conflicted_mood d s c ->
  name = "conflicted"%string /\
  0.05 < Qabs d /\ 0.05 < Qabs s /\ 0.05 < Qabs c.
Proof.
  unfold conflicted_mood.
  destruct (Qgtb (Qabs d) 0.05) eqn:Hd; destruct (Qgtb (Qabs s) 0.05) eqn:Hs;
    destruct (Qgtb (Qabs c) 0.05) eqn:Hc; cbn [andb]; intros H; one_member H.
  apply Qgtb_true in Hd, Hs, Hc. auto.
Qed.

(** Each conjunct asks about one name or one family: the winner either is
    not that name, or its gate is at hand. *)
Ltac family_cases :=
  repeat match goal with |- _ /\ _ => split end;
  let H := fresh "Hname" in
  intros H;
  first [ discriminate H
        | by repeat split
        | exfalso; revert H; apply (bool_decide_unpack _); vm_compute; exact I ].

(** X15.  A mood is only reported when the hormones are past the thresholds
    of its family: anxious, restless and stressed need a cortisol deviation
    above 0.1 (with serotonin below -0.05, dopamine below -0.05 and cortisol
    above 0.15 respectively); depressed, melancholic and sad need a
    serotonin deviation below -0.08; euphoric, cheerful and energetic need a
    dopamine deviation above 0.08; loving, affectionate and caring need an
    oxytocin deviation above 0.1; content needs dopamine and serotonin above
    0.03 with cortisol below 0.1; conflicted needs dopamine, serotonin and
    cortisol all more than 0.05 away from the baseline. *)
Theorem X15_mood_families_are_sound (levels : gmap string Q) :
  let name := (calculate_mood_from_hormones levels).1 in
  let dopa_dev := deviation levels "dopamine" in
  let sero_dev := deviation levels "serotonin" in
  let cort_dev := deviation levels "cortisol" in
  let oxy_dev := deviation levels "oxytocin" in
  (name = "anxious"%string -> 0.1 < cort_dev /\ sero_dev < -0.05) /\
  (name = "restless"%string -> 0.1 < cort_dev /\ dopa_dev < -0.05) /\
  (name = "stressed"%string -> 0.15 < cort_dev) /\
  (name ∈ ["depressed"; "melancholic"; "sad"]%string -> sero_dev < -0.08) /\
  (name ∈ ["euphoric"; "cheerful"; "energetic"]%string -> 0.08 < dopa_dev) /\
  (name ∈ ["loving"; "affectionate"; "caring"]%string -> 0.1 < oxy_dev) /\
  (name = "content"%string -> 0.03 < dopa_dev /\ 0.03 < sero_dev /\ cort_dev < 0.1) /\
  (name = "conflicted"%string ->
     0.05 < Qabs dopa_dev /\ 0.05 < Qabs sero_dev /\ 0.05 < Qabs cort_dev).
Proof.
  intros name dopa_dev sero_dev cort_dev oxy_dev.
  destruct (calculate_mood_cases levels)
    as [[_ Hres] | (winner & score & Hin & _ & Hres)].
  { subst name. rewrite Hres. simpl. family_cases. }
  assert (Hname : name = winner) by (subst name; by rewrite Hres).
  rewrite Hname. clear Hname Hres name.
  rewrite mood_scores_blocks, !elem_of_app in Hin.
  fold dopa_dev sero_dev cort_dev oxy_dev in Hin.
  destruct Hin as [H | [H | [H | [H | [H | H]]]]].
  - apply cortisol_moods_gate in H as [Hc [[-> Hs] | [[-> Hd] | [-> Hc2]]]];
      family_cases.
  - apply serotonin_moods_gate in H as [Hs [-> | [-> | ->]]];
      family_cases.
  - apply dopamine_moods_gate in H as [Hd [-> | [-> | ->]]];
      family_cases.
  - apply oxytocin_moods_gate in H as [Ho [-> | [-> | ->]]];
      family_cases.
  - apply content_mood_gate in H as (-> & Hd & Hs & Hc);
      family_cases.
  - apply conflicted_mood_gate in H as (-> & Hd & Hs & Hc);
      family_cases.
Qed.

(** ** The current mood and the ledger *)

Lemma append_and_cap_last history entry :
  last (append_and_cap history entry) = Some entry.
Proof.
  destruct (append_and_cap_suffix history entry) as [dropped Hsplit].
  pose proof (append_and_cap_length history entry) as Hlen.
  destruct (append_and_cap history entry) as [| x xs] using rev_ind.
  - simpl in Hlen. lia.
  - rewrite app_assoc in Hsplit. apply app_inj_tail in Hsplit as [_ <-].
    apply last_snoc.
Qed.

(** X16.  After [update_mood], [get_current_mood] returns the new mood, its
    intensity and its context whenever the write of the mood document
    succeeded, also when the history could not be written; when the
    document could not be opened it returns what it returned before; when
    the dump failed after the file was truncated it returns the neutral
    default (intensity 0.5, stability medium), as it does for a missing or
    unreadable document. *)
Theorem X16_current_mood_after_update (get_mood_context : string -> Q -> MoodContext)
    (c : Call) (files : Files) (now : string) :
  let after := update_mood get_mood_context c files in
  (mood_write (call_env c) = Written ->
     get_current_mood now after = mood_data_of get_mood_context c /\
     current_mood (get_current_mood now after) = new_mood c /\
     intensity (get_current_mood now after) = call_intensity c) /\
  (mood_write (call_env c) = OpenFails ->
     get_current_mood now after = get_current_mood now files) /\
  (mood_write (call_env c) = DumpFails ->
     get_current_mood now after = default_mood_data now) /\
  (mood_adjustments_json files = Missing \/ mood_adjustments_json files = Unparsable ->
     get_current_mood now files = default_mood_data now).
Proof.
  intros after. subst after. unfold update_mood, get_current_mood.
  repeat match goal with |- _ /\ _ => split end.
  - intros ->. by destruct (load_mood_history _ _).
  - by intros ->.
  - by intros ->.
  - by intros [-> | ->].
Qed.

Lemma update_mood_from_hormones_unfold gmc env reason w :
  update_mood_from_hormones gmc env reason w =
    (((calculate_mood_from_hormones (load_hormone_levels (hormone_levels_json w))).1,
      (calculate_mood_from_hormones (load_hormone_levels (hormone_levels_json w))).2,
      gmc (calculate_mood_from_hormones (load_hormone_levels (hormone_levels_json w))).1
          (calculate_mood_from_hormones (load_hormone_levels (hormone_levels_json w))).2),
     {| hormone_levels_json := hormone_levels_json w;
        mood_files := update_mood gmc (mood_call gmc env reason w) (mood_files w) |}).
Proof.
  unfold update_mood_from_hormones, mood_call.
  by destruct (calculate_mood_from_hormones _).
Qed.

Lemma update_mood_newest gmc (c : Call) (files : Files) :
  succeeds c = true ->
  last (ledger (update_mood gmc c files)) = Some (history_entry_of gmc c).
Proof.
  intros Hok.
  destruct (update_mood_ledger gmc c files) as [[_ ->] | [Hfail _]]; [| congruence].
  apply append_and_cap_last.
Qed.

(** X17.  [update_mood_from_hormones] returns the mood and intensity that
    [calculate_mood_from_hormones] gives for the stored levels, with the
    context computed for them, and does not touch the hormone document; when
    the mood document is written, [get_current_mood] shows that same mood,
    intensity and context; when the history is written too, the newest
    entry of the ledger carries that mood, the intensity (in [0.1, 1]) and
    the reason of the call. *)
Theorem X17_mood_update_agrees (get_mood_context : string -> Q -> MoodContext)
    (env : Env) (why : string) (w : World) :
  let out := update_mood_from_hormones get_mood_context env why w in
  let result :=
    calculate_mood_from_hormones (load_hormone_levels (hormone_levels_json w)) in
  out.1 = (result.1, result.2, get_mood_context result.1 result.2) /\
  hormone_levels_json out.2 = hormone_levels_json w /\
  (mood_write env = Written ->
     forall now,
       current_mood (get_current_mood now (mood_files out.2)) = result.1 /\
       intensity (get_current_mood now (mood_files out.2)) = result.2 /\
       context (get_current_mood now (mood_files out.2))
         = get_mood_context result.1 result.2) /\
  (mood_write env = Written -> history_write env = Written ->
     exists entry,
       last (ledger (mood_files out.2)) = Some entry /\
       mood entry = result.1 /\
       entry_intensity entry = result.2 /\
       0.1 <= entry_intensity entry <= 1 /\
       reason entry = why).
Proof.
  intros out result. subst out. rewrite update_mood_from_hormones_unfold.
  fold result. cbn [fst snd hormone_levels_json mood_files].
  split; [reflexivity |]. split; [reflexivity |].
  split.
  - intros Hmood now. unfold update_mood, get_current_mood, mood_call.
    cbn [call_env env_at mood_write]. rewrite Hmood.
    by destruct (load_mood_history _ _).
  - intros Hmood Hhist. eexists. split.
    { apply update_mood_newest. unfold succeeds, mood_call.
      cbn [call_env env_at mood_write history_write]. by rewrite Hmood, Hhist. }
    unfold history_entry_of, mood_call.
    cbn [mood entry_intensity reason new_mood call_intensity call_reason].
    split; [reflexivity |]. split; [reflexivity |]. split; [| reflexivity].
    destruct (calculate_mood_cases (load_hormone_levels (hormone_levels_json w)))
      as [[_ Hres] | (name & score & _ & _ & Hres)];
      subst result; rewrite Hres; cbn [snd];
      [lra | apply (proj1 (intensity_clamp score))].
Qed.

Lemma snapshot_for_contextual gmc env (w : World) :
  hormone_snapshot (history_entry_of gmc (mood_call gmc env "contextual_analysis" w))
    = Some (load_hormone_levels (hormone_levels_json w)).
Proof. reflexivity. Qed.

Lemma snapshot_for_event gmc env (event : string) (w : World) :
  hormone_snapshot
    (history_entry_of gmc (mood_call gmc env ("hormone_event:" +:+ event) w))
    = Some (load_hormone_levels (hormone_levels_json w)).
Proof.
  unfold history_entry_of, mood_call. cbn [hormone_snapshot call_reason].
  assert (Htag : str_contains "hormone_event" ("hormone_event:" +:+ event) = true)
    by reflexivity.
  assert (Hfull : negb (String.eqb ("hormone_event:" +:+ event) "") = true)
    by reflexivity.
  rewrite Htag, Hfull, orb_true_r. reflexivity.
Qed.

Lemma snapshot_for_other gmc env (w : World) :
  hormone_snapshot (history_entry_of gmc (mood_call gmc env "natural_fluctuation" w))
    = None /\
  hormone_snapshot (history_entry_of gmc (mood_call gmc env "manual_recalculation" w))
    = None /\
  hormone_snapshot (history_entry_of gmc (mood_call gmc env "hormonal_shift" w))
    = None.
Proof. by repeat split. Qed.

(** X18.  [apply_sentiment_to_mood] raises whenever the hormone adjustment
    raises.  When it returns, the hormone document is the one the adjustment
    saved, the returned mood is the one calculated from the saved levels,
    and, when both mood writes succeed, the newest ledger entry has the
    reason "contextual_analysis", that mood, and a hormone snapshot equal to
    the saved levels, which are in [0,1] when the store was. *)
Theorem X18_sentiment_updates_mood_from_saved_levels
    (get_mood_context : string -> Q -> MoodContext) (m : Message) (env : Env)
    (w : World) :
  (apply_message m (hormone_levels_json w) = None ->
     apply_sentiment_to_mood get_mood_context m env w = None) /\
  (forall triple w',
     apply_sentiment_to_mood get_mood_context m env w = Some (triple, w') ->
     let saved := load_hormone_levels (hormone_levels_json w') in
     (exists new_hormones,
        apply_message m (hormone_levels_json w)
          = Some (new_hormones, hormone_levels_json w')) /\
     (triple.1.1, triple.1.2) = calculate_mood_from_hormones saved /\
     (in_unit_range (load_hormone_levels (hormone_levels_json w)) ->
        in_unit_range saved) /\
     (mood_write env = Written -> history_write env = Written ->
        exists entry,
          last (ledger (mood_files w')) = Some entry /\
          reason entry = "contextual_analysis"%string /\
          mood entry = triple.1.1 /\
          hormone_snapshot entry = Some saved)).
Proof.
  unfold apply_sentiment_to_mood. split.
  { by intros ->. }
  intros triple w' Hrun.
  destruct (apply_message m (hormone_levels_json w)) as [[new_hormones doc] |] eqn:Hadj;
    [| discriminate].
  rewrite update_mood_from_hormones_unfold in Hrun.
  injection Hrun as <- <-. cbn [hormone_levels_json mood_files fst snd].
  split; [by exists new_hormones |].
  split; [by destruct (calculate_mood_from_hormones _) |].
  split.
  { intros Hrange. unfold apply_message in Hadj.
    destruct (apply_analysis_range _ _ _ _ Hrange Hadj) as [_ ->].
    apply save_in_unit_range. }
  intros Hmood Hhist. eexists. split.
  { apply update_mood_newest. unfold succeeds, mood_call.
    cbn [call_env env_at mood_write history_write]. by rewrite Hmood, Hhist. }
  split; [reflexivity |]. split; [reflexivity |].
  apply snapshot_for_contextual.
Qed.

(** X19.  [handle_event_and_update_mood] tags its ledger entry with
    "hormone_event:" followed by the event, so for every event string, known
    or not, the entry carries a snapshot of the saved hormone levels; the
    levels it returns are the ones the adjustment returned.  The entries of
    a natural fluctuation, of a manual recalculation and of the default
    reason carry no snapshot. *)
Theorem X19_event_entries_carry_snapshot
    (get_mood_context : string -> Q -> MoodContext) (event processed_text : string)
    (emotion_result toxicity_result : option PipelineOutput) (env : Env) (w : World) :
  (forall mood_name mood_intensity ctx new_hormones w',
     handle_event_and_update_mood get_mood_context event processed_text
       emotion_result toxicity_result env w
       = Some ((mood_name, mood_intensity, ctx, new_hormones), w') ->
     adjust_hormones event processed_text emotion_result toxicity_result
       (hormone_levels_json w)
       = Some (new_hormones, hormone_levels_json w') /\
     (mood_write env = Written -> history_write env = Written ->
        exists entry,
          last (ledger (mood_files w')) = Some entry /\
          reason entry = ("hormone_event:" +:+ event)%string /\
          mood entry = mood_name /\
          hormone_snapshot entry
            = Some (load_hormone_levels (hormone_levels_json w')))) /\
  (forall drift,
     mood_write env = Written -> history_write env = Written ->
     exists entry,
       last (ledger (mood_files
               (simulate_hormone_fluctuation get_mood_context drift env w).2))
         = Some entry /\
       reason entry = "natural_fluctuation"%string /\
       hormone_snapshot entry = None) /\
  (mood_write env = Written -> history_write env = Written ->
     exists entry,
       last (ledger (mood_files (force_mood_recalculation get_mood_context env w).2))
         = Some entry /\
       reason entry = "manual_recalculation"%string /\
       hormone_snapshot entry = None).
Proof.
  split.
  { intros mood_name mood_intensity ctx new_hormones w' Hrun.
    unfold handle_event_and_update_mood in Hrun.
    destruct (adjust_hormones event processed_text emotion_result toxicity_result
                (hormone_levels_json w)) as [[hormones doc] |] eqn:Hadj;
      [| discriminate].
    rewrite update_mood_from_hormones_unfold in Hrun.
    injection Hrun as <- <- <- <- <-. cbn [hormone_levels_json mood_files].
    split; [reflexivity |].
    intros Hmood Hhist. eexists. split.
    { apply update_mood_newest. unfold succeeds, mood_call.
      cbn [call_env env_at mood_write history_write]. by rewrite Hmood, Hhist. }
    split; [reflexivity |]. split; [reflexivity |].
    apply snapshot_for_event. }
  split.
  { intros drift Hmood Hhist. unfold simulate_hormone_fluctuation.
    rewrite update_mood_from_hormones_unfold. cbn [snd mood_files].
    eexists. split.
    { apply update_mood_newest. unfold succeeds, mood_call.
      cbn [call_env env_at mood_write history_write]. by rewrite Hmood, Hhist. }
    split; [reflexivity |]. apply snapshot_for_other. }
  intros Hmood Hhist. unfold force_mood_recalculation.
  rewrite update_mood_from_hormones_unfold. cbn [snd mood_files].
  eexists. split.
  { apply update_mood_newest. unfold succeeds, mood_call.
    cbn [call_env env_at mood_write history_write]. by rewrite Hmood, Hhist. }
  split; [reflexivity |]. apply snapshot_for_other.
Qed.

(** X20.  A history write that fails after the file was opened loses the
    ledger: the next successful [update_mood] leaves a ledger that holds
    its own entry only, whatever was recorded before.  A history write that
    cannot open the file drops the entry of that call and keeps the ledger
    as it was. *)
Theorem X20_failed_history_write (get_mood_context : string -> Q -> MoodContext)
    (c1 c2 : Call) (files : Files)
    (Hmood : mood_write (call_env c1) = Written) :
  (history_write (call_env c1) = DumpFails ->
     ledger (update_mood get_mood_context c1 files) = [] /\
     (succeeds c2 = true ->
        ledger (update_mood get_mood_context c2 (update_mood get_mood_context c1 files))
          = [history_entry_of get_mood_context c2])) /\
  (history_write (call_env c1) = OpenFails ->
     ledger (update_mood get_mood_context c1 files) = ledger files).
Proof.
  assert (Hfirst : history_write (call_env c1) = DumpFails ->
            mood_history_json (update_mood get_mood_context c1 files) = Unparsable).
  { intros Hdump. unfold update_mood, save_mood_history. rewrite Hmood.
    destruct (load_mood_history _ _). cbn [mood_history_json]. by rewrite Hdump. }
  split.
  - intros Hdump. specialize (Hfirst Hdump). split.
    + unfold ledger. by rewrite Hfirst.
    + intros Hok.
      destruct (update_mood_ledger get_mood_context c2
                  (update_mood get_mood_context c1 files)) as [[_ ->] | [Hfail _]];
        [| congruence].
      unfold ledger. rewrite Hfirst. reflexivity.
  - intros Hopen. unfold update_mood, save_mood_history, ledger. rewrite Hmood.
    destruct (mood_history_json files) as [| | history];
      cbn [load_mood_history mood_history_json]; rewrite Hopen; cbn [write_file];
      try reflexivity.
    by destruct (history_init_write (call_env c1)).
Qed.

(** ** The mood summary *)

Lemma length_last_n {A : Type} (n : nat) (l : list A) :
  length (last_n n l) = Nat.min n (length l).
Proof. unfold last_n. rewrite length_drop. lia. Qed.

Lemma distinct_count_le (names : list string) :
  (distinct_count names <= length names)%nat.
Proof.
  unfold distinct_count. induction names as [| x rest IH]; simpl; [lia |].
  destruct (decide_rel elem_of x rest); simpl; lia.
Qed.

Lemma some_flagged {A : Type} (P : A -> Prop) `{forall x, Decision (P x)} (l : list A) :
  Nat.ltb 0 (length (filter P l)) = true <-> exists x, x ∈ l /\ P x.
Proof.
  rewrite Nat.ltb_lt. split.
  - intros Hlen. destruct (filter P l) as [| x rest] eqn:Hf; [simpl in Hlen; lia |].
    assert (Hin : x ∈ filter P l) by (rewrite Hf; apply elem_of_cons; by left).
    apply list_elem_of_filter in Hin as [HP Hx]. by exists x.
  - intros (x & Hx & HP).
    assert (Hin : x ∈ filter P l) by (by apply list_elem_of_filter).
    destruct (filter P l); [by apply elem_of_nil in Hin | simpl; lia].
Qed.

(** X21.  [get_mood_summary] reports the moods of the last ten ledger
    entries in ledger order, counts hybrid and emergent entries among the
    last twenty only (so neither count exceeds 20), reports the length of
    the ledger as the total, flags undefined states exactly when one of the
    last twenty entries is hybrid or emergent, reports a high volatility
    only when the ledger has at least seven entries and a low one whenever
    it has at most three, and leaves the ledger as it was. *)
Theorem X21_mood_summary_bounds (now : string) (init_write : WriteOutcome) (w : World) :
  let summary := (get_mood_summary now init_write w).1 in
  let history := ledger (mood_files w) in
  recent_moods summary = mood <$> last_n 10 history /\
  length (recent_moods summary) = Nat.min 10 (length history) /\
  total_mood_changes summary = length history /\
  (hybrid_states_count summary <= Nat.min 20 (length history))%nat /\
  (emergent_states_count summary <= Nat.min 20 (length history))%nat /\
  (has_undefined_states summary = true <->
     exists entry, entry ∈ last_n 20 history /\
       (is_hybrid entry = true \/ is_emergent entry = true)) /\
  (mood_volatility summary = "high"%string -> (7 <= length history)%nat) /\
  ((length history <= 3)%nat -> mood_volatility summary = "low"%string) /\
  current_state summary = get_current_mood now (mood_files w) /\
  ledger (mood_files (get_mood_summary now init_write w).2) = history.
Proof.
  intros summary history. subst summary history.
  unfold get_mood_summary.
  pose proof (load_mood_history_ledger init_write (mood_files w)) as Hload.
  destruct (load_mood_history init_write (mood_history_json (mood_files w)))
    as [history history_file] eqn:Hfile.
  cbn [fst] in Hload. subst history.
  cbn [fst snd recent_moods total_mood_changes hybrid_states_count
       emergent_states_count has_undefined_states mood_volatility current_state
       mood_files].
  set (history := ledger (mood_files w)) in *.
  assert (Hrecent : length (mood <$> last_n 10 history) = Nat.min 10 (length history))
    by (by rewrite length_fmap, length_last_n).
  pose proof (distinct_count_le (mood <$> last_n 10 history)) as Hdistinct.
  split; [reflexivity |].
  split; [exact Hrecent |].
  split; [reflexivity |].
  split.
  { etrans; [apply length_filter |]. by rewrite length_last_n. }
  split.
  { etrans; [apply length_filter |]. by rewrite length_last_n. }
  split.
  { rewrite orb_true_iff, !some_flagged. split.
    - intros [(e & He & Hp) | (e & He & Hp)]; exists e; auto.
    - intros (e & He & [Hp | Hp]); [left | right]; by exists e. }
  split.
  { destruct (Nat.ltb 6 _) eqn:Hsix.
    - intros _. apply Nat.ltb_lt in Hsix. lia.
    - destruct (Nat.ltb 3 _); discriminate. }
  split.
  { intros Hshort.
    assert (H6 : Nat.ltb 6 (distinct_count (mood <$> last_n 10 history)) = false)
      by (apply Nat.ltb_ge; lia).
    assert (H3 : Nat.ltb 3 (distinct_count (mood <$> last_n 10 history)) = false)
      by (apply Nat.ltb_ge; lia).
    by rewrite H6, H3. }
  split; [reflexivity |].
  unfold ledger in *. cbn [mood_history_json].
  unfold load_mood_history in Hfile.
  destruct (mood_history_json (mood_files w)) as [| | h];
    injection Hfile as <-; [by destruct init_write | done | done].
Qed.

(** ** Concrete instances of the further properties *)

(** The model ranks fear (0.7) above sadness (0.2) and joy (0.05): fear is
    the primary emotion of the message. *)
Lemma X5_top_emotion_drives_message_witness :
  primary_emotion (analyze_message fear_message) = "fear"%string /\
  emotion_intensity (analyze_message fear_message) = 0.7.
Proof.
  destruct (X5_top_emotion_drives_message fear_message
              {| em_label := "fear"; em_score := 0.7 |}
              [ {| em_label := "sadness"; em_score := 0.2 |} ])
    as (Hname & Hscore & _).
  - vm_compute. reflexivity.
  - left. vm_compute. reflexivity.
  - split; [exact Hname | exact Hscore].
Defined.

(** No emotion and no toxicity: the default store decays (and stays). *)
Lemma X6_quiet_message_decays_witness :
  hormone_deltas (analyze_contextual_sentiment [] not_toxic 0) = ∅ /\
  adjustment_reasons (analyze_contextual_sentiment [] not_toxic 0)
    = ["emotion_neutral"%string].
Proof.
  destruct (X6_quiet_message_decays [] not_toxic 0 None)
    as (_ & Hreasons & Hdeltas & _).
  - by left.
  - by left.
  - split; [exact Hdeltas | exact Hreasons].
Defined.

(** Fear does not lower cortisol from the baseline. *)
Lemma X7_update_follows_delta_sign_witness :
  exists c' : Q,
    (fst <$> apply_analysis (analyze_contextual_sentiment fear_signal not_toxic 1) None)
      ≫= (.!! "cortisol"%string) = Some c' /\
    0.5 <= c'.
Proof.
  destruct (apply_analysis (analyze_contextual_sentiment fear_signal not_toxic 1) None)
    as [[updated doc'] |] eqn:Happly; [| vm_compute in Happly; discriminate].
  destruct (X7_update_follows_delta_sign
              (analyze_contextual_sentiment fear_signal not_toxic 1) None
              updated doc' "cortisol"%string 0.5 (0 + 0.15 * 1 * 1))
    as (c' & Hlk & Hup & _).
  - vm_compute. reflexivity.
  - split; vm_compute; discriminate.
  - vm_compute. reflexivity.
  - exact Happly.
  - exists c'. split; [exact Hlk |].
    apply Hup. vm_compute. discriminate.
Defined.

(** The update of the default store keeps its four hormones. *)
Lemma X8_update_keeps_key_set_witness :
  (fun r : gmap string Q * HormoneDoc => dom r.1) <$>
    apply_analysis (analyze_contextual_sentiment fear_signal not_toxic 1) None
  = Some (dom default_hormone_levels).
Proof.
  destruct (apply_analysis (analyze_contextual_sentiment fear_signal not_toxic 1) None)
    as [[updated doc'] |] eqn:Happly; [| vm_compute in Happly; discriminate].
  cbn [fmap option_fmap option_map fst]. f_equal.
  exact (proj1 (X8_update_keeps_key_set _ None updated doc' Happly)).
Defined.

(** A frightened message and then a fluctuation on a saturated store. *)
Lemma X11_all_writers_keep_unit_range_witness :
  in_unit_range
    (load_hormone_levels
       (run_steps
          [ Contextual (analyze_contextual_sentiment fear_signal not_toxic 1);
            Fluctuation (fun _ => 0.02) ]
          (Some saturated_levels))).
Proof.
  apply (X11_all_writers_keep_unit_range _ (Some saturated_levels)).
  apply in_unit_rangeb_sound. vm_compute. reflexivity.
Defined.

(** Fifty neutral messages bring a saturated store back to neutral. *)
Lemma X12_quiet_messages_reset_mood_witness :
  calculate_mood_from_hormones
    (load_hormone_levels
       (run_updates (replicate 50 neutral_analysis) (Some saturated_levels)))
  = ("neutral"%string, 0.5).
Proof.
  apply (X12_quiet_messages_reset_mood (Some saturated_levels)
           (replicate 50 neutral_analysis)).
  - apply in_unit_rangeb_sound. vm_compute. reflexivity.
  - apply Forall_forall. intros analysis Hin.
    apply elem_of_replicate in Hin as [-> _]. reflexivity.
  - rewrite length_replicate. lia.
Defined.

(** A dump failure of the history followed by a successful update. *)
Lemma X20_failed_history_write_witness :
  ledger (update_mood no_context (sample_call Written Written)
            (update_mood no_context (sample_call Written DumpFails) one_entry_files))
  = [history_entry_of no_context (sample_call Written Written)].
Proof.
  destruct (X20_failed_history_write no_context (sample_call Written DumpFails)
              (sample_call Written Written) one_entry_files) as [Hdump _].
  - reflexivity.
  - destruct Hdump as [_ Hnext]; [reflexivity |]. apply Hnext. reflexivity.
Defined.

(** A blank text gives no emotions, whatever the model would say. *)
Lemma X1_detect_emotion_sorted_witness :
  detect_emotion "  " "" (emotion_output fear_message) 0.1 = [] /\
  detect_emotion (msg_text fear_message) (msg_processed fear_message)
    (emotion_output fear_message) 0.1
  ≡ₚ [ {| em_label := "sadness"; em_score := 0.2 |};
       {| em_label := "fear"; em_score := 0.7 |} ].
Proof.
  split.
  - apply (X1_detect_emotion_sorted "  " "" (emotion_output fear_message) 0.1).
    left. reflexivity.
  - destruct (X1_detect_emotion_sorted (msg_text fear_message)
                (msg_processed fear_message) (emotion_output fear_message) 0.1)
      as (_ & _ & _ & Hperm & _).
    destruct (Hperm _ eq_refl) as [Hp _]; [reflexivity | discriminate |].
    exact Hp.
Defined.

(** A TOXIC result of 0.1 is reported with its score but not flagged. *)
Lemma X2_detect_toxicity_shape_witness :
  tox_score (detect_toxicity (msg_text fear_message) (msg_processed fear_message)
               (toxicity_output fear_message) 0.3) = 0.1 /\
  tox_label (detect_toxicity (msg_text fear_message) (msg_processed fear_message)
               (toxicity_output fear_message) 0.3) = "NOT_TOXIC"%string.
Proof.
  destruct (X2_detect_toxicity_shape (msg_text fear_message)
              (msg_processed fear_message) (toxicity_output fear_message) 0.3)
    as (_ & Hlabel & Hscore & _).
  split.
  - destruct (Hscore
                (Batch [[ {| em_label := "NOT_TOXIC"; em_score := 0.9 |};
                          {| em_label := "TOXIC"; em_score := 0.1 |} ]]) 0.1)
      as [Hs _]; [reflexivity | discriminate | reflexivity | reflexivity |].
    exact Hs.
  - apply Hlabel. reflexivity.
Defined.

(** A strongly toxic message adds 0.15 * 0.9 to the cortisol delta. *)
Lemma X3_detected_toxicity_uses_toxic_row_witness :
  hormone_deltas (analyze_message toxic_message) !! "cortisol"%string
  = Some (default 0
            (emotion_deltas_of
               (detect_emotion (msg_text toxic_message) (msg_processed toxic_message)
                  (emotion_output toxic_message) 0.1)
               (overall_confidence
                  (analyze_sentiment_confidence (msg_text toxic_message)
                     (detect_emotion (msg_text toxic_message)
                        (msg_processed toxic_message)
                        (emotion_output toxic_message) 0.1)
                     (detect_toxicity (msg_text toxic_message)
                        (msg_processed toxic_message)
                        (toxicity_output toxic_message) 0.3)))
             !! "cortisol"%string)
          + 0.15 * tox_score (detect_toxicity (msg_text toxic_message)
                                (msg_processed toxic_message)
                                (toxicity_output toxic_message) 0.3)).
Proof.
  destruct (X3_detected_toxicity_uses_toxic_row (msg_text toxic_message)
              (msg_processed toxic_message) (toxicity_output toxic_message) 0.3
              (detect_emotion (msg_text toxic_message) (msg_processed toxic_message)
                 (emotion_output toxic_message) 0.1)
              (overall_confidence
                 (analyze_sentiment_confidence (msg_text toxic_message)
                    (detect_emotion (msg_text toxic_message)
                       (msg_processed toxic_message)
                       (emotion_output toxic_message) 0.1)
                    (detect_toxicity (msg_text toxic_message)
                       (msg_processed toxic_message)
                       (toxicity_output toxic_message) 0.3))))
    as [Hon _].
  destruct Hon as (Hcort & _); [reflexivity | vm_compute; reflexivity |].
  exact Hcort.
Defined.

(** A flagged score of 0.9 lifts the confidence to at least 0.8. *)
Lemma X4_confidence_bounds_witness :
  0.8 <= overall_confidence (analyze_sentiment_confidence "maybe" [] toxic_signal).
Proof.
  destruct (X4_confidence_bounds "maybe" [] toxic_signal) as (_ & Hboost & _).
  apply Hboost; [reflexivity | vm_compute; reflexivity].
Defined.

(** Fear on a store without any hormone raises. *)
Lemma X9_update_fails_on_missing_key_witness :
  apply_analysis (analyze_contextual_sentiment fear_signal not_toxic 1) (Some ∅) = None.
Proof.
  apply (X9_update_fails_on_missing_key
           (analyze_contextual_sentiment fear_signal not_toxic 1) (Some ∅)).
  exists "cortisol"%string. split; [vm_compute; eauto | reflexivity].
Defined.


(** Cortisol at 0.8: never neutral, intensity at least 0.36. *)
Lemma X14_neutral_zone_and_triggers_witness :
  (calculate_mood_from_hormones stressed_levels).1 <> "neutral"%string /\
  py_min 1 (deviation stressed_levels "cortisol" * 1.2)
    <= (calculate_mood_from_hormones stressed_levels).2.
Proof.
  destruct (X14_neutral_zone_and_triggers stressed_levels) as (_ & Hcort & _).
  apply Hcort. vm_compute. reflexivity.
Defined.

(** The stress scenario is anxious: cortisol high and serotonin low. *)
Lemma X15_mood_families_are_sound_witness :
  0.1 < deviation stressed_levels "cortisol" /\
  deviation stressed_levels "serotonin" < -0.05.
Proof.
  destruct (X15_mood_families_are_sound stressed_levels) as (Hanxious & _).
  apply Hanxious. vm_compute. reflexivity.
Defined.

(** The mood written by a call is the mood read back. *)
Lemma X16_current_mood_after_update_witness :
  current_mood
    (get_current_mood "2025-01-01T00:00:02"
       (update_mood no_context (sample_call Written OpenFails) one_entry_files))
  = "anxious"%string.
Proof.
  destruct (X16_current_mood_after_update no_context (sample_call Written OpenFails)
              one_entry_files "2025-01-01T00:00:02"%string) as (Hok & _).
  destruct (Hok eq_refl) as (_ & Hmood & _). exact Hmood.
Defined.

(** On the stressed store the ledger's newest entry is the anxious mood. *)
Lemma X17_mood_update_agrees_witness :
  exists entry,
    last (ledger (mood_files
            (update_mood_from_hormones no_context sample_env "hormonal_shift"
               one_entry_world).2)) = Some entry /\
    mood entry = "anxious"%string.
Proof.
  destruct (X17_mood_update_agrees no_context sample_env "hormonal_shift"%string
              one_entry_world) as (_ & _ & _ & Hentry).
  destruct (Hentry eq_refl eq_refl) as (entry & Hlast & Hmood & _).
  exists entry. split; [exact Hlast |]. rewrite Hmood. vm_compute. reflexivity.
Defined.

(** A frightened message on a store without hormones, and on a fresh
    installation. *)
Lemma X18_sentiment_updates_mood_from_saved_levels_witness :
  apply_sentiment_to_mood no_context fear_message sample_env
    {| hormone_levels_json := Some ∅; mood_files := mood_files fresh_world |} = None /\
  exists out entry,
    apply_sentiment_to_mood no_context fear_message sample_env fresh_world = Some out /\
    last (ledger (mood_files out.2)) = Some entry /\
    hormone_snapshot entry = Some (load_hormone_levels (hormone_levels_json out.2)).
Proof.
  split.
  { apply (proj1 (X18_sentiment_updates_mood_from_saved_levels no_context fear_message
                    sample_env _)).
    vm_compute. reflexivity. }
  destruct (apply_sentiment_to_mood no_context fear_message sample_env fresh_world)
    as [[triple w'] |] eqn:Hrun; [| vm_compute in Hrun; discriminate].
  destruct (X18_sentiment_updates_mood_from_saved_levels no_context fear_message
              sample_env fresh_world) as [_ Hok].
  destruct (Hok triple w' Hrun) as (_ & _ & _ & Hentry).
  destruct (Hentry eq_refl eq_refl) as (entry & Hlast & _ & _ & Hsnap).
  exists (triple, w'), entry. by repeat split.
Defined.

(** An event that is not in the table still gets a snapshot. *)
Lemma X19_event_entries_carry_snapshot_witness :
  exists out entry,
    handle_event_and_update_mood no_context "surprise_party" "surprise party"
      (emotion_output fear_message) (toxicity_output fear_message) sample_env
      fresh_world = Some out /\
    last (ledger (mood_files out.2)) = Some entry /\
    hormone_snapshot entry = Some (load_hormone_levels (hormone_levels_json out.2)).
Proof.
  destruct (handle_event_and_update_mood no_context "surprise_party" "surprise party"
              (emotion_output fear_message) (toxicity_output fear_message)
              sample_env fresh_world)
    as [[[[[mood_name mood_intensity] ctx] new_hormones] w'] |] eqn:Hrun;
    [| vm_compute in Hrun; discriminate].
  destruct (X19_event_entries_carry_snapshot no_context "surprise_party"%string
              "surprise party"%string (emotion_output fear_message)
              (toxicity_output fear_message) sample_env fresh_world) as [Hok _].
  destruct (Hok _ _ _ _ _ Hrun) as (_ & Hentry).
  destruct (Hentry eq_refl eq_refl) as (entry & Hlast & _ & _ & Hsnap).
  exists (mood_name, mood_intensity, ctx, new_hormones, w'), entry. by repeat split.
Defined.

(** A ledger of one entry has a low volatility. *)
Lemma X21_mood_summary_bounds_witness :
  mood_volatility (get_mood_summary "2025-01-01T00:00:02" Written one_entry_world).1
  = "low"%string.
Proof.
  destruct (X21_mood_summary_bounds "2025-01-01T00:00:02"%string Written
              one_entry_world) as (_ & _ & _ & _ & _ & _ & _ & Hlow & _).
  apply Hlow. vm_compute. lia.
Defined.
